(** * Legal assistant: a shallow embedding of [assistant.py]

    The program is an orchestration layer around three outside services:
    the scraping proxy (reached with [requests.get]), the HTML library
    ([BeautifulSoup] with the ['html.parser'] builder) and the remote
    assistant service (the [client] object).  The embedding keeps the
    program's own control flow (exception handlers, the tool registry, the
    polling loop, the walk over the content blocks) and takes the answers of
    the outside services from an environment record.  Every call to a
    service and every message shown to the user is appended to a trace, so
    that statements about what was invoked or submitted, and in which order,
    are statements about that trace. *)

From stdpp Require Import base option list sorting gmap strings.
From Stdlib Require Import Ascii String ZArith DecimalString.
From Stdlib Require OrderedTypeEx.

Set Warnings "-clear-no-such-hyp".

(** ** Python values *)

(** The JSON-like fragment of Python values: what [json.loads] produces and
    what the registered tool returns.  Characters of a [string] stand for
    code points below 256. *)
#[warnings="-register-all"]
Inductive pyvalue :=
| PyNone
| PyBool (b : bool)
| PyInt (z : Z)
| PyFloat (literal : string)
| PyStr (s : string)
| PyList (items : list pyvalue)
| PyDict (entries : list (string * pyvalue)).

Definition kwargs := list (string * pyvalue).

Definition type_name (v : pyvalue) : string :=
  match v with
  | PyNone => "NoneType"
  | PyBool _ => "bool"
  | PyInt _ => "int"
  | PyFloat _ => "float"
  | PyStr _ => "str"
  | PyList _ => "list"
  | PyDict _ => "dict"
  end.

(** ** Exceptions *)

(** Instances of Python's [Exception], the class that the handlers of the
    program catch (a [KeyboardInterrupt] or a [SystemExit] is not one).  The
    three [Req*] classes are [requests.exceptions.Timeout],
    [TooManyRedirects] and every other [RequestException]; [OtherError]
    stands for any class not named in the program (an API error of the
    assistant service, for instance). *)
Inductive exn_class :=
| ReqTimeout
| ReqTooManyRedirects
| ReqOther
| ValueError
| TypeError
| AttributeError
| IndexError
| OtherError.

Record exn := Exn { exn_class_of : exn_class; exn_msg : string }.

(** [str(e)] *)
Definition str_exn (e : exn) : string := exn_msg e.

(** ** Objects of the assistant service *)

Record tool_call := ToolCall {
  call_id : string;
  call_name : string;          (* call.function.name *)
  call_arguments : string      (* call.function.arguments, JSON text *)
}.

Record run := Run {
  run_id : string;
  run_status : string;
  (* run.required_action.submit_tool_outputs.tool_calls; [None] when
     [run.required_action] is None *)
  run_tool_calls : option (list tool_call)
}.

Record tool_output := ToolOutput {
  tool_call_id : string;
  output : string
}.

Inductive annotation :=
| FilePathAnnotation (text : string) (file_id : string)
| OtherAnnotation (type : string).

Inductive content_block :=
| TextBlock (value : string) (annotations : list annotation)
| ImageFileBlock (file_id : string)
| OtherBlock (type : string).

Record message := Message {
  msg_role : string;
  msg_content : list content_block
}.

Record response := Response {
  status_code : Z;
  text : string              (* response.text, decoded as UTF-8 *)
}.

(** ** Parsed HTML *)

(** The tree that [BeautifulSoup] builds: tags with their attribute
    dictionaries, and the strings that [get_text] reads. *)
#[warnings="-register-all"]
Inductive node :=
| NText (s : string)
| NTag (name : string) (attrs : gmap string string) (children : list node).

Definition soup := list node.

(** ** Traces *)

Inductive ui_kind := Spinner | Success | Error.

Inductive event :=
| EvUi (k : ui_kind) (msg : string)               (* st.spinner, st.success, st.error *)
| EvHttpGet (endpoint : string) (params : kwargs) (* requests.get *)
| EvCall (fn : string) (args : kwargs)            (* func( **kwargs ) in safe_tool_call *)
| EvMessageCreate (content : string)
| EvRunCreate (assistant_id : string)
| EvRunRetrieve (id : string)
| EvSubmit (id : string) (outputs : list tool_output)
| EvSleep (seconds : nat)
| EvMessagesList (limit : nat)
| EvFileContent (file_id : string).

Definition trace := list event.

(** ** The environment *)

(** What the outside world answers.  A service sees the trace up to its
    call, so its answers may change from call to call and may depend on
    what was submitted before.  The record is bound to one session: its
    thread identifier and the two secrets are fixed. *)
Record Env := {
  API_KEY : string;
  requests_get : trace → string → kwargs → exn + response;
  html_parser : string → soup;
  py_repr : pyvalue → string;
  json_loads : string → exn + pyvalue;
  json_dumps : pyvalue → string;
  format_exc : exn → string;
  messages_create : trace → string → exn + unit;
  runs_create : trace → string → exn + run;
  runs_retrieve : trace → string → exn + run;
  submit_tool_outputs : trace → string → list tool_output → exn + run;
  messages_list : trace → nat → exn + list message;
  files_content : trace → string → exn + string
}.

(** ** The monad: a trace, exceptions, and a polling loop that may not end *)

Inductive outcome (A : Type) :=
| Normal (a : A)
| Raised (e : exn)
| Diverged.
Arguments Normal {A} a.
Arguments Raised {A} e.
Arguments Diverged {A}.

Definition M (A : Type) : Type := trace → outcome A * trace.

Definition ret {A} (a : A) : M A := λ tr, (Normal a, tr).

Definition bind {A B} (m : M A) (k : A → M B) : M B :=
  λ tr, match m tr with
        | (Normal a, tr') => k a tr'
        | (Raised e, tr') => (Raised e, tr')
        | (Diverged, tr') => (Diverged, tr')
        end.

Definition raise {A} (e : exn) : M A := λ tr, (Raised e, tr).

Definition diverge {A} : M A := λ tr, (Diverged, tr).

(** [try: m  except Exception as e: h e] *)
Definition try_except {A} (m : M A) (h : exn → M A) : M A :=
  λ tr, match m tr with
        | (Raised e, tr') => h e tr'
        | r => r
        end.

Definition log (ev : event) : M unit := λ tr, (Normal tt, tr ++ [ev]).

(** A call to an outside service: the request is logged, the answer is the
    environment's at the trace before the call. *)
Definition service {A} (ev : event) (answer : trace → exn + A) : M A :=
  λ tr, match answer tr with
        | inl e => (Raised e, tr ++ [ev])
        | inr a => (Normal a, tr ++ [ev])
        end.

Notation "x <- m ;; k" := (bind m (λ x, k))
  (at level 100, m at next level, k at level 200, right associativity).
Notation "m ;;; k" := (bind m (λ _, k))
  (at level 100, k at level 200, right associativity).

Definition st_spinner (msg : string) : M unit := log (EvUi Spinner msg).
Definition st_success (msg : string) : M unit := log (EvUi Success msg).
Definition st_error (msg : string) : M unit := log (EvUi Error msg).

(** ** String helpers *)

Definition str_Z (z : Z) : string := NilZero.string_of_int (Z.to_int z).

(** [str.isspace] on code points below 256 *)
Definition isspace (c : ascii) : bool :=
  let n := nat_of_ascii c in
  ((9 <=? n) && (n <=? 13) || (28 <=? n) && (n <=? 32)
   || (n =? 133) || (n =? 160))%nat.

Fixpoint lstrip (s : string) : string :=
  match s with
  | String c s' => if isspace c then lstrip s' else s
  | EmptyString => EmptyString
  end.

Fixpoint rstrip (s : string) : string :=
  match s with
  | String c s' =>
      match rstrip s' with
      | EmptyString => if isspace c then EmptyString else String c EmptyString
      | r => String c r
      end
  | EmptyString => EmptyString
  end.

(** [s.strip()] *)
Definition strip (s : string) : string := rstrip (lstrip s).

(** the truth value of a [str] *)
Definition truthy (s : string) : bool :=
  match s with EmptyString => false | _ => true end.

(** [s.split(sep)] for a one-character separator *)
Fixpoint split (sep : ascii) (s : string) : list string :=
  match s with
  | EmptyString => [EmptyString]
  | String c s' =>
      if Ascii.eqb c sep then EmptyString :: split sep s'
      else match split sep s' with
           | h :: t => String c h :: t
           | [] => [String c EmptyString]
           end
  end.

(** [s.split('/')[-1]] *)
Definition last_segment (s : string) : string :=
  List.last (split "/"%char s) EmptyString.

(** [sep.join(parts)] *)
Definition join (sep : string) (parts : list string) : string :=
  String.concat sep parts.

(** the order of [str]: lexicographic on code points *)
Definition str_le (a b : string) : Prop := String.leb a b = true.
Definition str_lt (a b : string) : Prop := String.ltb a b = true.

Global Instance str_le_dec a b : Decision (str_le a b).
Proof. unfold str_le. apply _. Defined.

(** ** The HTML library on a parsed document *)

(** every string of the document, in document order *)
Fixpoint node_strings (n : node) : list string :=
  match n with
  | NText s => [s]
  | NTag _ _ children => List.flat_map node_strings children
  end.

(** [soup.get_text(separator=sep, strip=True)]: each string stripped, the
    empty ones dropped, the rest joined *)
Definition get_text (sep : string) (doc : soup) : string :=
  join sep (List.filter truthy (List.map strip (List.flat_map node_strings doc))).

(** every tag of the document, in document order, as (name, attributes) *)
Fixpoint node_tags (n : node) : list (string * gmap string string) :=
  match n with
  | NText _ => []
  | NTag name attrs children => (name, attrs) :: List.flat_map node_tags children
  end.

(** [soup.find_all(name, href=True)]: the tags called [name] that carry an
    [href] attribute; each is returned as its attribute dictionary *)
Definition find_all_href (name : string) (doc : soup) : list (gmap string string) :=
  List.map snd
    (List.filter (λ t, String.eqb (fst t) name && bool_decide (is_Some (snd t !! "href")))
       (List.flat_map node_tags doc)).

(** ** The program *)

Definition newline : string := String "010"%char EmptyString.

Definition PROXY_URL : string := "https://proxy.scrapeops.io/v1/".

(** a Python callable: its name and what a call with keyword arguments does *)
Record pyfunc := PyFunc {
  fn_name : string;
  fn_body : kwargs → M pyvalue
}.

Definition lift {A} (r : exn + A) : M A :=
  match r with
  | inl e => raise e
  | inr a => ret a
  end.

(** the binding of [f( **arguments )] at the call site: [arguments] must be a
    mapping, and none of its keys may name a parameter that the call already
    passes by position *)
Definition unpack_kwargs (callee : string) (positional : list string)
    (arguments : pyvalue) : exn + kwargs :=
  match arguments with
  | PyDict entries =>
      match List.find (λ p, bool_decide (fst p ∈ positional)) entries with
      | Some (k, _) =>
          inl (Exn TypeError
                 (callee +:+ "() got multiple values for argument '" +:+ k +:+ "'"))
      | None => inr entries
      end
  | v =>
      inl (Exn TypeError
             (callee +:+ "() argument after ** must be a mapping, not " +:+ type_name v))
  end.

(** the binding of keyword arguments to the one parameter [url] *)
Definition bind_url (kw : kwargs) : exn + pyvalue :=
  match List.find (λ p, negb (String.eqb (fst p) "url")) kw with
  | Some (k, _) =>
      inl (Exn TypeError
             ("scrape_content() got an unexpected keyword argument '" +:+ k +:+ "'"))
  | None =>
      match kw with
      | (_, v) :: _ => inr v
      | [] =>
          inl (Exn TypeError
                 "scrape_content() missing 1 required positional argument: 'url'")
      end
  end.

(** [a.get('href')] when it is a non-empty string *)
Definition truthy_href (a : gmap string string) : option string :=
  match a !! "href" with
  | Some h => if truthy h then Some h else None
  | None => None
  end.

(** [sorted({a.get('href') for a in soup.find_all('a', href=True) if a.get('href')})] *)
Definition sorted_links (doc : soup) : list string :=
  merge_sort str_le
    (elements (list_to_set (omap truthy_href (find_all_href "a" doc)) : gset string)).

Section program.
Variable env : Env.

(** [f"{v}"] *)
Definition py_str (v : pyvalue) : string :=
  match v with
  | PyStr s => s
  | _ => py_repr env v
  end.

(** the [params] dictionary of [scrape_content] *)
Definition proxy_params (url : pyvalue) : kwargs :=
  [("api_key", PyStr (API_KEY env)); ("url", url);
   ("render_js", PyStr "true"); ("residential", PyStr "true")].

Definition scrape_content (url : pyvalue) : M pyvalue :=
  let params := proxy_params url in
  try_except
    (st_spinner ("Scraping content from " +:+ py_str url +:+ "...") ;;;
     response <- service (EvHttpGet PROXY_URL params)
                   (λ tr, requests_get env tr PROXY_URL params) ;;
     if (status_code response =? 200)%Z then
       let soup := html_parser env (text response) in
       let content := get_text newline soup in
       let links := sorted_links soup in
       st_success ("Successfully scraped content from " +:+ py_str url) ;;;
       ret (PyDict [("content", PyStr content); ("links", PyList (PyStr <$> links))])
     else
       st_error ("Failed to fetch the page: " +:+ py_str url +:+ ", status code: "
                 +:+ str_Z (status_code response)) ;;;
       ret PyNone)
    (λ e,
       match exn_class_of e with
       | ReqTimeout =>
           st_error ("Request timed out while trying to scrape " +:+ py_str url +:+ ".") ;;;
           ret PyNone
       | ReqTooManyRedirects =>
           st_error ("Too many redirects while trying to scrape " +:+ py_str url +:+ ".") ;;;
           ret PyNone
       | ReqOther =>
           st_error ("An error occurred while scraping " +:+ py_str url +:+ ": "
                     +:+ str_exn e) ;;;
           ret PyNone
       | _ => raise e
       end).

Definition scrape_content_fn : pyfunc :=
  {| fn_name := "scrape_content";
     fn_body := λ kw, url <- lift (bind_url kw) ;; scrape_content url |}.

Definition available_functions : gmap string pyfunc :=
  {[ "scrape_content" := scrape_content_fn ]}.

Definition safe_tool_call (func : pyfunc) (tool_name : string) (kw : kwargs)
    : M pyvalue :=
  try_except
    (result <- (log (EvCall (fn_name func) kw) ;;; fn_body func kw) ;;
     ret (match result with
          | PyNone => PyStr ("No content returned from " +:+ tool_name)
          | _ => result
          end))
    (λ e,
       st_error ("Error in " +:+ tool_name +:+ ": " +:+ str_exn e) ;;;
       ret (PyStr ("Error occurred in " +:+ tool_name +:+ ": " +:+ str_exn e))).

(** the [for call in ...tool_calls] loop of [handle_tool_outputs] *)
Fixpoint dispatch_calls (calls : list tool_call) (tool_outputs : list tool_output)
    : M (list tool_output) :=
  match calls with
  | [] => ret tool_outputs
  | call :: rest =>
      let function_name := call_name call in
      match available_functions !! function_name with
      | None =>
          raise (Exn ValueError
                   ("Function " +:+ function_name
                    +:+ " not found in available_functions."))
      | Some function =>
          arguments <- lift (json_loads env (call_arguments call)) ;;
          st_spinner "Executing a detailed search..." ;;;
          kw <- lift (unpack_kwargs "safe_tool_call" ["func"; "tool_name"] arguments) ;;
          output <- safe_tool_call function function_name kw ;;
          dispatch_calls rest
            (tool_outputs ++ [ToolOutput (call_id call) (json_dumps env output)])
      end
  end.

(** the [except] branch of [handle_tool_outputs] *)
Definition handle_tool_outputs_except (e : exn) : M (option run) :=
  st_error ("Error in handle_tool_outputs: " +:+ str_exn e) ;;;
  st_error (format_exc env e) ;;;
  ret None.

Definition handle_tool_outputs (r : run) : M (option run) :=
  try_except
    (calls <- match run_tool_calls r with
              | Some calls => ret calls
              | None =>
                  raise (Exn AttributeError
                           "'NoneType' object has no attribute 'submit_tool_outputs'")
              end ;;
     tool_outputs <- dispatch_calls calls [] ;;
     r' <- service (EvSubmit (run_id r) tool_outputs)
             (λ tr, submit_tool_outputs env tr (run_id r) tool_outputs) ;;
     ret (Some r'))
    handle_tool_outputs_except.

Definition polling (status : string) : bool :=
  bool_decide (status ∈ ["queued"; "in_progress"]).

(** the [while run.status in ["queued", "in_progress"]] loop; [r] is None
    when [handle_tool_outputs] returned None, and [fuel] bounds the number
    of iterations *)
Fixpoint poll_loop (fuel : nat) (r : option run) : M (option run) :=
  match r with
  | None => raise (Exn AttributeError "'NoneType' object has no attribute 'status'")
  | Some r0 =>
      if polling (run_status r0) then
        match fuel with
        | O => diverge
        | S fuel' =>
            r1 <- service (EvRunRetrieve (run_id r0))
                    (λ tr, runs_retrieve env tr (run_id r0)) ;;
            r2 <- (if String.eqb (run_status r1) "requires_action"
                   then handle_tool_outputs r1
                   else ret (Some r1)) ;;
            log (EvSleep 1) ;;;
            poll_loop fuel' r2
        end
      else ret r
  end.

Definition attachments := list (string * string).

(** the [for annotation in content.text.annotations] loop *)
Fixpoint walk_annotations (anns : list annotation) (download_links : attachments)
    : M attachments :=
  match anns with
  | [] => ret download_links
  | FilePathAnnotation atext file_id :: rest =>
      let file_name := last_segment atext in
      file_content <- service (EvFileContent file_id)
                        (λ tr, files_content env tr file_id) ;;
      walk_annotations rest (download_links ++ [(file_name, file_content)])
  | OtherAnnotation _ :: rest => walk_annotations rest download_links
  end.

(** the [for content in last_message.content] loop *)
Fixpoint walk_content (blocks : list content_block)
    (formatted_response_text : string) (download_links images : attachments)
    : M (string * attachments * attachments) :=
  match blocks with
  | [] => ret (formatted_response_text, download_links, images)
  | TextBlock value anns :: rest =>
      download_links' <- walk_annotations anns download_links ;;
      walk_content rest (formatted_response_text +:+ value) download_links' images
  | ImageFileBlock file_id :: rest =>
      image_data <- service (EvFileContent file_id)
                      (λ tr, files_content env tr file_id) ;;
      walk_content rest
        (formatted_response_text +:+ "[Image generated: " +:+ file_id +:+ ".png]" +:+ newline)
        download_links
        (images ++ [(file_id +:+ ".png", image_data)])
  | OtherBlock _ :: rest =>
      walk_content rest formatted_response_text download_links images
  end.

(** lines 222 to 246: the last message of the thread and what is made of it *)
Definition read_last_message : M (string * attachments * attachments) :=
  data <- service (EvMessagesList 1) (λ tr, messages_list env tr 1) ;;
  last_message <- match data with
                  | m :: _ => ret m
                  | [] => raise (Exn IndexError "list index out of range")
                  end ;;
  if String.eqb (msg_role last_message) "assistant" then
    walk_content (msg_content last_message) "" [] []
  else ret ("Error: No assistant response", [], []).

(** lines 200 to 220: the message is appended, the run is started and
    polled until its status leaves the two polling ones *)
Definition run_to_completion (fuel : nat) (assistant_id user_message : string)
    : M (option run) :=
  st_spinner "Processing your request..." ;;;
  service (EvMessageCreate user_message)
    (λ tr, messages_create env tr user_message) ;;;
  r <- service (EvRunCreate assistant_id) (λ tr, runs_create env tr assistant_id) ;;
  poll_loop fuel (Some r).

(** the body of the [try] of [get_agent_response] *)
Definition get_agent_response_try (fuel : nat) (assistant_id user_message : string)
    : M (string * attachments * attachments) :=
  run_to_completion fuel assistant_id user_message ;;;
  read_last_message.

(** the [except] branch of [get_agent_response] *)
Definition get_agent_response_except (e : exn)
    : M (string * attachments * attachments) :=
  st_error ("Error in get_agent_response: " +:+ str_exn e) ;;;
  st_error (format_exc env e) ;;;
  ret ("Error: " +:+ str_exn e, [], []).

Definition get_agent_response (fuel : nat) (assistant_id user_message : string)
    : M (string * attachments * attachments) :=
  try_except
    (get_agent_response_try fuel assistant_id user_message)
    get_agent_response_except.

End program.

(** ** Vocabulary of the statements *)

(** the message of the spinner that [scrape_content] opens *)
Definition scraping_msg (env : Env) (url : pyvalue) : string :=
  "Scraping content from " +:+ py_str env url +:+ "...".

(** the request that [scrape_content] sends to the proxy *)
Definition proxy_request (env : Env) (url : pyvalue) : event :=
  EvHttpGet PROXY_URL (proxy_params env url).

(** the answer of the proxy to the request that [scrape_content url] makes
    when it starts from the trace [tr] *)
Definition proxy_answer (env : Env) (url : pyvalue) (tr : trace) : exn + response :=
  requests_get env (tr ++ [EvUi Spinner (scraping_msg env url)]) PROXY_URL
    (proxy_params env url).

(** the dictionary that [scrape_content] returns *)
Definition scrape_result (content : string) (links : list string) : pyvalue :=
  PyDict [("content", PyStr content); ("links", PyList (PyStr <$> links))].

(** events that submit tool outputs, and events that call a tool *)
Definition is_submit (ev : event) : bool :=
  match ev with EvSubmit _ _ => true | _ => false end.

Definition is_call (ev : event) : bool :=
  match ev with EvCall _ _ => true | _ => false end.

(** UI messages and proxy requests: neither a submission nor a tool call *)
Definition plain (ev : event) : Prop := is_submit ev = false ∧ is_call ev = false.

Definition no_submit (ev : event) : Prop := is_submit ev = false.

Definition any_event (ev : event) : Prop := True.

(** what a tool-call request asks for: the registered callable and the
    keyword arguments read from its JSON text; None when the name is not
    registered, the text is not JSON, or the value read cannot be passed as
    keyword arguments *)
Definition request_of (env : Env) (call : tool_call) : option (pyfunc * kwargs) :=
  match available_functions env !! call_name call with
  | Some f =>
      match json_loads env (call_arguments call) with
      | inr arguments =>
          match unpack_kwargs "safe_tool_call" ["func"; "tool_name"] arguments with
          | inr kw => Some (f, kw)
          | inl _ => None
          end
      | inl _ => None
      end
  | None => None
  end.

(** a request that names a registered tool and carries keyword arguments *)
Definition well_formed (env : Env) (call : tool_call) : Prop :=
  is_Some (request_of env call).

(** [o] is the output of [call]: it carries the identifier of the call, and
    its text is the JSON of what [safe_tool_call] returned for the requested
    tool and arguments *)
Definition answers (env : Env) (call : tool_call) (o : tool_output) : Prop :=
  tool_call_id o = call_id call
  ∧ ∃ f kw v tr1 tr2,
      request_of env call = Some (f, kw)
      ∧ safe_tool_call f (call_name call) kw tr1 = (Normal v, tr2)
      ∧ output o = json_dumps env v.

(** C1 as the specification states it: a request with an unregistered name
    has an output submitted to the run *)
Definition unknown_call_answered : Prop :=
  ∀ env r calls call tr,
    run_tool_calls r = Some calls →
    call ∈ calls →
    available_functions env !! call_name call = None →
    ∃ evs outs o,
      snd (handle_tool_outputs env r tr) = tr ++ evs
      ∧ EvSubmit (run_id r) outs ∈ evs
      ∧ o ∈ outs
      ∧ tool_call_id o = call_id call.


(** the tool invocation that a request asks for *)
Definition call_event (env : Env) (call : tool_call) : option event :=
  match request_of env call with
  | Some (f, kw) => Some (EvCall (fn_name f) kw)
  | None => None
  end.

(** the message for an unregistered name *)
Definition not_found_msg (name : string) : string :=
  "Function " +:+ name +:+ " not found in available_functions.".

(** the placeholder of an image *)
Definition image_marker (file_id : string) : string :=
  "[Image generated: " +:+ file_id +:+ ".png]" +:+ newline.

(** the response text that the blocks of a message amount to *)
Fixpoint text_of (blocks : list content_block) : string :=
  match blocks with
  | [] => ""
  | TextBlock value _ :: rest => value +:+ text_of rest
  | ImageFileBlock file_id :: rest => image_marker file_id +:+ text_of rest
  | OtherBlock _ :: rest => text_of rest
  end.

(** the file identifiers of the image blocks of a message *)
Fixpoint image_ids (blocks : list content_block) : list string :=
  match blocks with
  | [] => []
  | ImageFileBlock file_id :: rest => file_id :: image_ids rest
  | _ :: rest => image_ids rest
  end.

(** the files that the annotations of a text block point to *)
Fixpoint annotation_files (anns : list annotation) : list string :=
  match anns with
  | [] => []
  | FilePathAnnotation _ file_id :: rest => file_id :: annotation_files rest
  | OtherAnnotation _ :: rest => annotation_files rest
  end.

(** the files that [get_agent_response] fetches for a message *)
Fixpoint files_of (blocks : list content_block) : list string :=
  match blocks with
  | [] => []
  | TextBlock _ anns :: rest => annotation_files anns ++ files_of rest
  | ImageFileBlock file_id :: rest => file_id :: files_of rest
  | OtherBlock _ :: rest => files_of rest
  end.

(** the file service answers every request for one of [files] *)
Definition serves (env : Env) (files : list string) : Prop :=
  ∀ tr file_id, file_id ∈ files → ∃ data, files_content env tr file_id = inr data.

(** a computation only appends to the trace, and what it appends satisfies [P] *)
Definition appends {A} (P : event → Prop) (m : M A) : Prop :=
  ∀ tr, ∃ evs, snd (m tr) = tr ++ evs ∧ Forall P evs.

(** a computation does not poll for ever *)
Definition returns {A} (m : M A) : Prop :=
  ∀ tr, fst (m tr) ≠ Diverged.

Definition quote : string := String (ascii_of_nat 34) EmptyString.

(** the page of the scenario of section 8 *)
Definition example_body : string :=
  "<html><body><p>Hello</p><a href=" +:+ quote +:+ "/a" +:+ quote +:+ ">x</a><a href="
  +:+ quote +:+ "/a" +:+ quote +:+ ">y</a></body></html>".

(** the tree of that page *)
Definition example_document : soup :=
  [NTag "html" ∅
     [NTag "body" ∅
        [NTag "p" ∅ [NText "Hello"];
         NTag "a" {[ "href" := "/a" ]} [NText "x"];
         NTag "a" {[ "href" := "/a" ]} [NText "y"]]]].

(** the events with which [get_agent_response] starts: the spinner, the
    message of the user, and the creation of the run *)
Definition start_events (assistant_id user_message : string) : trace :=
  [EvUi Spinner "Processing your request..."; EvMessageCreate user_message;
   EvRunCreate assistant_id].

(** the service takes the message of the user and answers the creation of
    the run with [r0] *)
Definition started (env : Env) (assistant_id user_message : string) (tr : trace)
    (r0 : run) : Prop :=
  messages_create env (tr ++ [EvUi Spinner "Processing your request..."]) user_message
  = inr tt
  ∧ runs_create env
      (tr ++ [EvUi Spinner "Processing your request..."; EvMessageCreate user_message])
      assistant_id
    = inr r0.

(** what the service answers to one poll: the run as it is, or a run paused
    for action together with the run that it answers to the submission of
    the outputs *)
Inductive poll :=
| Quiet (r1 : run)
| Paused (r1 r2 : run).

(** the run that the loop holds after a poll *)
Definition poll_run (p : poll) : run :=
  match p with
  | Quiet r1 => r1
  | Paused _ r2 => r2
  end.

(** the trace after a poll of the run [r] that started at the trace [tr] *)
Definition poll_trace (env : Env) (r : run) (tr : trace) (p : poll) : trace :=
  match p with
  | Quiet _ => tr ++ [EvRunRetrieve (run_id r); EvSleep 1]
  | Paused r1 _ =>
      snd (handle_tool_outputs env r1 (tr ++ [EvRunRetrieve (run_id r)])) ++ [EvSleep 1]
  end.

(** the answers of the service to a poll of the run [r] at the trace [tr]:
    the retrieval answers a run that is not paused; or it answers a run
    paused for action whose requests are all well formed, and the service
    accepts the submission and answers it with [r2] *)
Definition poll_answered (env : Env) (r : run) (tr : trace) (p : poll) : Prop :=
  match p with
  | Quiet r1 =>
      runs_retrieve env tr (run_id r) = inr r1
      ∧ run_status r1 ≠ "requires_action"
  | Paused r1 r2 =>
      runs_retrieve env tr (run_id r) = inr r1
      ∧ run_status r1 = "requires_action"
      ∧ (∃ calls, run_tool_calls r1 = Some calls ∧ Forall (well_formed env) calls)
      ∧ ∀ tr' outs, submit_tool_outputs env tr' (run_id r1) outs = inr r2
  end.

(** the answers of the service to the polls of a run, from the run [r] at
    the trace [tr] until the run has left the two polling statuses: [ps]
    lists what the polls found, in order *)
Fixpoint run_history (env : Env) (r : run) (tr : trace) (ps : list poll) : Prop :=
  match ps with
  | [] => polling (run_status r) = false
  | p :: ps' =>
      polling (run_status r) = true
      ∧ poll_answered env r tr p
      ∧ run_history env (poll_run p) (poll_trace env r tr p) ps'
  end.

(** the trace at the end of those polls *)
Fixpoint history_trace (env : Env) (r : run) (tr : trace) (ps : list poll) : trace :=
  match ps with
  | [] => tr
  | p :: ps' => history_trace env (poll_run p) (poll_trace env r tr p) ps'
  end.

(** ** Scenarios: scripted outside services *)

Module Scenario.

(** *** A reader of well-nested markup

    It stands for the HTML library in the scenarios: tags with
    double-quoted attributes, closing tags, and text between them. *)

Inductive token :=
| TkOpen (name : string) (attrs : gmap string string)
| TkClose (name : string)
| TkText (s : string).

Inductive attr_state :=
| BeforeKey
| InKey (k : string)
| AfterEq (k : string)
| InValue (k v : string).

Definition snoc (s : string) (c : ascii) : string := s +:+ String c EmptyString.

Fixpoint read_attrs (s : string) (st : attr_state) (acc : gmap string string)
    : gmap string string :=
  match s with
  | EmptyString =>
      match st with
      | InKey k | AfterEq k => <[k := ""]> acc
      | _ => acc
      end
  | String c s' =>
      match st with
      | BeforeKey =>
          if isspace c then read_attrs s' BeforeKey acc
          else read_attrs s' (InKey (String c EmptyString)) acc
      | InKey k =>
          if Ascii.eqb c "="%char then read_attrs s' (AfterEq k) acc
          else if isspace c then read_attrs s' BeforeKey (<[k := ""]> acc)
          else read_attrs s' (InKey (snoc k c)) acc
      | AfterEq k =>
          if Ascii.eqb c (ascii_of_nat 34) then read_attrs s' (InValue k "") acc
          else read_attrs s' (AfterEq k) acc
      | InValue k v =>
          if Ascii.eqb c (ascii_of_nat 34) then read_attrs s' BeforeKey (<[k := v]> acc)
          else read_attrs s' (InValue k (snoc v c)) acc
      end
  end.

(** the name of a tag: the characters before the first space *)
Fixpoint tag_name (s : string) : string * string :=
  match s with
  | EmptyString => (EmptyString, EmptyString)
  | String c s' =>
      if isspace c then (EmptyString, s')
      else let '(n, r) := tag_name s' in (String c n, r)
  end.

Definition tag_token (inside : string) : token :=
  match inside with
  | String "/"%char n => TkClose (fst (tag_name n))
  | _ => let '(n, r) := tag_name inside in TkOpen n (read_attrs r BeforeKey ∅)
  end.

Definition text_token (s : string) : list token :=
  match s with
  | EmptyString => []
  | _ => [TkText s]
  end.

Fixpoint tokenize (s : string) (in_tag : bool) (acc : string) : list token :=
  match s with
  | EmptyString => if in_tag then [] else text_token acc
  | String c s' =>
      if in_tag then
        if Ascii.eqb c ">"%char then tag_token acc :: tokenize s' false ""
        else tokenize s' true (snoc acc c)
      else
        if Ascii.eqb c "<"%char then text_token acc ++ tokenize s' true ""
        else tokenize s' false (snoc acc c)
  end.

(** [stack] holds the open tags with the siblings read before each;
    [cur] holds, last first, the children read for the innermost one *)
Fixpoint build (toks : list token)
    (stack : list (string * gmap string string * list node)) (cur : list node)
    : soup :=
  match toks with
  | [] =>
      rev (fold_left (λ kids '(n, a, before), NTag n a (rev kids) :: before) stack cur)
  | TkText s :: rest => build rest stack (NText s :: cur)
  | TkOpen n a :: rest => build rest ((n, a, cur) :: stack) []
  | TkClose _ :: rest =>
      match stack with
      | (n, a, before) :: stack' => build rest stack' (NTag n a (rev cur) :: before)
      | [] => build rest [] cur
      end
  end.

Definition read_markup (s : string) : soup := build (tokenize s false "") [] [].

(** *** A scripted environment *)

Definition example_url : pyvalue := PyStr "http://example.org".

(** JSON text of a value, without the escapes of special characters *)
Fixpoint render (v : pyvalue) : string :=
  match v with
  | PyNone => "null"
  | PyBool true => "true"
  | PyBool false => "false"
  | PyInt z => str_Z z
  | PyFloat literal => literal
  | PyStr s => quote +:+ s +:+ quote
  | PyList items => "[" +:+ join ", " (List.map render items) +:+ "]"
  | PyDict entries =>
      "{" +:+ join ", "
                (List.map (λ p, quote +:+ fst p +:+ quote +:+ ": " +:+ render (snd p))
                   entries)
      +:+ "}"
  end.

Definition is_retrieve (ev : event) : bool :=
  match ev with EvRunRetrieve _ => true | _ => false end.

Definition exhausted {A} : exn + A := inl (Exn OtherError "no scripted answer left").

Record script := Script {
  s_proxy : exn + response;
  s_json : list (string * pyvalue);
  s_create : exn + run;
  s_retrieve : list (exn + run);
  s_submit : exn + run;
  s_messages : exn + list message;
  s_files : list (string * string)
}.

Definition scripted (s : script) : Env :=
  {| API_KEY := "secret";
     requests_get := λ _ _ _, s_proxy s;
     html_parser := read_markup;
     py_repr := λ v, "<" +:+ type_name v +:+ ">";
     json_loads := λ t,
       match List.find (λ p, String.eqb (fst p) t) (s_json s) with
       | Some (_, v) => inr v
       | None => inl (Exn ValueError "Expecting value: line 1 column 1 (char 0)")
       end;
     json_dumps := render;
     format_exc := λ e, "Traceback (most recent call last): " +:+ str_exn e;
     messages_create := λ _ _, inr tt;
     runs_create := λ _ _, s_create s;
     runs_retrieve := λ tr _,
       nth (List.length (List.filter is_retrieve tr)) (s_retrieve s) exhausted;
     submit_tool_outputs := λ _ _ _, s_submit s;
     messages_list := λ _ _, s_messages s;
     files_content := λ _ f,
       match List.find (λ p, String.eqb (fst p) f) (s_files s) with
       | Some (_, data) => inr data
       | None => inl (Exn OtherError ("No such File object: " +:+ f))
       end |}.

Definition queued : run := Run "run_1" "queued" None.
Definition completed : run := Run "run_1" "completed" None.

Definition url_arguments : string :=
  "{" +:+ quote +:+ "url" +:+ quote +:+ ": " +:+ quote +:+ "http://example.org"
  +:+ quote +:+ "}".

Definition base : script :=
  {| s_proxy := inr (Response 200 example_body);
     s_json := [(url_arguments, PyDict [("url", example_url)])];
     s_create := inr queued;
     s_retrieve := [inr completed];
     s_submit := inr queued;
     s_messages := inr [Message "assistant" [TextBlock "Section 3 applies." []]];
     s_files := [("file-7", "PNG")] |}.

(** the proxy answers 404 *)
Definition not_found : script :=
  {| s_proxy := inr (Response 404 "Not Found");
     s_json := s_json base; s_create := s_create base; s_retrieve := s_retrieve base;
     s_submit := s_submit base; s_messages := s_messages base; s_files := s_files base |}.

(** the proxy call fails with an error outside the [requests] hierarchy *)
Definition broken_proxy : script :=
  {| s_proxy := inl (Exn OtherError "boom");
     s_json := s_json base; s_create := s_create base; s_retrieve := s_retrieve base;
     s_submit := s_submit base; s_messages := s_messages base; s_files := s_files base |}.

(** the run pauses once and asks for [calls], then completes *)
Definition pausing (calls : list tool_call) : script :=
  {| s_proxy := s_proxy base; s_json := s_json base; s_create := s_create base;
     s_retrieve := [inr (Run "run_1" "requires_action" (Some calls)); inr completed];
     s_submit := s_submit base; s_messages := s_messages base; s_files := s_files base |}.

Definition scrape_call : tool_call := ToolCall "call_1" "scrape_content" url_arguments.
Definition unknown_call : tool_call := ToolCall "call_2" "lookup_statute" url_arguments.

(** the run cannot be created *)
Definition refused : script :=
  {| s_proxy := s_proxy base; s_json := s_json base;
     s_create := inl (Exn OtherError "No assistant found with id 'asst_0'");
     s_retrieve := s_retrieve base; s_submit := s_submit base;
     s_messages := s_messages base; s_files := s_files base |}.

(** the final message is one image *)
Definition drawing : script :=
  {| s_proxy := s_proxy base; s_json := s_json base; s_create := s_create base;
     s_retrieve := s_retrieve base; s_submit := s_submit base;
     s_messages := inr [Message "assistant" [ImageFileBlock "file-7"]];
     s_files := s_files base |}.

(** the run pauses once and asks for a scrape, then completes; the final
    message is a sentence and one image *)
Definition charting : script :=
  {| s_proxy := s_proxy base; s_json := s_json base; s_create := s_create base;
     s_retrieve := s_retrieve (pausing [scrape_call]);
     s_submit := s_submit base;
     s_messages :=
       inr [Message "assistant"
              [TextBlock "Here is the chart." []; ImageFileBlock "file-7"]];
     s_files := s_files base |}.

End Scenario.

(** ** Further vocabulary *)

(** the classes that the three [except] clauses of [scrape_content] catch *)
Definition is_request_exception (e : exn) : bool :=
  match exn_class_of e with
  | ReqTimeout | ReqTooManyRedirects | ReqOther => true
  | _ => false
  end.

(** the message that [scrape_content] shows for an exception it catches *)
Definition request_failure_msg (env : Env) (url : pyvalue) (e : exn) : string :=
  match exn_class_of e with
  | ReqTimeout => "Request timed out while trying to scrape " +:+ py_str env url +:+ "."
  | ReqTooManyRedirects =>
      "Too many redirects while trying to scrape " +:+ py_str env url +:+ "."
  | _ => "An error occurred while scraping " +:+ py_str env url +:+ ": " +:+ str_exn e
  end.

Definition is_ui (ev : event) : bool :=
  match ev with EvUi _ _ => true | _ => false end.

Definition is_http (ev : event) : bool :=
  match ev with EvHttpGet _ _ => true | _ => false end.

Definition is_poll (ev : event) : bool :=
  match ev with EvRunRetrieve _ => true | _ => false end.

Definition is_sleep (ev : event) : bool :=
  match ev with EvSleep _ => true | _ => false end.

(** the non-empty link targets of the anchors of a page, in document order *)
Definition hrefs (doc : soup) : list string :=
  omap truthy_href (find_all_href "a" doc).

(** the events of a batch of tool calls: messages to the user, requests to
    the proxy, tool invocations and the submission *)
Definition batch_event (ev : event) : Prop :=
  is_ui ev || is_http ev || is_call ev || is_submit ev = true.

(** events that are neither a tool invocation, nor a submission, nor a
    request to the proxy *)
Definition no_tool_event (ev : event) : Prop :=
  is_call ev = false ∧ is_submit ev = false ∧ is_http ev = false.

(** the names under which the files of annotations are offered *)
Fixpoint annotation_names (anns : list annotation) : list string :=
  match anns with
  | [] => []
  | FilePathAnnotation atext _ :: rest => last_segment atext :: annotation_names rest
  | OtherAnnotation _ :: rest => annotation_names rest
  end.

(** the names of the downloads of a message *)
Fixpoint download_names (blocks : list content_block) : list string :=
  match blocks with
  | [] => []
  | TextBlock _ anns :: rest => annotation_names anns ++ download_names rest
  | _ :: rest => download_names rest
  end.

(** the characters of a string *)
Fixpoint chars (s : string) : list ascii :=
  match s with
  | EmptyString => []
  | String c s' => c :: chars s'
  end.

(** ** The tools advertised to the assistant *)

(** the list [tools] of the program *)
Definition tools : list pyvalue :=
  [PyDict
     [("type", PyStr "function");
      ("function",
       PyDict
         [("name", PyStr "scrape_content");
          ("description",
           PyStr "Use this function to scrape text content from a given URL.");
          ("parameters",
           PyDict
             [("type", PyStr "object");
              ("properties",
               PyDict
                 [("url",
                   PyDict [("type", PyStr "string");
                           ("description", PyStr "The URL to scrape content from.")])]);
              ("required", PyList [PyStr "url"])])])];
   PyDict [("type", PyStr "code_interpreter")];
   PyDict [("type", PyStr "file_search")]].

(** [d[k]] for a dictionary of the program *)
Definition dict_get (k : string) (d : pyvalue) : option pyvalue :=
  match d with
  | PyDict entries => snd <$> List.find (λ p, String.eqb (fst p) k) entries
  | _ => None
  end.

Definition str_of (v : pyvalue) : option string :=
  match v with PyStr s => Some s | _ => None end.

Definition keys_of (v : pyvalue) : option (list string) :=
  match v with PyDict entries => Some (entries.*1) | _ => None end.

Definition strs_of (v : pyvalue) : option (list string) :=
  match v with PyList items => Some (omap str_of items) | _ => None end.

(** what an entry of [tools] advertises when it is a function tool: the name
    of the function, its required parameters and its declared parameters *)
Definition function_tool (t : pyvalue) : option (string * list string * list string) :=
  ty ← dict_get "type" t ≫= str_of;
  if String.eqb ty "function" then
    f ← dict_get "function" t;
    name ← dict_get "name" f ≫= str_of;
    params ← dict_get "parameters" f;
    required ← dict_get "required" params ≫= strs_of;
    properties ← dict_get "properties" params ≫= keys_of;
    Some (name, required, properties)
  else None.

(** ** The page: [create_assistant] and [main] *)

(** the text [instructions] of the program, as the bytes of its UTF-8 encoding *)
Definition instructions : string :=
  "
You are a Legal Document Assistant specializing in legal research and answering user queries based on documents like PDF files and legal texts.
You have access to both internal documents and a web scraping function for additional information if necessary. Hereâ€™s how you should operate:

Key Functions:

Document Search and Analysis: Search through internal PDF files and documents for relevant sections before offering any external sources. 
Always ensure responses reference the jurisdiction of Jamaica as outlined in the documents.

Scraping Feature: If no sufficient information is found internally, or if the user requests more, you can suggest web scraping as a last resort, but only 
with the user's explicit approval.

Legal Research and Contextual Explanation: Provide detailed explanations of laws, statutes, and regulations based on the content of the documents, 
specifically related to Jamaica.

Structured and Clear Responses: Offer structured and clear answers, referencing specific sections of the law for transparency.

Compensation Calculation: Help the user calculate fines, penalties, or compensation based on the laws in the documents.

Interaction Flow:

Document First Approach: Always begin by searching through the provided legal documents. If the information is found, respond by quoting the specific sections.

Ask for Web Scraping Permission: If the relevant information is not found within the documents, ask the user if they would like you to scrape external sources.

User Query Follow-Up: Always ensure the user has all the legal context and ask if they need further clarification or related information.

Clarification and Refinement: Continuously refine your responses based on feedback from the user to provide tailored legal advice.

Example Interaction:

User Input: " +:+ quote +:+
  "What are the penalties for unauthorized access to computer data under the Cybercrimes Act?" +:+ quote +:+
  "

Assistant Response: " +:+ quote +:+
  "According to Section 3 of the Cybercrimes Act, unauthorized access to computer data is an offense. For a first offense, upon summary 
conviction, you may be fined up to three million dollars or face up to three years of imprisonment. 
This applies under Jamaican jurisdiction. Shall I search for more cases or legal precedents related to this?" +:+ quote +:+
  "

".

(** the [tool_resources] of [create_assistant] *)
Definition tool_resources (file_ids : list string) : pyvalue :=
  PyDict
    [("file_search",
      PyDict [("vector_stores", PyList [PyDict [("file_ids", PyList (PyStr <$> file_ids))]])])].

(** what the page shows and asks for, in the order of the calls *)
Inductive widget :=
| Title (s : string)                              (* st.title *)
| SidebarTitle (s : string)                       (* st.sidebar.title *)
| SidebarRadio (label : string) (options : list string)
| SidebarFileUploader (label : string)
| SidebarButton (label : string)
| SidebarTextInput (label : string)
| SidebarSuccess (s : string)
| SidebarWarning (s : string)
| ChatMessage (role : string)                     (* with st.chat_message(role) *)
| Markdown (s : string)                           (* st.markdown *)
| Placeholder                                     (* st.empty() *)
| PlaceholderMarkdown (s : string)                (* message_placeholder.markdown *)
| DownloadButton (label data file_name mime : string)
| Html (content : string) (height : nat) (scrolling : bool)
| Image (data : string)
| ChatInput (label : string)
| Warning (s : string).

Inductive app_event :=
| Core (ev : event)                               (* an event of the conversation *)
| EvFileCreate (file purpose : string)            (* client.files.create *)
| EvAssistantCreate (name instr model : string) (tool_list : list pyvalue)
    (resources : pyvalue)                         (* client.beta.assistants.create *)
| Display (w : widget).

(** an entry of [st.session_state.messages]; a user entry has neither
    downloads nor images *)
Record turn := Turn {
  turn_role : string;
  turn_content : string;
  turn_downloads : option attachments;
  turn_images : option attachments
}.

(** [st.session_state]: the two keys that [main] reads and writes *)
Record session := Session {
  ss_assistant_id : option string;
  ss_messages : option (list turn)
}.

(** what the input widgets return in one run of the script *)
Record inputs := Inputs {
  in_choice : string;           (* st.sidebar.radio *)
  in_files : list string;       (* st.sidebar.file_uploader *)
  in_create : bool;             (* st.sidebar.button *)
  in_assistant_id : string;     (* st.sidebar.text_input *)
  in_prompt : option string     (* st.chat_input; None when nothing was sent *)
}.

(** the services of the page: the conversation's, the two calls of the
    sidebar, and [bytes.decode] *)
Record AppEnv := {
  core_env : Env;
  files_create : list app_event → string → exn + string;
  assistants_create : list app_event → list string → exn + string;
  bytes_decode : string → exn + string
}.

Record page := Page {
  page_session : session;
  page_log : list app_event
}.

Definition AppM (X : Type) : Type := page → outcome X * page.

Definition aret {X} (x : X) : AppM X := λ p, (Normal x, p).

Definition abind {X Y} (m : AppM X) (k : X → AppM Y) : AppM Y :=
  λ p, match m p with
       | (Normal x, p') => k x p'
       | (Raised e, p') => (Raised e, p')
       | (Diverged, p') => (Diverged, p')
       end.

Notation "x <~ m ;; k" := (abind m (λ x, k))
  (at level 100, m at next level, k at level 200, right associativity).
Notation "m ~;; k" := (abind m (λ _, k))
  (at level 100, k at level 200, right associativity).

Definition alift {X} (r : exn + X) : AppM X :=
  λ p, match r with
       | inl e => (Raised e, p)
       | inr x => (Normal x, p)
       end.

Definition display (w : widget) : AppM unit :=
  λ p, (Normal tt, Page (page_session p) (page_log p ++ [Display w])).

Definition app_service {X} (ev : app_event) (answer : list app_event → exn + X) : AppM X :=
  λ p, let p' := Page (page_session p) (page_log p ++ [ev]) in
       match answer (page_log p) with
       | inl e => (Raised e, p')
       | inr x => (Normal x, p')
       end.

(** the events of the conversation among those of the page *)
Definition core_trace (log : list app_event) : trace :=
  omap (λ ev, match ev with Core ev' => Some ev' | _ => None end) log.

(** a computation of the conversation, run from the page: it sees the events
    of the conversation so far, and what it appends is appended to the page *)
Definition run_core {X} (m : M X) : AppM X :=
  λ p, let tr := core_trace (page_log p) in
       let '(o, tr') := m tr in
       (o, Page (page_session p) (page_log p ++ (Core <$> drop (List.length tr) tr'))).

Definition get_session : AppM session := λ p, (Normal (page_session p), p).

Definition set_session (s : session) : AppM unit := λ p, (Normal tt, Page s (page_log p)).

(** [st.session_state.assistant_id = id] *)
Definition set_assistant_id (id : string) : AppM unit :=
  s <~ get_session ;; set_session (Session (Some id) (ss_messages s)).

(** [if 'messages' not in st.session_state: st.session_state.messages = []] *)
Definition init_messages : AppM unit :=
  s <~ get_session ;;
  match ss_messages s with
  | Some _ => aret tt
  | None => set_session (Session (ss_assistant_id s) (Some []))
  end.

(** [st.session_state.messages] *)
Definition get_messages : AppM (list turn) :=
  s <~ get_session ;;
  match ss_messages s with
  | Some l => aret l
  | None =>
      alift (inl (Exn AttributeError
                    "st.session_state has no attribute 'messages'"))
  end.

(** [st.session_state.messages.append(t)] *)
Definition append_message (t : turn) : AppM unit :=
  l <~ get_messages ;;
  s <~ get_session ;;
  set_session (Session (ss_assistant_id s) (Some (l ++ [t]))).

(** [s.endswith(suffix)] *)
Fixpoint endswith (s suffix : string) : bool :=
  String.eqb s suffix
  || match s with
     | String _ s' => endswith s' suffix
     | EmptyString => false
     end.

Section page.
Variable aenv : AppEnv.

Definition create_assistant (file_ids : list string) : AppM string :=
  app_service
    (EvAssistantCreate "LegalAI assistant" instructions "gpt-4o-mini" tools
       (tool_resources file_ids))
    (λ log, assistants_create aenv log file_ids).

(** the [for uploaded_file in uploaded_files] loop *)
Fixpoint upload_files (files : list string) (file_ids : list string) : AppM (list string) :=
  match files with
  | [] => aret file_ids
  | uploaded_file :: rest =>
      file_id <~ app_service (EvFileCreate uploaded_file "assistants")
                   (λ log, files_create aenv log uploaded_file) ;;
      upload_files rest (file_ids ++ [file_id])
  end.

(** the [for file_name, file_content in ...] loop of the downloads *)
Fixpoint show_downloads (downloads : attachments) : AppM unit :=
  match downloads with
  | [] => aret tt
  | (file_name, file_content) :: rest =>
      display (DownloadButton ("Download " +:+ file_name) file_content file_name
              "application/octet-stream") ~;;
      (if endswith file_name ".html" then
         html <~ alift (bytes_decode aenv file_content) ;;
         display (Html html 300 true)
       else aret tt) ~;;
      show_downloads rest
  end.

(** the [for image_name, image_data in ...] loop of the images *)
Fixpoint show_images (images : attachments) : AppM unit :=
  match images with
  | [] => aret tt
  | (image_name, image_data) :: rest =>
      display (Image image_data) ~;;
      display (DownloadButton ("Download " +:+ image_name) image_data image_name
              "image/png") ~;;
      show_images rest
  end.

(** the [for message in st.session_state.messages] loop *)
Fixpoint show_history (turns : list turn) : AppM unit :=
  match turns with
  | [] => aret tt
  | message :: rest =>
      display (ChatMessage (turn_role message)) ~;;
      display (Markdown (turn_content message)) ~;;
      (match turn_downloads message with
       | Some downloads => show_downloads downloads
       | None => aret tt
       end) ~;;
      (match turn_images message with
       | Some images => show_images images
       | None => aret tt
       end) ~;;
      show_history rest
  end.

(** lines 256 to 280: the sidebar *)
Definition sidebar (inp : inputs) : AppM unit :=
  display (SidebarTitle "Assistant Configuration") ~;;
  display (SidebarRadio "Choose an option:"
          ["Create New Assistant"; "Use Existing Assistant"]) ~;;
  if String.eqb (in_choice inp) "Create New Assistant" then
    display (SidebarFileUploader "Upload files") ~;;
    file_ids <~ upload_files (in_files inp) [] ;;
    match file_ids with
    | _ :: _ =>
        display (SidebarButton "Create New Assistant") ~;;
        if in_create inp then
          id <~ create_assistant file_ids ;;
          set_assistant_id id ~;;
          display (SidebarSuccess ("New assistant created with ID: " +:+ id))
        else aret tt
    | [] => display (SidebarWarning "Please upload files to create an assistant.")
    end
  else
    display (SidebarTextInput "Enter existing assistant ID:") ~;;
    if truthy (in_assistant_id inp) then
      set_assistant_id (in_assistant_id inp) ~;;
      display (SidebarSuccess ("Using assistant with ID: " +:+ in_assistant_id inp))
    else aret tt.

(** lines 309 to 346: the chat input and the new turn; [fuel] bounds the
    polls of [get_agent_response] *)
Definition chat (fuel : nat) (inp : inputs) : AppM unit :=
  display (ChatInput "You:") ~;;
  match in_prompt inp with
  | Some prompt =>
      if truthy prompt then
        append_message (Turn "user" prompt None None) ~;;
        display (ChatMessage "user") ~;;
        display (Markdown prompt) ~;;
        s <~ get_session ;;
        match ss_assistant_id s with
        | Some assistant_id =>
            display (ChatMessage "assistant") ~;;
            display Placeholder ~;;
            result <~ run_core (get_agent_response (core_env aenv) fuel assistant_id
                                  prompt) ;;
            let '(response, download_links, images) := result in
            display (PlaceholderMarkdown response) ~;;
            show_downloads download_links ~;;
            show_images images ~;;
            append_message
              (Turn "assistant" response (Some download_links) (Some images))
        | None =>
            display (Warning
                    "Please create a new assistant or enter an existing assistant ID before chatting.")
        end
      else aret tt
  | None => aret tt
  end.

Definition main (fuel : nat) (inp : inputs) : AppM unit :=
  display (Title "Legal assistant") ~;;
  sidebar inp ~;;
  init_messages ~;;
  turns <~ get_messages ;;
  show_history turns ~;;
  chat fuel inp.

End page.

(** the turns of the session; none before the first run *)
Definition turns_of (p : page) : list turn := default [] (ss_messages (page_session p)).

(** the assistant that the session is bound to after the sidebar of a run
    that does not create one *)
Definition bound_assistant (inp : inputs) (s : session) : option string :=
  if truthy (in_assistant_id inp) then Some (in_assistant_id inp) else ss_assistant_id s.

Definition is_file_create (ev : app_event) : bool :=
  match ev with EvFileCreate _ _ => true | _ => false end.

Definition is_assistant_create (ev : app_event) : bool :=
  match ev with EvAssistantCreate _ _ _ _ _ => true | _ => false end.

Definition is_display (ev : app_event) : bool :=
  match ev with Display _ => true | _ => false end.

(** a run of a part of the page relates the sessions by [S] and appends to
    the log events that satisfy [P] *)
Definition stays {X} (S : relation session) (P : app_event → Prop) (m : AppM X) : Prop :=
  ∀ p, S (page_session p) (page_session (snd (m p)))
       ∧ ∃ evs, page_log (snd (m p)) = page_log p ++ evs ∧ Forall P evs.

(** the session keeps its assistant *)
Definition same_assistant (s s' : session) : Prop :=
  ss_assistant_id s' = ss_assistant_id s.

(** the session keeps its turns, and may have new ones after them *)
Definition more_turns (s s' : session) : Prop :=
  default [] (ss_messages s) `prefix_of` default [] (ss_messages s').

Definition any_app_event (ev : app_event) : Prop := True.

(** lines 283 to 346 of [main]: what follows the sidebar *)
Definition after_sidebar (aenv : AppEnv) (fuel : nat) (inp : inputs) : AppM unit :=
  init_messages ~;;
  turns <~ get_messages ;;
  show_history aenv turns ~;;
  chat aenv fuel inp.

(** the events that the sidebar of a run in the mode of an existing
    assistant appends when an identifier was typed *)
Definition use_existing_events (typed : string) : list app_event :=
  [Display (Title "Legal assistant");
   Display (SidebarTitle "Assistant Configuration");
   Display (SidebarRadio "Choose an option:"
              ["Create New Assistant"; "Use Existing Assistant"]);
   Display (SidebarTextInput "Enter existing assistant ID:");
   Display (SidebarSuccess ("Using assistant with ID: " +:+ typed))].

(** the events of the sidebar of a run in the mode of an existing assistant
    when nothing was typed *)
Definition nothing_typed_events : list app_event :=
  [Display (Title "Legal assistant");
   Display (SidebarTitle "Assistant Configuration");
   Display (SidebarRadio "Choose an option:"
              ["Create New Assistant"; "Use Existing Assistant"]);
   Display (SidebarTextInput "Enter existing assistant ID:")].

(** events that are neither an upload nor the creation of an assistant *)
Definition no_creation (ev : app_event) : Prop :=
  is_file_create ev = false ∧ is_assistant_create ev = false.

(** events that only show something *)
Definition only_display (ev : app_event) : Prop := is_display ev = true.

(** the events up to the uploads of a run in the mode of a new assistant *)
Definition upload_events (files : list string) : list app_event :=
  [Display (Title "Legal assistant");
   Display (SidebarTitle "Assistant Configuration");
   Display (SidebarRadio "Choose an option:"
              ["Create New Assistant"; "Use Existing Assistant"]);
   Display (SidebarFileUploader "Upload files")]
  ++ ((λ f, EvFileCreate f "assistants") <$> files).

(** a scripted page: the conversation of a script, uploads that are stored
    under the identifiers of a table and refused for other files, one answer
    for the creation of an assistant, and a decoder that refuses the byte 255 *)
Definition scripted_app (s : Scenario.script) (stored : list (string * string))
    (created : exn + string) : AppEnv :=
  {| core_env := Scenario.scripted s;
     files_create := λ _ f,
       match List.find (λ p, String.eqb (fst p) f) stored with
       | Some (_, id) => inr id
       | None => inl (Exn OtherError ("upload refused: " +:+ f))
       end;
     assistants_create := λ _ _, created;
     bytes_decode := λ b,
       if bool_decide ("255"%char ∈ chars b)
       then inl (Exn OtherError "'utf-8' codec can't decode byte 0xff")
       else inr b |}.

(** * Properties *)

Example read_markup_example :
  Scenario.read_markup example_body = example_document.
Proof. vm_compute. reflexivity. Qed.

Example pausing_run_example :
  get_agent_response (Scenario.scripted (Scenario.pausing [Scenario.scrape_call])) 2
    "asst_1" "What is the penalty?" []
  = (Normal ("Section 3 applies.", [], []),
     [EvUi Spinner "Processing your request...";
      EvMessageCreate "What is the penalty?"; EvRunCreate "asst_1";
      EvRunRetrieve "run_1";
      EvUi Spinner "Executing a detailed search...";
      EvCall "scrape_content" [("url", PyStr "http://example.org")];
      EvUi Spinner "Scraping content from http://example.org...";
      EvHttpGet PROXY_URL
        [("api_key", PyStr "secret"); ("url", PyStr "http://example.org");
         ("render_js", PyStr "true"); ("residential", PyStr "true")];
      EvUi Success "Successfully scraped content from http://example.org";
      EvSubmit "run_1"
        [ToolOutput "call_1"
           (Scenario.render
              (scrape_result ("Hello" +:+ newline +:+ "x" +:+ newline +:+ "y") ["/a"]))];
      EvSleep 1; EvRunRetrieve "run_1"; EvSleep 1; EvMessagesList 1]).
Proof. vm_compute. reflexivity. Qed.

Example timeout_example :
  scrape_content
    (Scenario.scripted
       (Scenario.Script (inl (Exn ReqTimeout "Read timed out.")) [] (inr Scenario.queued)
          [] (inr Scenario.queued) (inr []) []))
    Scenario.example_url []
  = (Normal PyNone,
     [EvUi Spinner "Scraping content from http://example.org...";
      EvHttpGet PROXY_URL
        [("api_key", PyStr "secret"); ("url", PyStr "http://example.org");
         ("render_js", PyStr "true"); ("residential", PyStr "true")];
      EvUi Error "Request timed out while trying to scrape http://example.org."]).
Proof. vm_compute. reflexivity. Qed.

Example scrape_example :
  fst (scrape_content (Scenario.scripted Scenario.base) Scenario.example_url [])
  = Normal (PyDict [("content", PyStr ("Hello" +:+ newline +:+ "x" +:+ newline +:+ "y"));
                    ("links", PyList [PyStr "/a"])]).
Proof. vm_compute. reflexivity. Qed.

(** ** The monad *)

Ltac unfold_m :=
  unfold st_spinner, st_success, st_error in *;
  unfold bind, ret, raise, diverge, try_except, log, service, lift in *;
  simpl in *.

Lemma bind_normal {A B} (m : M A) (k : A → M B) tr a tr' :
  m tr = (Normal a, tr') → bind m k tr = k a tr'.
Proof. intros H. unfold bind. by rewrite H. Qed.

Lemma bind_assoc {A B C} (m : M A) (k : A → M B) (k' : B → M C) tr :
  bind (bind m k) k' tr = bind m (λ a, bind (k a) k') tr.
Proof. unfold bind. by destruct (m tr) as [[a|e|] tr1]. Qed.

Lemma bind_ext {A B} (m : M A) (k1 k2 : A → M B) tr :
  (∀ a tr', k1 a tr' = k2 a tr') → bind m k1 tr = bind m k2 tr.
Proof. intros H. unfold bind. by destruct (m tr) as [[a|e|] tr1]. Qed.

(** ** The order of strings *)

Lemma str_lt_compare a b : str_lt a b ↔ String.compare a b = Lt.
Proof. unfold str_lt, String.ltb. destruct (String.compare a b); split; congruence. Qed.

Lemma str_le_compare a b : str_le a b ↔ String.compare a b ≠ Gt.
Proof. unfold str_le, String.leb. destruct (String.compare a b); split; congruence. Qed.

Lemma str_le_lt_eq a b : str_le a b ↔ a = b ∨ str_lt a b.
Proof.
  rewrite str_le_compare, str_lt_compare.
  pose proof (OrderedTypeEx.String_as_OT.cmp_eq a b) as Heq.
  unfold OrderedTypeEx.String_as_OT.cmp in Heq.
  destruct (String.compare a b) eqn:E; split; intros H; try congruence.
  - left. by apply Heq.
  - by right.
  - destruct H as [H|H]; [apply Heq in H|]; congruence.
Qed.

Global Instance str_lt_trans : Transitive str_lt.
Proof.
  intros a b c. rewrite !str_lt_compare.
  pose proof (OrderedTypeEx.String_as_OT.cmp_lt) as Hlt.
  unfold OrderedTypeEx.String_as_OT.cmp in Hlt.
  rewrite !Hlt. apply OrderedTypeEx.String_as_OT.lt_trans.
Qed.

Global Instance str_le_trans : Transitive str_le.
Proof.
  intros a b c. rewrite !str_le_lt_eq.
  intros [->|Hab] [->|Hbc]; auto. right. by trans b.
Qed.

Global Instance str_le_total : Total str_le.
Proof. intros a b. apply String.leb_total. Qed.

(** a list without repetition that is sorted is strictly sorted *)
Lemma sorted_nodup_strict (l : list string) :
  Sorted str_le l → NoDup l → StronglySorted str_lt l.
Proof.
  intros Hs%Sorted_StronglySorted; [|apply _].
  induction Hs as [|x l _ IH Hx]; intros Hnd; [constructor|].
  apply NoDup_cons in Hnd as [Hnotin Hnd].
  constructor; [by apply IH|].
  apply Forall_forall. intros y Hy.
  rewrite Forall_forall in Hx. specialize (Hx y Hy).
  apply str_le_lt_eq in Hx as [->|Hx]; [done | exact Hx].
Qed.

(** ** The links of a page *)

Lemma truthy_nonempty s : truthy s = true ↔ s ≠ "".
Proof. destruct s; simpl; split; intros; congruence. Qed.

Lemma truthy_href_Some a l : truthy_href a = Some l ↔ a !! "href" = Some l ∧ l ≠ "".
Proof.
  unfold truthy_href. destruct (a !! "href") as [h|]; [|naive_solver].
  destruct (truthy h) eqn:E.
  - apply truthy_nonempty in E. naive_solver.
  - split; [done|]. intros [Hh Hl]. injection Hh as ->.
    apply truthy_nonempty in Hl. congruence.
Qed.

Lemma sorted_links_elem_of doc l :
  l ∈ sorted_links doc
  ↔ l ≠ "" ∧ ∃ a, a ∈ find_all_href "a" doc ∧ a !! "href" = Some l.
Proof.
  unfold sorted_links. rewrite merge_sort_Permutation, elem_of_elements,
    elem_of_list_to_set, list_elem_of_omap.
  setoid_rewrite truthy_href_Some. naive_solver.
Qed.

Lemma sorted_links_NoDup doc : NoDup (sorted_links doc).
Proof. unfold sorted_links. rewrite merge_sort_Permutation. apply NoDup_elements. Qed.

Lemma sorted_links_sorted doc : StronglySorted str_lt (sorted_links doc).
Proof.
  apply sorted_nodup_strict; [|apply sorted_links_NoDup].
  unfold sorted_links. apply Sorted_merge_sort, _.
Qed.

(** ** [scrape_content] *)

Lemma scrape_content_200 env url tr resp :
  proxy_answer env url tr = inr resp →
  status_code resp = 200%Z →
  scrape_content env url tr
  = (Normal (scrape_result (get_text newline (html_parser env (text resp)))
               (sorted_links (html_parser env (text resp)))),
     tr ++ [EvUi Spinner (scraping_msg env url); proxy_request env url;
            EvUi Success ("Successfully scraped content from " +:+ py_str env url)]).
Proof.
  unfold proxy_answer, scrape_content, scraping_msg, proxy_request. intros Hget Hst.
  cbv zeta. unfold_m. rewrite Hget, Hst. simpl. by rewrite <- !app_assoc.
Qed.

(** C4: when the proxy answers 200, the links that [scrape_content] returns
    are in strictly ascending order of [str], hence sorted and without a
    repeated entry; an entry is never the empty string and is always the
    link target of an anchor of the page, and every anchor with a non-empty
    link target has its entry. *)
Theorem scrape_content_links env url tr resp :
  proxy_answer env url tr = inr resp →
  status_code resp = 200%Z →
  ∃ content links tr',
    scrape_content env url tr = (Normal (scrape_result content links), tr')
    ∧ StronglySorted str_lt links
    ∧ Sorted str_le links
    ∧ NoDup links
    ∧ ∀ l, l ∈ links
           ↔ l ≠ "" ∧ ∃ a, a ∈ find_all_href "a" (html_parser env (text resp))
                            ∧ a !! "href" = Some l.
Proof.
  intros Hget Hst. eexists _, _, _. split; [by apply scrape_content_200|].
  split; [apply sorted_links_sorted|].
  split; [unfold sorted_links; apply Sorted_merge_sort, _|].
  split; [apply sorted_links_NoDup|]. apply sorted_links_elem_of.
Qed.

Lemma scrape_content_links_witness :
  ∃ content links tr',
    scrape_content (Scenario.scripted Scenario.base) Scenario.example_url []
    = (Normal (scrape_result content links), tr')
    ∧ StronglySorted str_lt links
    ∧ Sorted str_le links
    ∧ NoDup links
    ∧ ∀ l, l ∈ links
           ↔ l ≠ "" ∧ ∃ a, a ∈ find_all_href "a" (Scenario.read_markup example_body)
                            ∧ a !! "href" = Some l.
Proof.
  apply (scrape_content_links (Scenario.scripted Scenario.base) Scenario.example_url []
           (Response 200 example_body)); reflexivity.
Defined.

(** C5: when the proxy answers with a status other than 200,
    [scrape_content] returns None and raises nothing; it has shown the
    failure to the user. *)
Theorem scrape_content_non_200 env url tr resp :
  proxy_answer env url tr = inr resp →
  status_code resp ≠ 200%Z →
  scrape_content env url tr
  = (Normal PyNone,
     tr ++ [EvUi Spinner (scraping_msg env url); proxy_request env url;
            EvUi Error ("Failed to fetch the page: " +:+ py_str env url
                        +:+ ", status code: " +:+ str_Z (status_code resp))]).
Proof.
  unfold proxy_answer, scrape_content, scraping_msg, proxy_request. intros Hget Hst.
  cbv zeta. unfold_m. rewrite Hget. apply Z.eqb_neq in Hst. rewrite Hst. simpl.
  by rewrite <- !app_assoc.
Qed.

Lemma scrape_content_non_200_witness :
  scrape_content (Scenario.scripted Scenario.not_found) Scenario.example_url []
  = (Normal PyNone,
     [EvUi Spinner "Scraping content from http://example.org...";
      EvHttpGet PROXY_URL
        [("api_key", PyStr "secret"); ("url", PyStr "http://example.org");
         ("render_js", PyStr "true"); ("residential", PyStr "true")];
      EvUi Error "Failed to fetch the page: http://example.org, status code: 404"]).
Proof.
  apply (scrape_content_non_200 (Scenario.scripted Scenario.not_found)
           Scenario.example_url [] (Response 404 "Not Found"));
    [reflexivity | vm_compute; discriminate].
Defined.

(** C9: for the URL http://example.org, when the proxy answers 200 with the
    page of the scenario and the HTML library reads that page as its tree,
    [scrape_content] returns the content Hello, x, y joined by line breaks
    and the one link /a. *)
Theorem scrape_content_example env tr :
  proxy_answer env (PyStr "http://example.org") tr = inr (Response 200 example_body) →
  html_parser env example_body = example_document →
  scrape_content env (PyStr "http://example.org") tr
  = (Normal (PyDict [("content", PyStr ("Hello" +:+ newline +:+ "x" +:+ newline +:+ "y"));
                     ("links", PyList [PyStr "/a"])]),
     tr ++ [EvUi Spinner "Scraping content from http://example.org...";
            proxy_request env (PyStr "http://example.org");
            EvUi Success "Successfully scraped content from http://example.org"]).
Proof.
  intros Hget Hdoc.
  rewrite (scrape_content_200 env _ tr _ Hget eq_refl). simpl text. rewrite Hdoc.
  assert (get_text newline example_document
          = "Hello" +:+ newline +:+ "x" +:+ newline +:+ "y") as ->
    by (vm_compute; reflexivity).
  assert (sorted_links example_document = ["/a"]) as -> by (vm_compute; reflexivity).
  reflexivity.
Qed.

Lemma scrape_content_example_witness :
  scrape_content (Scenario.scripted Scenario.base) (PyStr "http://example.org") []
  = (Normal (PyDict [("content", PyStr ("Hello" +:+ newline +:+ "x" +:+ newline +:+ "y"));
                     ("links", PyList [PyStr "/a"])]),
     [EvUi Spinner "Scraping content from http://example.org...";
      proxy_request (Scenario.scripted Scenario.base) (PyStr "http://example.org");
      EvUi Success "Successfully scraped content from http://example.org"]).
Proof.
  apply (scrape_content_example (Scenario.scripted Scenario.base) []);
    vm_compute; reflexivity.
Defined.

(** ** What computations append to the trace *)

Lemma bind_normal_inv {A B} (m : M A) (k : A → M B) tr b tr' :
  bind m k tr = (Normal b, tr')
  → ∃ a tr1, m tr = (Normal a, tr1) ∧ k a tr1 = (Normal b, tr').
Proof.
  unfold bind. destruct (m tr) as [[a|e|] tr1]; intros H; try discriminate. eauto.
Qed.

Section appends.
Context {A B : Type} (P : event → Prop).

Lemma appends_ret (a : A) : appends P (ret a).
Proof. intros tr. exists []. simpl. by rewrite app_nil_r. Qed.

Lemma appends_raise e : appends P (raise e : M A).
Proof. intros tr. exists []. simpl. by rewrite app_nil_r. Qed.

Lemma appends_diverge : appends P (diverge : M A).
Proof. intros tr. exists []. simpl. by rewrite app_nil_r. Qed.

Lemma appends_lift (r : exn + A) : appends P (lift r).
Proof. destruct r; [apply appends_raise | apply appends_ret]. Qed.

Lemma appends_log ev : P ev → appends P (log ev).
Proof. intros Hev tr. exists [ev]. simpl. auto. Qed.

Lemma appends_service ev (answer : trace → exn + A) :
  P ev → appends P (service ev answer).
Proof.
  intros Hev tr. exists [ev]. unfold service. destruct (answer tr); simpl; auto.
Qed.

Lemma appends_bind (m : M A) (k : A → M B) :
  appends P m → (∀ a, appends P (k a)) → appends P (bind m k).
Proof.
  intros Hm Hk tr. destruct (Hm tr) as (evs & Htr & Hevs). unfold bind.
  destruct (m tr) as [[a|e|] tr1]; simpl in Htr; subst tr1; simpl; eauto.
  destruct (Hk a (tr ++ evs)) as (evs' & Htr' & Hevs'). exists (evs ++ evs').
  rewrite Htr', app_assoc. split; [done | by apply Forall_app].
Qed.

Lemma appends_try (m : M A) (h : exn → M A) :
  appends P m → (∀ e, appends P (h e)) → appends P (try_except m h).
Proof.
  intros Hm Hh tr. destruct (Hm tr) as (evs & Htr & Hevs). unfold try_except.
  destruct (m tr) as [[a|e|] tr1]; simpl in Htr; subst tr1; simpl; eauto.
  destruct (Hh e (tr ++ evs)) as (evs' & Htr' & Hevs'). exists (evs ++ evs').
  rewrite Htr', app_assoc. split; [done | by apply Forall_app].
Qed.
End appends.

Section returns.
Context {A B : Type}.

Lemma returns_ret (a : A) : returns (ret a).
Proof. by intros tr. Qed.

Lemma returns_raise e : returns (raise e : M A).
Proof. by intros tr. Qed.

Lemma returns_lift (r : exn + A) : returns (lift r).
Proof. by destruct r. Qed.

Lemma returns_log ev : returns (log ev).
Proof. by intros tr. Qed.

Lemma returns_service ev (answer : trace → exn + A) : returns (service ev answer).
Proof. intros tr. unfold service. by destruct (answer tr). Qed.

Lemma returns_bind (m : M A) (k : A → M B) :
  returns m → (∀ a, returns (k a)) → returns (bind m k).
Proof.
  intros Hm Hk tr. specialize (Hm tr). unfold bind.
  destruct (m tr) as [[a|e|] tr1]; simpl in *; [apply Hk | done | done].
Qed.

Lemma returns_try (m : M A) (h : exn → M A) :
  returns m → (∀ e, returns (h e)) → returns (try_except m h).
Proof.
  intros Hm Hh tr. specialize (Hm tr). unfold try_except.
  destruct (m tr) as [[a|e|] tr1]; simpl in *; [done | apply Hh | done].
Qed.
End returns.

Create HintDb traces.

Ltac step_trace :=
  repeat first
    [ match goal with |- ∀ _, _ => intro end
    | solve [auto with traces]
    | apply appends_bind | apply appends_try | apply appends_ret | apply appends_raise
    | apply appends_lift | apply appends_diverge
    | apply appends_log | apply appends_service
    | apply returns_bind | apply returns_try | apply returns_ret | apply returns_raise
    | apply returns_lift | apply returns_log | apply returns_service
    | match goal with
      | |- appends _ (if ?b then _ else _) => destruct b
      | |- returns (if ?b then _ else _) => destruct b
      | |- appends _ (match ?x with _ => _ end) => destruct x
      | |- returns (match ?x with _ => _ end) => destruct x
      | |- plain _ => by split
      | |- any_event _ => exact I
      end ].

Lemma scrape_content_appends env url : appends plain (scrape_content env url).
Proof. unfold scrape_content, st_spinner, st_success, st_error. step_trace. Qed.

Lemma scrape_content_returns env url : returns (scrape_content env url).
Proof. unfold scrape_content, st_spinner, st_success, st_error. step_trace. Qed.

#[local] Hint Resolve scrape_content_appends scrape_content_returns : traces.

Lemma registered_scrape env name f :
  available_functions env !! name = Some f
  → name = "scrape_content" ∧ f = scrape_content_fn env.
Proof. unfold available_functions. by intros [-> ->]%lookup_singleton_Some. Qed.

Lemma registered_appends env name f kw :
  available_functions env !! name = Some f → appends plain (fn_body f kw).
Proof.
  intros [_ ->]%registered_scrape. simpl. step_trace.
Qed.

Lemma registered_returns env name f kw :
  available_functions env !! name = Some f → returns (fn_body f kw).
Proof.
  intros [_ ->]%registered_scrape. simpl. step_trace.
Qed.

(** ** [safe_tool_call] *)

(** C8: when the body of a tool raises an exception, [safe_tool_call]
    catches it and returns the text "Error occurred in <tool>: <error>";
    nothing is raised. *)
Theorem safe_tool_call_catches func tool_name kw tr e tr' :
  fn_body func kw (tr ++ [EvCall (fn_name func) kw]) = (Raised e, tr') →
  safe_tool_call func tool_name kw tr
  = (Normal (PyStr ("Error occurred in " +:+ tool_name +:+ ": " +:+ str_exn e)),
     tr' ++ [EvUi Error ("Error in " +:+ tool_name +:+ ": " +:+ str_exn e)]).
Proof. intros Hbody. unfold safe_tool_call. unfold_m. by rewrite Hbody. Qed.

Lemma safe_tool_call_catches_witness :
  fst (safe_tool_call (scrape_content_fn (Scenario.scripted Scenario.broken_proxy))
         "scrape_content" [("url", Scenario.example_url)] [])
  = Normal (PyStr "Error occurred in scrape_content: boom").
Proof.
  rewrite (safe_tool_call_catches
             (scrape_content_fn (Scenario.scripted Scenario.broken_proxy))
             "scrape_content" [("url", Scenario.example_url)] []
             (Exn OtherError "boom")
             [EvCall "scrape_content" [("url", Scenario.example_url)];
              EvUi Spinner "Scraping content from http://example.org...";
              proxy_request (Scenario.scripted Scenario.broken_proxy)
                Scenario.example_url]);
    reflexivity.
Defined.

(** C10: when the callable of a tool returns None, [safe_tool_call] returns
    the text "No content returned from <tool_name>" in its place; and
    whatever the callable does, the value that [safe_tool_call] returns is
    not None. *)
Theorem safe_tool_call_not_none func tool_name kw tr :
  (∀ tr', fn_body func kw (tr ++ [EvCall (fn_name func) kw]) = (Normal PyNone, tr')
          → safe_tool_call func tool_name kw tr
            = (Normal (PyStr ("No content returned from " +:+ tool_name)), tr'))
  ∧ (∀ v tr', safe_tool_call func tool_name kw tr = (Normal v, tr') → v ≠ PyNone).
Proof.
  unfold safe_tool_call. unfold_m. split.
  - intros tr' Hbody. by rewrite Hbody.
  - intros v tr'.
    destruct (fn_body func kw _) as [[[]|e|] tr1]; intros [= <- _]; discriminate.
Qed.

Lemma safe_tool_call_not_none_witness :
  safe_tool_call (scrape_content_fn (Scenario.scripted Scenario.not_found))
    "scrape_content" [("url", Scenario.example_url)] []
  = (Normal (PyStr "No content returned from scrape_content"),
     [EvCall "scrape_content" [("url", Scenario.example_url)];
      EvUi Spinner "Scraping content from http://example.org...";
      proxy_request (Scenario.scripted Scenario.not_found) Scenario.example_url;
      EvUi Error "Failed to fetch the page: http://example.org, status code: 404"]).
Proof.
  apply (safe_tool_call_not_none
           (scrape_content_fn (Scenario.scripted Scenario.not_found))
           "scrape_content" [("url", Scenario.example_url)] []).
  reflexivity.
Defined.

Lemma plain_no_call evs : Forall plain evs → List.filter is_call evs = [].
Proof.
  induction 1 as [|ev evs [_ Hev] _ IH]; [done|]. simpl. by rewrite Hev.
Qed.

Lemma plain_no_submit evs : Forall plain evs → Forall (λ ev, is_submit ev = false) evs.
Proof. intros H. eapply Forall_impl; [done|]. by intros ev [? _]. Qed.

(** a tool whose body returns is called once, and the call returns a value *)
Lemma safe_tool_call_total func tool_name kw tr :
  appends plain (fn_body func kw) → returns (fn_body func kw) →
  ∃ v evs,
    safe_tool_call func tool_name kw tr
    = (Normal v, tr ++ EvCall (fn_name func) kw :: evs)
    ∧ Forall plain evs.
Proof.
  intros Happ Hret. unfold safe_tool_call. unfold_m.
  specialize (Hret (tr ++ [EvCall (fn_name func) kw])).
  destruct (Happ (tr ++ [EvCall (fn_name func) kw])) as (evs & Htr & Hevs).
  destruct (fn_body func kw _) as [[v|e|] tr1]; simpl in *; subst tr1; [| |done].
  - eexists _, evs. by rewrite <- app_assoc.
  - eexists _, (evs ++ [_]). rewrite <- !app_assoc. split; [done|].
    apply Forall_app. split; [done|]. by repeat constructor.
Qed.

(** ** The loop over the requested calls *)

Lemma dispatch_calls_app env pre post outs tr :
  dispatch_calls env (pre ++ post) outs tr
  = bind (dispatch_calls env pre outs) (dispatch_calls env post) tr.
Proof.
  revert outs tr. induction pre as [|c pre IH]; intros outs tr; [done|]. simpl.
  destruct (available_functions env !! call_name c) as [f|]; [|done].
  repeat (rewrite bind_assoc; apply bind_ext; intros). apply IH.
Qed.

Lemma appends_weaken {A} (P Q : event → Prop) (m : M A) :
  (∀ ev, P ev → Q ev) → appends P m → appends Q m.
Proof.
  intros HPQ Hm tr. destruct (Hm tr) as (evs & Htr & Hevs). exists evs.
  split; [done|]. by eapply Forall_impl.
Qed.

Lemma dispatch_calls_appends env calls outs :
  appends no_submit (dispatch_calls env calls outs).
Proof.
  revert outs. induction calls as [|c calls IH]; intros outs; simpl; [step_trace|].
  destruct (available_functions env !! call_name c) as [f|] eqn:Hf; [|step_trace].
  unfold safe_tool_call, st_spinner, st_error. step_trace; try done.
  eapply appends_weaken; [|by eapply registered_appends]. by intros ev [? _].
Qed.

Lemma dispatch_calls_returns env calls outs :
  returns (dispatch_calls env calls outs).
Proof.
  revert outs. induction calls as [|c calls IH]; intros outs; simpl; [step_trace|].
  destruct (available_functions env !! call_name c) as [f|] eqn:Hf; [|step_trace].
  unfold safe_tool_call, st_spinner, st_error. step_trace; try done.
  by eapply registered_returns.
Qed.

(** with an unregistered name among the calls, the loop does not finish *)
Lemma dispatch_calls_unknown env calls call outs tr outs' tr' :
  call ∈ calls →
  available_functions env !! call_name call = None →
  dispatch_calls env calls outs tr ≠ (Normal outs', tr').
Proof.
  intros Hin Hnone. revert outs tr.
  induction calls as [|c calls IH]; intros outs tr; [by apply elem_of_nil in Hin|].
  simpl. destruct (available_functions env !! call_name c) as [f|] eqn:Hf; [|done].
  intros (args & tr1 & _ & H)%bind_normal_inv.
  apply bind_normal_inv in H as (_ & tr2 & _ & H).
  apply bind_normal_inv in H as (kw & tr3 & _ & H).
  apply bind_normal_inv in H as (v & tr4 & _ & H).
  apply elem_of_cons in Hin as [->|Hin]; [congruence|]. by eapply IH.
Qed.

(** ** [handle_tool_outputs] *)

Lemma handle_tool_outputs_raised env r calls e tr tr1 :
  run_tool_calls r = Some calls →
  dispatch_calls env calls [] tr = (Raised e, tr1) →
  handle_tool_outputs env r tr
  = (Normal None,
     tr1 ++ [EvUi Error ("Error in handle_tool_outputs: " +:+ str_exn e);
             EvUi Error (format_exc env e)]).
Proof.
  intros Hcalls Hd. unfold handle_tool_outputs, handle_tool_outputs_except.
  rewrite Hcalls. unfold_m. rewrite Hd. by rewrite <- app_assoc.
Qed.

(** C1, as the code has it: when a requested name is not in the registry,
    [handle_tool_outputs] raises nothing; it returns None and submits no
    output to the run, for any call of the batch.  The failure is shown to
    the user, not sent to the run: when the calls before the unregistered
    one were dispatched, the message is
    "Error in handle_tool_outputs: Function <name> not found in available_functions." *)
Theorem handle_tool_outputs_unknown env r calls call tr :
  run_tool_calls r = Some calls →
  call ∈ calls →
  available_functions env !! call_name call = None →
  (∃ evs, handle_tool_outputs env r tr = (Normal None, tr ++ evs)
          ∧ Forall no_submit evs)
  ∧ (∀ pre post outs tr1,
       calls = pre ++ call :: post →
       dispatch_calls env pre [] tr = (Normal outs, tr1) →
       handle_tool_outputs env r tr
       = (Normal None,
          tr1 ++ [EvUi Error ("Error in handle_tool_outputs: "
                              +:+ not_found_msg (call_name call));
                  EvUi Error (format_exc env
                                (Exn ValueError (not_found_msg (call_name call))))])).
Proof.
  intros Hcalls Hin Hnone. split.
  - destruct (dispatch_calls env calls [] tr) as [[outs|e|] tr1] eqn:Hd.
    + by apply dispatch_calls_unknown with (call := call) in Hd.
    + destruct (dispatch_calls_appends env calls [] tr) as (evs & Htr & Hevs).
      rewrite Hd in Htr. simpl in Htr. subst tr1.
      rewrite (handle_tool_outputs_raised _ _ _ _ _ _ Hcalls Hd).
      exists (evs ++ [EvUi Error ("Error in handle_tool_outputs: " +:+ str_exn e);
                      EvUi Error (format_exc env e)]).
      rewrite app_assoc. split; [done|]. apply Forall_app. split; [done|].
      by repeat constructor.
    + pose proof (dispatch_calls_returns env calls [] tr) as Hret.
      by rewrite Hd in Hret.
  - intros pre post outs tr1 -> Hpre.
    apply (handle_tool_outputs_raised env r _
             (Exn ValueError (not_found_msg (call_name call))) tr tr1 Hcalls).
    rewrite dispatch_calls_app. rewrite (bind_normal _ _ _ _ _ Hpre). simpl.
    by rewrite Hnone.
Qed.

Lemma handle_tool_outputs_unknown_witness :
  (∃ evs,
     handle_tool_outputs (Scenario.scripted Scenario.base)
       (Run "run_1" "requires_action" (Some [Scenario.scrape_call; Scenario.unknown_call]))
       []
     = (Normal None, [] ++ evs)
     ∧ Forall no_submit evs)
  ∧ (∀ pre post outs tr1,
       [Scenario.scrape_call; Scenario.unknown_call] = pre ++ Scenario.unknown_call :: post →
       dispatch_calls (Scenario.scripted Scenario.base) pre [] [] = (Normal outs, tr1) →
       handle_tool_outputs (Scenario.scripted Scenario.base)
         (Run "run_1" "requires_action" (Some [Scenario.scrape_call; Scenario.unknown_call]))
         []
       = (Normal None,
          tr1 ++ [EvUi Error ("Error in handle_tool_outputs: "
                              +:+ not_found_msg "lookup_statute");
                  EvUi Error (format_exc (Scenario.scripted Scenario.base)
                                (Exn ValueError (not_found_msg "lookup_statute")))])).
Proof.
  apply (handle_tool_outputs_unknown (Scenario.scripted Scenario.base)
           (Run "run_1" "requires_action" (Some [Scenario.scrape_call; Scenario.unknown_call]))
           [Scenario.scrape_call; Scenario.unknown_call] Scenario.unknown_call []).
  - reflexivity.
  - apply list_elem_of_further, list_elem_of_here.
  - vm_compute. reflexivity.
Defined.

(** C1 fails as stated: the one call of the run names a tool that is not
    registered; [handle_tool_outputs] shows two errors to the user and
    returns None, and no output reaches the run. *)
Lemma unknown_call_not_answered :
  handle_tool_outputs (Scenario.scripted Scenario.base)
    (Run "run_1" "requires_action" (Some [Scenario.unknown_call])) []
  = (Normal None,
     [EvUi Error
        "Error in handle_tool_outputs: Function lookup_statute not found in available_functions.";
      EvUi Error
        "Traceback (most recent call last): Function lookup_statute not found in available_functions."])
  ∧ ¬ unknown_call_answered.
Proof.
  split; [vm_compute; reflexivity|]. intros H.
  destruct (H (Scenario.scripted Scenario.base)
              (Run "run_1" "requires_action" (Some [Scenario.unknown_call]))
              [Scenario.unknown_call] Scenario.unknown_call [])
    as (evs & outs & o & Htr & Hin & _).
  - reflexivity.
  - apply list_elem_of_here.
  - vm_compute. reflexivity.
  - vm_compute in Htr. subst evs.
    apply elem_of_cons in Hin as [Hin|Hin]; [discriminate|].
    apply elem_of_cons in Hin as [Hin|Hin]; [discriminate|].
    by apply elem_of_nil in Hin.
Qed.

(** ** A pause of the run *)

Lemma well_formed_inv env c :
  well_formed env c →
  ∃ f args kw,
    available_functions env !! call_name c = Some f
    ∧ json_loads env (call_arguments c) = inr args
    ∧ unpack_kwargs "safe_tool_call" ["func"; "tool_name"] args = inr kw
    ∧ request_of env c = Some (f, kw).
Proof.
  unfold well_formed, request_of. intros [[f kw] H].
  destruct (available_functions env !! call_name c) as [f'|]; [|done].
  destruct (json_loads env (call_arguments c)) as [|args]; [done|].
  destruct (unpack_kwargs _ _ args) as [|kw'] eqn:Hkw; [done|]. eauto 10.
Qed.

(** when every request is well formed, the loop calls the requested tool
    with the requested arguments, once per request and in order, and
    collects one output per request *)
Lemma dispatch_calls_ok env calls :
  Forall (well_formed env) calls →
  ∀ outs0 tr,
    ∃ outs evs,
      dispatch_calls env calls outs0 tr = (Normal (outs0 ++ outs), tr ++ evs)
      ∧ Forall2 (answers env) calls outs
      ∧ List.filter is_call evs = omap (call_event env) calls
      ∧ Forall no_submit evs.
Proof.
  induction 1 as [|c calls Hc _ IH]; intros outs0 tr.
  - exists [], []. simpl. rewrite !app_nil_r. by repeat split.
  - destruct (well_formed_inv env c Hc) as (f & args & kw & Hf & Hargs & Hkw & Hreq).
    destruct (safe_tool_call_total f (call_name c) kw
                (tr ++ [EvUi Spinner "Executing a detailed search..."]))
      as (v & evs1 & Hcall & Hevs1);
      [by eapply registered_appends | by eapply registered_returns |].
    destruct (IH (outs0 ++ [ToolOutput (call_id c) (json_dumps env v)])
                ((tr ++ [EvUi Spinner "Executing a detailed search..."])
                   ++ EvCall (fn_name f) kw :: evs1))
      as (outs & evs & Hrest & Hans & Hcalls & Hsub).
    exists (ToolOutput (call_id c) (json_dumps env v) :: outs),
      (EvUi Spinner "Executing a detailed search..." :: EvCall (fn_name f) kw :: evs1 ++ evs).
    split; [|split; [|split]].
    + simpl. rewrite Hf, Hargs. unfold_m. rewrite Hkw. simpl. rewrite Hcall, Hrest.
      by rewrite <- !app_assoc.
    + constructor; [|done]. split; [done|]. eauto 10.
    + simpl. rewrite List.filter_app, (plain_no_call _ Hevs1), Hcalls. simpl.
      unfold call_event at 2. by rewrite Hreq.
    + constructor; [done|]. constructor; [done|]. apply Forall_app.
      split; [by apply plain_no_submit | done].
Qed.

Lemma handle_tool_outputs_ok env r calls tr :
  run_tool_calls r = Some calls →
  Forall (well_formed env) calls →
  ∃ outs evs,
    Forall2 (answers env) calls outs
    ∧ List.filter is_call evs = omap (call_event env) calls
    ∧ Forall no_submit evs
    ∧ handle_tool_outputs env r tr
      = match submit_tool_outputs env (tr ++ evs) (run_id r) outs with
        | inr r' => (Normal (Some r'), tr ++ evs ++ [EvSubmit (run_id r) outs])
        | inl e =>
            (Normal None,
             tr ++ evs ++ [EvSubmit (run_id r) outs;
                           EvUi Error ("Error in handle_tool_outputs: " +:+ str_exn e);
                           EvUi Error (format_exc env e)])
        end.
Proof.
  intros Hcalls Hwf.
  destruct (dispatch_calls_ok env calls Hwf [] tr) as (outs & evs & Hd & Hans & Hev & Hsub).
  exists outs, evs. repeat (split; [done|]).
  unfold handle_tool_outputs, handle_tool_outputs_except. rewrite Hcalls.
  unfold_m. rewrite Hd. simpl.
  destruct (submit_tool_outputs env (tr ++ evs) (run_id r) outs); simpl;
    by rewrite <- !app_assoc.
Qed.

Lemma dispatch_calls_appends_any env calls outs :
  appends any_event (dispatch_calls env calls outs).
Proof. eapply appends_weaken; [|apply dispatch_calls_appends]. done. Qed.

#[local] Hint Resolve dispatch_calls_appends_any dispatch_calls_returns : traces.

Lemma handle_tool_outputs_appends env r : appends any_event (handle_tool_outputs env r).
Proof.
  unfold handle_tool_outputs, handle_tool_outputs_except, st_error. step_trace.
Qed.

Lemma handle_tool_outputs_returns env r : returns (handle_tool_outputs env r).
Proof.
  unfold handle_tool_outputs, handle_tool_outputs_except, st_error. step_trace.
Qed.

#[local] Hint Resolve handle_tool_outputs_appends handle_tool_outputs_returns : traces.

Lemma poll_loop_appends env fuel r : appends any_event (poll_loop env fuel r).
Proof.
  revert r. induction fuel as [|fuel IH]; intros [r0|]; simpl; step_trace.
Qed.




(** ** [get_agent_response] *)

Lemma get_agent_response_passes env fuel assistant_id user_message tr res tr' :
  get_agent_response_try env fuel assistant_id user_message tr = (Normal res, tr')
  → get_agent_response env fuel assistant_id user_message tr = (Normal res, tr').
Proof. intros H. unfold get_agent_response, try_except. by rewrite H. Qed.

(** C3: [get_agent_response] never raises: an exception raised by its steps
    is caught, shown to the user, and turned into the result
    ("Error: <message>", [], []); a result of its steps is returned as it is. *)
Theorem get_agent_response_catches env fuel assistant_id user_message tr :
  (∀ e tr', get_agent_response env fuel assistant_id user_message tr ≠ (Raised e, tr'))
  ∧ (∀ e tr',
       get_agent_response_try env fuel assistant_id user_message tr = (Raised e, tr')
       → get_agent_response env fuel assistant_id user_message tr
         = (Normal ("Error: " +:+ str_exn e, [], []),
            tr' ++ [EvUi Error ("Error in get_agent_response: " +:+ str_exn e);
                    EvUi Error (format_exc env e)]))
  ∧ (∀ res tr',
       get_agent_response_try env fuel assistant_id user_message tr = (Normal res, tr')
       → get_agent_response env fuel assistant_id user_message tr = (Normal res, tr')).
Proof.
  unfold get_agent_response, get_agent_response_except, try_except.
  destruct (get_agent_response_try env fuel assistant_id user_message tr)
    as [[res|e|] tr1]; unfold_m; repeat split; try done.
  intros e' tr' [= <- <-]. by rewrite <- app_assoc.
Qed.

Lemma get_agent_response_catches_witness :
  get_agent_response (Scenario.scripted Scenario.refused) 1 "asst_0" "Hello" []
  = (Normal ("Error: No assistant found with id 'asst_0'", [], []),
     [EvUi Spinner "Processing your request..."; EvMessageCreate "Hello";
      EvRunCreate "asst_0";
      EvUi Error "Error in get_agent_response: No assistant found with id 'asst_0'";
      EvUi Error "Traceback (most recent call last): No assistant found with id 'asst_0'"]).
Proof.
  apply (proj1 (proj2 (get_agent_response_catches (Scenario.scripted Scenario.refused) 1
                         "asst_0" "Hello" []))
           (Exn OtherError "No assistant found with id 'asst_0'")
           [EvUi Spinner "Processing your request..."; EvMessageCreate "Hello";
            EvRunCreate "asst_0"]).
  reflexivity.
Defined.

Lemma get_agent_response_read env fuel assistant_id user_message tr r tr1 :
  run_to_completion env fuel assistant_id user_message tr = (Normal r, tr1) →
  get_agent_response_try env fuel assistant_id user_message tr
  = read_last_message env tr1.
Proof. intros H. unfold get_agent_response_try. by rewrite (bind_normal _ _ _ _ _ H). Qed.

Lemma poll_loop_S env fuel r0 tr :
  poll_loop env (S fuel) (Some r0) tr
  = if polling (run_status r0)
    then (r1 <- service (EvRunRetrieve (run_id r0))
                  (λ tr, runs_retrieve env tr (run_id r0)) ;;
          r2 <- (if String.eqb (run_status r1) "requires_action"
                 then handle_tool_outputs env r1
                 else ret (Some r1)) ;;
          log (EvSleep 1) ;;;
          poll_loop env fuel r2) tr
    else (Normal (Some r0), tr).
Proof. simpl. by destruct (polling (run_status r0)). Qed.

(** when the service answers the polls of a run until the run has left the
    polling statuses, and the loop may poll that often, the loop ends with
    the last run, at the trace of those polls *)
Lemma poll_loop_history env ps :
  ∀ fuel r tr,
    run_history env r tr ps →
    List.length ps ≤ fuel →
    ∃ r', poll_loop env fuel (Some r) tr = (Normal (Some r'), history_trace env r tr ps).
Proof.
  induction ps as [|p ps IH]; intros fuel r tr Hh Hfuel; simpl in Hh.
  - exists r. destruct fuel; simpl; by rewrite Hh.
  - destruct Hh as (Hpoll & Hp & Hrest).
    destruct fuel as [|fuel]; [simpl in Hfuel; lia|].
    destruct (IH fuel (poll_run p) (poll_trace env r tr p) Hrest) as [r' Hr'];
      [simpl in Hfuel; lia|].
    exists r'. cbn [history_trace]. rewrite <- Hr'. rewrite poll_loop_S, Hpoll.
    unfold bind, service, log. destruct p as [r1|r1 r2]; cbn [poll_run poll_trace].
    + destruct Hp as [Hret Hstatus]. rewrite Hret.
      apply String.eqb_neq in Hstatus. rewrite Hstatus. unfold ret.
      by rewrite <- app_assoc.
    + destruct Hp as (Hret & Hstatus & (calls & Hcalls & Hwf) & Haccept).
      rewrite Hret, Hstatus, String.eqb_refl.
      destruct (handle_tool_outputs_ok env r1 calls (tr ++ [EvRunRetrieve (run_id r)])
                  Hcalls Hwf) as (outs & evs & _ & _ & _ & Hh).
      rewrite Haccept in Hh. by rewrite Hh.
Qed.

Lemma run_to_completion_history env fuel assistant_id user_message tr r0 ps :
  started env assistant_id user_message tr r0 →
  run_history env r0 (tr ++ start_events assistant_id user_message) ps →
  List.length ps ≤ fuel →
  ∃ r,
    run_to_completion env fuel assistant_id user_message tr
    = (Normal r, history_trace env r0 (tr ++ start_events assistant_id user_message) ps).
Proof.
  intros [Hmessage Hcreate] Hh Hfuel.
  destruct (poll_loop_history env ps fuel r0 _ Hh Hfuel) as [r' Hr'].
  exists (Some r'). rewrite <- Hr'.
  unfold run_to_completion, st_spinner, start_events, bind, log, service.
  rewrite Hmessage, <- app_assoc. simpl. rewrite Hcreate. by rewrite <- app_assoc.
Qed.

(** C6: when the service answers the creation of the run with a run that is
    still polling, and the first poll with a run that has left the polling
    statuses and is not paused for action, and the last message of the
    thread is then an assistant message made of one text block without
    annotations, [get_agent_response] polls once and returns the text of that
    block as it is, with no download and no image. *)
Theorem get_agent_response_single_text
    env fuel assistant_id user_message tr r0 r1 value rest :
  started env assistant_id user_message tr r0 →
  polling (run_status r0) = true →
  runs_retrieve env (tr ++ start_events assistant_id user_message) (run_id r0) = inr r1 →
  polling (run_status r1) = false →
  run_status r1 ≠ "requires_action" →
  messages_list env
    (tr ++ start_events assistant_id user_message
        ++ [EvRunRetrieve (run_id r0); EvSleep 1]) 1
  = inr (Message "assistant" [TextBlock value []] :: rest) →
  get_agent_response env (S fuel) assistant_id user_message tr
  = (Normal (value, [], []),
     tr ++ start_events assistant_id user_message
        ++ [EvRunRetrieve (run_id r0); EvSleep 1; EvMessagesList 1]).
Proof.
  intros Hstart Hpoll0 Hret Hpoll1 Hstatus Hlist.
  destruct (run_to_completion_history env (S fuel) assistant_id user_message tr r0
              [Quiet r1] Hstart) as [r Hrun].
  { simpl. by repeat split. }
  { simpl. lia. }
  simpl in Hrun. rewrite <- app_assoc in Hrun.
  apply get_agent_response_passes.
  rewrite (get_agent_response_read _ _ _ _ _ _ _ Hrun).
  unfold read_last_message. unfold_m. rewrite Hlist. simpl.
  by rewrite <- !app_assoc.
Qed.

Lemma get_agent_response_single_text_witness :
  get_agent_response (Scenario.scripted Scenario.base) 1 "asst_1" "What is the penalty?" []
  = (Normal ("Section 3 applies.", [], []),
     [EvUi Spinner "Processing your request..."; EvMessageCreate "What is the penalty?";
      EvRunCreate "asst_1"; EvRunRetrieve "run_1"; EvSleep 1; EvMessagesList 1]).
Proof.
  apply (get_agent_response_single_text (Scenario.scripted Scenario.base) 0
           "asst_1" "What is the penalty?" [] Scenario.queued Scenario.completed
           "Section 3 applies." []).
  - split; reflexivity.
  - vm_compute. reflexivity.
  - reflexivity.
  - vm_compute. reflexivity.
  - discriminate.
  - reflexivity.
Defined.

Lemma str_app_assoc (a b c : string) : (a +:+ b) +:+ c = a +:+ (b +:+ c).
Proof.
  induction a as [|x a IH]; [done|].
  change (String x ((a +:+ b) +:+ c) = String x (a +:+ (b +:+ c))). by f_equal.
Qed.

Lemma str_app_nil_r (a : string) : a +:+ "" = a.
Proof.
  induction a as [|x a IH]; [done|]. change (String x (a +:+ "") = String x a).
  by f_equal.
Qed.

Lemma text_of_app pre post : text_of (pre ++ post) = text_of pre +:+ text_of post.
Proof.
  induction pre as [|[value anns|file_id|type] pre IH]; simpl; [done| | |done].
  - by rewrite IH, str_app_assoc.
  - by rewrite IH, <- !str_app_assoc.
Qed.

Lemma image_ids_app pre post : image_ids (pre ++ post) = image_ids pre ++ image_ids post.
Proof.
  induction pre as [|[value anns|file_id|type] pre IH]; simpl; [done|done| |done].
  by rewrite IH.
Qed.

Lemma serves_cons env f files : serves env (f :: files) → serves env files.
Proof. intros H tr f' Hf'. apply H. by apply list_elem_of_further. Qed.

Lemma serves_app env files1 files2 :
  serves env (files1 ++ files2) → serves env files1 ∧ serves env files2.
Proof.
  intros H. split; intros tr f Hf; apply H; apply elem_of_app; auto.
Qed.

Lemma walk_annotations_ok env anns downloads tr :
  serves env (annotation_files anns) →
  ∃ downloads' tr', walk_annotations env anns downloads tr = (Normal downloads', tr').
Proof.
  revert downloads tr. induction anns as [|[atext file_id|type] anns IH];
    intros downloads tr Hserved; simpl in *; [by eexists _, _| |by apply IH].
  unfold_m. destruct (Hserved tr file_id) as [data ->]; [apply list_elem_of_here|].
  apply IH. by eapply serves_cons.
Qed.

Lemma walk_annotations_full env anns downloads tr :
  serves env (annotation_files anns) →
  ∃ downloads',
    walk_annotations env anns downloads tr
    = (Normal (downloads ++ downloads'), tr ++ (EvFileContent <$> annotation_files anns))
    ∧ downloads'.*1 = annotation_names anns.
Proof.
  revert downloads tr. induction anns as [|[atext f|type] anns IH];
    intros downloads tr Hserved; simpl in *.
  - exists []. by rewrite !app_nil_r.
  - unfold_m. destruct (Hserved tr f) as [data ->]; [apply list_elem_of_here|].
    destruct (IH (downloads ++ [(last_segment atext, data)]) (tr ++ [EvFileContent f])
                (serves_cons _ _ _ Hserved)) as (d' & -> & Hd').
    exists ((last_segment atext, data) :: d'). rewrite <- !app_assoc. split; [done|].
    rewrite fmap_cons. simpl. by rewrite Hd'.
  - by apply IH.
Qed.

Lemma walk_content_full env blocks t downloads images tr :
  serves env (files_of blocks) →
  ∃ downloads' images',
    walk_content env blocks t downloads images tr
    = (Normal (t +:+ text_of blocks, downloads ++ downloads', images ++ images'),
       tr ++ (EvFileContent <$> files_of blocks))
    ∧ downloads'.*1 = download_names blocks
    ∧ images'.*1 = (λ f, f +:+ ".png") <$> image_ids blocks.
Proof.
  revert t downloads images tr.
  induction blocks as [|[value anns|f|type] blocks IH];
    intros t downloads images tr Hserved; simpl in *.
  - exists [], []. unfold ret. by rewrite !app_nil_r, str_app_nil_r.
  - apply serves_app in Hserved as [Hanns Hrest].
    destruct (walk_annotations_full env anns downloads tr Hanns) as (d1 & Hwalk & Hd1).
    rewrite (bind_normal _ _ _ _ _ Hwalk).
    destruct (IH (t +:+ value) (downloads ++ d1) images
                (tr ++ (EvFileContent <$> annotation_files anns)) Hrest)
      as (d2 & i2 & -> & Hd2 & Hi2).
    exists (d1 ++ d2), i2. rewrite fmap_app, <- !app_assoc, str_app_assoc.
    split; [done|]. split; [|done]. by rewrite fmap_app, Hd1, Hd2.
  - unfold_m. destruct (Hserved tr f) as [data ->]; [apply list_elem_of_here|].
    destruct (IH (t +:+ image_marker f) downloads (images ++ [(f +:+ ".png", data)])
                (tr ++ [EvFileContent f]) (serves_cons _ _ _ Hserved))
      as (d2 & i2 & Hwalk & Hd2 & Hi2).
    exists d2, ((f +:+ ".png", data) :: i2). unfold image_marker in *.
    rewrite Hwalk, <- !app_assoc, !str_app_assoc.
    split; [done|]. split; [done|]. rewrite fmap_cons. simpl. f_equal. exact Hi2.
  - by apply IH.
Qed.

(** the walk over a message with one image block fetches the file of that
    block after the files of the blocks before it, and records what the
    service answered *)
Lemma walk_content_image env pre file_id post t downloads images tr :
  image_ids pre = [] →
  image_ids post = [] →
  serves env (files_of (pre ++ ImageFileBlock file_id :: post)) →
  ∃ downloads' image_data,
    files_content env (tr ++ (EvFileContent <$> files_of pre)) file_id = inr image_data
    ∧ walk_content env (pre ++ ImageFileBlock file_id :: post) t downloads images tr
      = (Normal (t +:+ text_of (pre ++ ImageFileBlock file_id :: post),
                 downloads',
                 images ++ [(file_id +:+ ".png", image_data)]),
         tr ++ (EvFileContent <$> files_of (pre ++ ImageFileBlock file_id :: post))).
Proof.
  intros Hpre Hpost. revert t downloads tr.
  induction pre as [|[value anns|f|type] pre IH]; intros t downloads tr Hserved;
    simpl in *; [| |done|by apply IH].
  - unfold_m. destruct (Hserved tr file_id) as [data Hdata]; [apply list_elem_of_here|].
    rewrite Hdata.
    destruct (walk_content_full env post (t +:+ image_marker file_id) downloads
                (images ++ [(file_id +:+ ".png", data)]) (tr ++ [EvFileContent file_id])
                (serves_cons _ _ _ Hserved))
      as (d2 & i2 & Hwalk & _ & Hi2).
    rewrite Hpost in Hi2. apply fmap_nil_inv in Hi2 as ->.
    exists (downloads ++ d2), data. split; [by rewrite app_nil_r|].
    unfold image_marker in *. rewrite Hwalk.
    by rewrite app_nil_r, <- !app_assoc, !str_app_assoc.
  - apply serves_app in Hserved as [Hanns Hrest].
    destruct (walk_annotations_full env anns downloads tr Hanns) as (d1 & Hwalk & _).
    rewrite (bind_normal _ _ _ _ _ Hwalk).
    destruct (IH Hpre (t +:+ value) (downloads ++ d1)
                (tr ++ (EvFileContent <$> annotation_files anns)) Hrest)
      as (d2 & data & Hdata & ->).
    exists d2, data. rewrite !fmap_app, str_app_assoc.
    rewrite <- !app_assoc in *. by split.
Qed.

(** C7: when the service answers the polls of the run until the run has left
    the polling statuses, paused for tool calls on the way or not, and the
    last message of the thread is then an assistant message with exactly one
    image block, of file [file_id], and the file service serves the files of
    the message, [get_agent_response] returns exactly one image, named
    "<file_id>.png"; its data is what the file service answered when the
    file was fetched, after the files of the blocks before it; and the
    response text carries the placeholder of that image where the block
    stands. *)
Theorem get_agent_response_one_image
    env fuel assistant_id user_message tr r0 ps tr1 pre file_id post rest :
  started env assistant_id user_message tr r0 →
  run_history env r0 (tr ++ start_events assistant_id user_message) ps →
  List.length ps ≤ fuel →
  history_trace env r0 (tr ++ start_events assistant_id user_message) ps = tr1 →
  messages_list env tr1 1
  = inr (Message "assistant" (pre ++ ImageFileBlock file_id :: post) :: rest) →
  image_ids pre = [] →
  image_ids post = [] →
  serves env (files_of (pre ++ ImageFileBlock file_id :: post)) →
  ∃ downloads image_data,
    files_content env (tr1 ++ EvMessagesList 1 :: (EvFileContent <$> files_of pre)) file_id
    = inr image_data
    ∧ get_agent_response env fuel assistant_id user_message tr
      = (Normal (text_of pre +:+ "[Image generated: " +:+ file_id +:+ ".png]" +:+ newline
                 +:+ text_of post,
                 downloads,
                 [(file_id +:+ ".png", image_data)]),
         tr1 ++ EvMessagesList 1
             :: (EvFileContent <$> files_of (pre ++ ImageFileBlock file_id :: post))).
Proof.
  intros Hstart Hhistory Hfuel Htr1 Hlist Hpre Hpost Hserved.
  destruct (run_to_completion_history env fuel assistant_id user_message tr r0 ps
              Hstart Hhistory Hfuel) as [r Hrun].
  rewrite Htr1 in Hrun.
  destruct (walk_content_image env pre file_id post "" [] [] (tr1 ++ [EvMessagesList 1])
              Hpre Hpost Hserved)
    as (downloads & image_data & Hdata & Hwalk).
  exists downloads, image_data. rewrite <- app_assoc in Hdata. split; [exact Hdata|].
  apply get_agent_response_passes.
  rewrite (get_agent_response_read _ _ _ _ _ _ _ Hrun).
  unfold read_last_message. unfold_m. rewrite Hlist. simpl.
  rewrite Hwalk. rewrite text_of_app. simpl. unfold image_marker.
  by rewrite <- !app_assoc, !str_app_assoc.
Qed.

Lemma get_agent_response_one_image_witness :
  ∃ downloads image_data,
    files_content (Scenario.scripted Scenario.charting)
      (history_trace (Scenario.scripted Scenario.charting) Scenario.queued
         ([] ++ start_events "asst_1" "Draw the chart")
         [Paused (Run "run_1" "requires_action" (Some [Scenario.scrape_call]))
            Scenario.queued;
          Quiet Scenario.completed]
         ++ EvMessagesList 1
            :: (EvFileContent <$> files_of [TextBlock "Here is the chart." []]))
      "file-7"
    = inr image_data
    ∧ get_agent_response (Scenario.scripted Scenario.charting) 2 "asst_1"
        "Draw the chart" []
      = (Normal (text_of [TextBlock "Here is the chart." []]
                 +:+ "[Image generated: " +:+ "file-7" +:+ ".png]" +:+ newline
                 +:+ text_of [],
                 downloads,
                 [("file-7" +:+ ".png", image_data)]),
         history_trace (Scenario.scripted Scenario.charting) Scenario.queued
           ([] ++ start_events "asst_1" "Draw the chart")
           [Paused (Run "run_1" "requires_action" (Some [Scenario.scrape_call]))
              Scenario.queued;
            Quiet Scenario.completed]
           ++ EvMessagesList 1
              :: (EvFileContent
                    <$> files_of ([TextBlock "Here is the chart." []]
                                    ++ ImageFileBlock "file-7" :: []))).
Proof.
  apply (get_agent_response_one_image (Scenario.scripted Scenario.charting) 2
           "asst_1" "Draw the chart" [] Scenario.queued
           [Paused (Run "run_1" "requires_action" (Some [Scenario.scrape_call]))
              Scenario.queued;
            Quiet Scenario.completed]
           _ [TextBlock "Here is the chart." []] "file-7" [] []).
  - split; reflexivity.
  - split; [vm_compute; reflexivity|]. split.
    { split; [reflexivity|]. split; [reflexivity|]. split; [|reflexivity].
      exists [Scenario.scrape_call]. split; [reflexivity|].
      constructor; [|constructor]. eexists. vm_compute. reflexivity. }
    split; [vm_compute; reflexivity|]. split.
    { split; [vm_compute; reflexivity | discriminate]. }
    vm_compute. reflexivity.
  - simpl. lia.
  - reflexivity.
  - reflexivity.
  - reflexivity.
  - reflexivity.
  - intros tr' f Hf. apply list_elem_of_singleton in Hf as ->. by exists "PNG".
Defined.

(** * Further properties *)

(** ** [scrape_content]: failures of the request *)

(** X1: when the request to the proxy raises an exception of the [requests]
    hierarchy (a timeout, too many redirects, or any other
    [RequestException]), [scrape_content] raises nothing and returns None,
    after showing the message of the clause that caught it. *)
Theorem scrape_content_request_failure env url tr e :
  proxy_answer env url tr = inl e →
  is_request_exception e = true →
  scrape_content env url tr
  = (Normal PyNone,
     tr ++ [EvUi Spinner (scraping_msg env url); proxy_request env url;
            EvUi Error (request_failure_msg env url e)]).
Proof.
  unfold proxy_answer, scrape_content, scraping_msg, proxy_request,
    is_request_exception, request_failure_msg.
  intros Hget Hreq. cbv zeta. unfold_m. rewrite Hget.
  destruct (exn_class_of e); try discriminate; simpl; by rewrite <- !app_assoc.
Qed.

Lemma scrape_content_request_failure_witness :
  scrape_content
    (Scenario.scripted
       (Scenario.Script (inl (Exn ReqTooManyRedirects "Exceeded 30 redirects.")) []
          (inr Scenario.queued) [] (inr Scenario.queued) (inr []) []))
    Scenario.example_url []
  = (Normal PyNone,
     [EvUi Spinner "Scraping content from http://example.org...";
      EvHttpGet PROXY_URL
        [("api_key", PyStr "secret"); ("url", PyStr "http://example.org");
         ("render_js", PyStr "true"); ("residential", PyStr "true")];
      EvUi Error "Too many redirects while trying to scrape http://example.org."]).
Proof.
  apply (scrape_content_request_failure
           (Scenario.scripted
              (Scenario.Script (inl (Exn ReqTooManyRedirects "Exceeded 30 redirects.")) []
                 (inr Scenario.queued) [] (inr Scenario.queued) (inr []) []))
           Scenario.example_url [] (Exn ReqTooManyRedirects "Exceeded 30 redirects."));
    reflexivity.
Defined.

(** X2: an exception of the request that is not of the [requests] hierarchy
    is not caught by [scrape_content]: it leaves the function as it is, and
    no error message is shown. *)
Theorem scrape_content_other_exception env url tr e :
  proxy_answer env url tr = inl e →
  is_request_exception e = false →
  scrape_content env url tr
  = (Raised e, tr ++ [EvUi Spinner (scraping_msg env url); proxy_request env url]).
Proof.
  unfold proxy_answer, scrape_content, scraping_msg, proxy_request, is_request_exception.
  intros Hget Hreq. cbv zeta. unfold_m. rewrite Hget.
  destruct (exn_class_of e); try discriminate; simpl; by rewrite <- !app_assoc.
Qed.

Lemma scrape_content_other_exception_witness :
  scrape_content (Scenario.scripted Scenario.broken_proxy) Scenario.example_url []
  = (Raised (Exn OtherError "boom"),
     [EvUi Spinner "Scraping content from http://example.org...";
      proxy_request (Scenario.scripted Scenario.broken_proxy) Scenario.example_url]).
Proof.
  apply (scrape_content_other_exception (Scenario.scripted Scenario.broken_proxy)
           Scenario.example_url [] (Exn OtherError "boom")); reflexivity.
Defined.

(** X3: whatever the proxy answers, one call of [scrape_content] opens its
    spinner, sends exactly one request, to the fixed endpoint with the key,
    the URL and the two flags, and then shows at most one message; it ends
    with None, with a dictionary of content and links, or with an exception
    that is not of the [requests] hierarchy. *)
Theorem scrape_content_one_request env url tr :
  ∃ o evs,
    scrape_content env url tr
    = (o, tr ++ EvUi Spinner (scraping_msg env url)
             :: EvHttpGet "https://proxy.scrapeops.io/v1/"
                  [("api_key", PyStr (API_KEY env)); ("url", url);
                   ("render_js", PyStr "true"); ("residential", PyStr "true")]
             :: evs)
    ∧ Forall (λ ev, is_ui ev = true) evs
    ∧ List.length evs ≤ 1
    ∧ (o = Normal PyNone
       ∨ (∃ content links, o = Normal (scrape_result content links))
       ∨ (∃ e, o = Raised e ∧ is_request_exception e = false)).
Proof.
  unfold scrape_content, scraping_msg, is_request_exception, scrape_result.
  cbv zeta. unfold_m.
  destruct (requests_get env _ PROXY_URL (proxy_params env url)) as [e|resp]; simpl.
  - destruct (exn_class_of e) eqn:Hclass; simpl;
      first
        [ eexists _, [_]; rewrite <- !app_assoc; split; [reflexivity|];
          split; [by repeat constructor|]; split; [done|]; by left
        | eexists _, []; rewrite <- !app_assoc; split; [reflexivity|];
          split; [constructor|]; split; [simpl; lia|]; right; right;
          exists e; by rewrite Hclass ].
  - destruct (status_code resp =? 200)%Z; simpl;
      eexists _, [_]; rewrite <- !app_assoc; (split; [reflexivity|]);
      (split; [by repeat constructor|]); (split; [done|]); [right; left; eauto | by left].
Qed.

(** ** [safe_tool_call]: what passes and what does not *)

(** X4: [safe_tool_call] never raises, whatever the callable does; and a
    value other than None that the callable returns is returned as it is. *)
Theorem safe_tool_call_never_raises func tool_name kw tr :
  (∀ e tr', safe_tool_call func tool_name kw tr ≠ (Raised e, tr'))
  ∧ (∀ v tr',
       fn_body func kw (tr ++ [EvCall (fn_name func) kw]) = (Normal v, tr') →
       v ≠ PyNone →
       safe_tool_call func tool_name kw tr = (Normal v, tr')).
Proof.
  unfold safe_tool_call. unfold_m. split.
  - intros e tr'. by destruct (fn_body func kw _) as [[v|e'|] tr1].
  - intros v tr' -> Hv. by destruct v.
Qed.

Lemma safe_tool_call_never_raises_witness :
  safe_tool_call (scrape_content_fn (Scenario.scripted Scenario.base))
    "scrape_content" [("url", Scenario.example_url)] []
  = (Normal (scrape_result ("Hello" +:+ newline +:+ "x" +:+ newline +:+ "y") ["/a"]),
     [EvCall "scrape_content" [("url", Scenario.example_url)];
      EvUi Spinner "Scraping content from http://example.org...";
      proxy_request (Scenario.scripted Scenario.base) Scenario.example_url;
      EvUi Success "Successfully scraped content from http://example.org"]).
Proof.
  apply (proj2 (safe_tool_call_never_raises
                  (scrape_content_fn (Scenario.scripted Scenario.base))
                  "scrape_content" [("url", Scenario.example_url)] [])).
  - vm_compute. reflexivity.
  - discriminate.
Defined.

(** ** The links of a page depend on the set of link targets only *)

(** X5: two pages whose anchors carry the same non-empty link targets, in
    whatever order and however often, give the same list of links. *)
Theorem sorted_links_set doc1 doc2 :
  (∀ h, h ∈ hrefs doc1 ↔ h ∈ hrefs doc2) →
  sorted_links doc1 = sorted_links doc2.
Proof.
  intros H. unfold sorted_links. fold (hrefs doc1) (hrefs doc2).
  f_equal. f_equal. apply set_eq. intros h. by rewrite !elem_of_list_to_set.
Qed.

Lemma sorted_links_set_witness :
  sorted_links
    [NTag "a" {[ "href" := "/b" ]} []; NTag "a" {[ "href" := "/a" ]} [];
     NTag "p" ∅ [NTag "a" {[ "href" := "/b" ]} [NText "again"]]]
  = sorted_links
      [NTag "a" {[ "href" := "/a" ]} []; NTag "a" ∅ []; NTag "a" {[ "href" := "/b" ]} []].
Proof.
  apply (sorted_links_set
           [NTag "a" {[ "href" := "/b" ]} []; NTag "a" {[ "href" := "/a" ]} [];
            NTag "p" ∅ [NTag "a" {[ "href" := "/b" ]} [NText "again"]]]
           [NTag "a" {[ "href" := "/a" ]} []; NTag "a" ∅ []; NTag "a" {[ "href" := "/b" ]} []]).
  intros h. vm_compute hrefs. set_solver.
Defined.

(** ** [handle_tool_outputs]: one submission or none *)

Lemma no_submit_filter evs : Forall no_submit evs → List.filter is_submit evs = [].
Proof. induction 1 as [|ev evs Hev _ IH]; [done|]. simpl. by rewrite Hev. Qed.

Lemma filter_submit_snoc evs id outs :
  Forall no_submit evs →
  List.filter is_submit (evs ++ [EvSubmit id outs]) = [EvSubmit id outs].
Proof. intros H. by rewrite List.filter_app, (no_submit_filter _ H). Qed.

(** when the loop over the calls does not finish, nothing is submitted *)
Lemma handle_tool_outputs_not_dispatched env r calls tr :
  run_tool_calls r = Some calls →
  (∀ outs tr', dispatch_calls env calls [] tr ≠ (Normal outs, tr')) →
  ∃ evs, handle_tool_outputs env r tr = (Normal None, tr ++ evs) ∧ Forall no_submit evs.
Proof.
  intros Hcalls Hnot.
  destruct (dispatch_calls env calls [] tr) as [[outs|e|] tr1] eqn:Hd.
  - by destruct (Hnot outs tr1).
  - destruct (dispatch_calls_appends env calls [] tr) as (evs & Htr & Hevs).
    rewrite Hd in Htr. simpl in Htr. subst tr1.
    exists (evs ++ [EvUi Error ("Error in handle_tool_outputs: " +:+ str_exn e);
                    EvUi Error (format_exc env e)]).
    split; [|apply Forall_app; split; [done | by repeat constructor]].
    unfold handle_tool_outputs, handle_tool_outputs_except. rewrite Hcalls.
    unfold_m. rewrite Hd. by rewrite <- !app_assoc.
  - pose proof (dispatch_calls_returns env calls [] tr) as Hret. by rewrite Hd in Hret.
Qed.

(** X6: [handle_tool_outputs] never raises and always returns, with a run or
    with None; it submits at most once; and when it returns a run, that run
    is the answer of the service to the one submission, which is the last
    thing it did. *)
Theorem handle_tool_outputs_total env r tr :
  ∃ res evs,
    handle_tool_outputs env r tr = (Normal res, tr ++ evs)
    ∧ List.length (List.filter is_submit evs) ≤ 1
    ∧ ∀ r', res = Some r' →
            ∃ pre outs,
              evs = pre ++ [EvSubmit (run_id r) outs]
              ∧ Forall no_submit pre
              ∧ submit_tool_outputs env (tr ++ pre) (run_id r) outs = inr r'.
Proof.
  destruct (run_tool_calls r) as [calls|] eqn:Hcalls.
  - destruct (dispatch_calls env calls [] tr) as [[outs|e|] tr1] eqn:Hd.
    + destruct (dispatch_calls_appends env calls [] tr) as (evs & Htr & Hevs).
      rewrite Hd in Htr. simpl in Htr. subst tr1.
      unfold handle_tool_outputs, handle_tool_outputs_except. rewrite Hcalls.
      unfold_m. rewrite Hd. simpl.
      destruct (submit_tool_outputs env (tr ++ evs) (run_id r) outs) as [e|r1] eqn:Hs;
        simpl.
      * eexists None, (evs ++ [EvSubmit (run_id r) outs; _; _]).
        rewrite <- !app_assoc. split; [done|]. split; [|done].
        rewrite List.filter_app, (no_submit_filter _ Hevs). simpl. lia.
      * eexists (Some r1), (evs ++ [EvSubmit (run_id r) outs]).
        rewrite <- !app_assoc. split; [done|]. split.
        { rewrite (filter_submit_snoc _ _ _ Hevs). simpl. lia. }
        intros r' [= <-]. by exists evs, outs.
    + destruct (handle_tool_outputs_not_dispatched env r calls tr Hcalls)
        as (evs & Hh & Hevs); [intros outs tr'; by rewrite Hd|].
      exists None, evs. split; [done|]. split; [|done].
      rewrite (no_submit_filter _ Hevs). simpl. lia.
    + pose proof (dispatch_calls_returns env calls [] tr) as Hret. by rewrite Hd in Hret.
  - unfold handle_tool_outputs, handle_tool_outputs_except. rewrite Hcalls. unfold_m.
    eexists None, [_; _]. rewrite <- !app_assoc. split; [done|]. split; [simpl; lia|done].
Qed.

(** a request that is not well formed stops the loop over the calls *)
Lemma dispatch_calls_ill_formed env calls call outs tr outs' tr' :
  call ∈ calls →
  ¬ well_formed env call →
  dispatch_calls env calls outs tr ≠ (Normal outs', tr').
Proof.
  intros Hin Hill. revert outs tr.
  induction calls as [|c calls IH]; intros outs tr; [by apply elem_of_nil in Hin|].
  simpl. destruct (available_functions env !! call_name c) as [f|] eqn:Hf; [|done].
  intros (args & tr1 & Hargs & H)%bind_normal_inv.
  apply bind_normal_inv in H as (_ & tr2 & _ & H).
  apply bind_normal_inv in H as (kw & tr3 & Hkw & H).
  apply bind_normal_inv in H as (v & tr4 & _ & H).
  apply elem_of_cons in Hin as [->|Hin]; [|by eapply IH].
  apply Hill. unfold well_formed, request_of. rewrite Hf.
  destruct (json_loads env (call_arguments c)) as [|args']; [done|].
  injection Hargs as -> _.
  destruct (unpack_kwargs _ _ args) as [|kw']; [done|]. by eexists.
Qed.

(** X7: [handle_tool_outputs] submits outputs to the run exactly when every
    request of the batch is well formed: its name is registered, its
    arguments are JSON text, and the value read is an object none of whose
    keys is [func] or [tool_name].  One request that is not, anywhere in the
    batch, and the run receives nothing, whatever the other tools returned. *)
Theorem handle_tool_outputs_submits_iff env r calls tr :
  run_tool_calls r = Some calls →
  (∃ evs outs,
     snd (handle_tool_outputs env r tr) = tr ++ evs ∧ EvSubmit (run_id r) outs ∈ evs)
  ↔ Forall (well_formed env) calls.
Proof.
  intros Hcalls. split.
  - intros (evs & outs & Htr & Hin).
    destruct (decide (Forall (well_formed env) calls)) as [|Hnot]; [done|].
    apply not_Forall_Exists in Hnot; [|apply _].
    apply Exists_exists in Hnot as (call & Hcall & Hill).
    destruct (handle_tool_outputs_not_dispatched env r calls tr Hcalls)
      as (evs' & Hh & Hevs').
    { intros outs' tr'. by apply dispatch_calls_ill_formed with (call := call). }
    rewrite Hh in Htr. simpl in Htr. apply app_inv_head in Htr. subst evs'.
    rewrite Forall_forall in Hevs'. by specialize (Hevs' _ Hin).
  - intros Hwf.
    destruct (handle_tool_outputs_ok env r calls tr Hcalls Hwf)
      as (outs & evs & _ & _ & _ & Hh).
    rewrite Hh. destruct (submit_tool_outputs env (tr ++ evs) (run_id r) outs);
      simpl; eexists _, outs; (split; [reflexivity|]); set_solver.
Qed.

Lemma handle_tool_outputs_submits_iff_witness :
  (∃ evs outs,
     snd (handle_tool_outputs (Scenario.scripted Scenario.base)
            (Run "run_1" "requires_action" (Some [Scenario.scrape_call])) [])
     = [] ++ evs
     ∧ EvSubmit "run_1" outs ∈ evs)
  ↔ Forall (well_formed (Scenario.scripted Scenario.base)) [Scenario.scrape_call].
Proof.
  apply (handle_tool_outputs_submits_iff (Scenario.scripted Scenario.base)
           (Run "run_1" "requires_action" (Some [Scenario.scrape_call]))
           [Scenario.scrape_call] []).
  reflexivity.
Defined.

(** ** The polling loop *)

Ltac step_events := step_trace; try reflexivity.

Lemma dispatch_calls_events env calls outs :
  appends batch_event (dispatch_calls env calls outs).
Proof.
  revert outs. induction calls as [|c calls IH]; intros outs; simpl; [step_events|].
  destruct (available_functions env !! call_name c) as [f|] eqn:Hf; [|step_events].
  apply registered_scrape in Hf as [_ ->].
  unfold safe_tool_call, scrape_content_fn, scrape_content, st_spinner, st_success,
    st_error.
  simpl. step_events.
Qed.

Lemma handle_tool_outputs_events env r : appends batch_event (handle_tool_outputs env r).
Proof.
  unfold handle_tool_outputs, handle_tool_outputs_except, st_error.
  pose proof (dispatch_calls_events env) as Hd. step_events.
Qed.

(** X8: when a poll finds the run paused and [handle_tool_outputs] returns
    None (a request that could not be dispatched, or a submission that the
    service refused), the loop sleeps once and then fails on the status of
    None: what is raised is the AttributeError, not the cause. *)
Theorem poll_loop_after_failed_batch env fuel r0 tr r tr1 :
  polling (run_status r0) = true →
  runs_retrieve env tr (run_id r0) = inr r →
  run_status r = "requires_action" →
  handle_tool_outputs env r (tr ++ [EvRunRetrieve (run_id r0)]) = (Normal None, tr1) →
  poll_loop env (S fuel) (Some r0) tr
  = (Raised (Exn AttributeError "'NoneType' object has no attribute 'status'"),
     tr1 ++ [EvSleep 1]).
Proof.
  intros Hpoll Hret Hstatus Hh. simpl. rewrite Hpoll. unfold_m.
  rewrite Hret, Hstatus. simpl. rewrite Hh. by destruct fuel.
Qed.

Lemma poll_loop_after_failed_batch_witness :
  poll_loop (Scenario.scripted (Scenario.pausing [Scenario.unknown_call])) 1
    (Some Scenario.queued) []
  = (Raised (Exn AttributeError "'NoneType' object has no attribute 'status'"),
     [EvRunRetrieve "run_1";
      EvUi Error
        "Error in handle_tool_outputs: Function lookup_statute not found in available_functions.";
      EvUi Error
        "Traceback (most recent call last): Function lookup_statute not found in available_functions."]
     ++ [EvSleep 1]).
Proof.
  apply (poll_loop_after_failed_batch
           (Scenario.scripted (Scenario.pausing [Scenario.unknown_call])) 0
           Scenario.queued []
           (Run "run_1" "requires_action" (Some [Scenario.unknown_call]))).
  - vm_compute. reflexivity.
  - reflexivity.
  - reflexivity.
  - vm_compute. reflexivity.
Defined.

(** X9: when the loop ends without an exception, it holds a run, and the
    status of that run is neither "queued" nor "in_progress". *)
Theorem poll_loop_exit env fuel r tr r' tr' :
  poll_loop env fuel r tr = (Normal r', tr') →
  ∃ r1, r' = Some r1 ∧ polling (run_status r1) = false.
Proof.
  revert r tr. induction fuel as [|fuel IH]; intros [r0|] tr; simpl; try done.
  - destruct (polling (run_status r0)) eqn:Hp; [done|]. intros [= <- <-]. eauto.
  - destruct (polling (run_status r0)) eqn:Hp; [|intros [= <- <-]; eauto].
    intros (r1 & tr1 & _ & H)%bind_normal_inv.
    apply bind_normal_inv in H as (r2 & tr2 & _ & H).
    apply bind_normal_inv in H as (_ & tr3 & _ & H). by eapply IH.
Qed.

Lemma poll_loop_exit_witness :
  ∃ r1, Some Scenario.completed = Some r1 ∧ polling (run_status r1) = false.
Proof.
  apply (poll_loop_exit (Scenario.scripted Scenario.base) 1 (Some Scenario.queued) []
           (Some Scenario.completed) [EvRunRetrieve "run_1"; EvSleep 1]).
  vm_compute. reflexivity.
Defined.

Lemma service_normal_inv {A} ev (answer : trace → exn + A) tr a tr' :
  service ev answer tr = (Normal a, tr') → answer tr = inr a ∧ tr' = tr ++ [ev].
Proof. unfold service. destruct (answer tr); intros [= <- <-]; auto. Qed.

Lemma batch_event_quiet evs :
  Forall batch_event evs →
  List.filter is_sleep evs = [] ∧ List.filter is_poll evs = []
  ∧ Forall (λ ev, is_sleep ev = true → ev = EvSleep 1) evs.
Proof.
  induction 1 as [|ev evs Hev _ (IHs & IHp & IHf)]; [by repeat split|].
  unfold batch_event in Hev. destruct ev; try discriminate; simpl;
    (split; [done|]); (split; [done|]); by constructor.
Qed.

(** X11: when the loop ends without an exception, it has slept exactly once
    for every poll it made, one second each time; a batch of tool calls adds
    neither a poll nor a sleep. *)
Theorem poll_loop_sleeps env fuel r tr r' tr' :
  poll_loop env fuel r tr = (Normal r', tr') →
  ∃ evs,
    tr' = tr ++ evs
    ∧ List.length (List.filter is_sleep evs) = List.length (List.filter is_poll evs)
    ∧ Forall (λ ev, is_sleep ev = true → ev = EvSleep 1) evs.
Proof.
  revert r tr. induction fuel as [|fuel IH]; intros [r0|] tr; try done.
  - simpl. destruct (polling (run_status r0)); [done|]. intros [= <- <-].
    exists []. by rewrite app_nil_r.
  - rewrite poll_loop_S. destruct (polling (run_status r0)).
    2:{ intros [= <- <-]. exists []. by rewrite app_nil_r. }
    intros (r1 & tr1 & [_ ->]%service_normal_inv & H)%bind_normal_inv.
    apply bind_normal_inv in H as (r2 & tr2 & Hbatch & H).
    apply bind_normal_inv in H as ([] & tr3 & [= <-] & H).
    destruct (IH _ _ H) as (evs & -> & Hcount & Hsleep).
    assert (∃ evsH, tr2 = (tr ++ [EvRunRetrieve (run_id r0)]) ++ evsH
                    ∧ Forall batch_event evsH) as (evsH & -> & HevsH).
    { destruct (String.eqb (run_status r1) "requires_action").
      - destruct (handle_tool_outputs_events env r1 (tr ++ [EvRunRetrieve (run_id r0)]))
          as (evsH & Htr & HevsH).
        rewrite Hbatch in Htr. by exists evsH.
      - injection Hbatch as _ <-. exists []. by rewrite app_nil_r. }
    destruct (batch_event_quiet _ HevsH) as (Hs & Hp & Hf).
    exists (EvRunRetrieve (run_id r0) :: evsH ++ EvSleep 1 :: evs).
    split; [by rewrite <- !app_assoc|]. split.
    + simpl. rewrite !List.filter_app, Hs, Hp. simpl. by rewrite Hcount.
    + constructor; [done|]. apply Forall_app. split; [done|]. by constructor.
Qed.

Lemma poll_loop_sleeps_witness :
  ∃ evs,
    [EvRunRetrieve "run_1"; EvSleep 1] = [] ++ evs
    ∧ List.length (List.filter is_sleep evs) = List.length (List.filter is_poll evs)
    ∧ Forall (λ ev, is_sleep ev = true → ev = EvSleep 1) evs.
Proof.
  apply (poll_loop_sleeps (Scenario.scripted Scenario.base) 1 (Some Scenario.queued) []
           (Some Scenario.completed) [EvRunRetrieve "run_1"; EvSleep 1]).
  vm_compute. reflexivity.
Defined.

(** ** Without a pause, no tool *)

Lemma walk_annotations_appends env (P : event → Prop) anns downloads :
  (∀ f, P (EvFileContent f)) → appends P (walk_annotations env anns downloads).
Proof.
  intros HP. revert downloads.
  induction anns as [|[atext f|type] anns IH]; intros downloads; simpl; step_trace.
Qed.

Lemma walk_content_appends env (P : event → Prop) blocks t downloads images :
  (∀ f, P (EvFileContent f)) → appends P (walk_content env blocks t downloads images).
Proof.
  intros HP. revert t downloads images.
  induction blocks as [|[value anns|f|type] blocks IH]; intros t downloads images;
    simpl; step_trace.
  by apply walk_annotations_appends.
Qed.

Lemma poll_loop_no_pause env fuel r :
  (∀ tr id r1, runs_retrieve env tr id = inr r1 → run_status r1 ≠ "requires_action") →
  appends no_tool_event (poll_loop env fuel r).
Proof.
  intros Hnever. revert r. induction fuel as [|fuel IH]; intros [r0|]; simpl;
    [step_trace | step_trace | | step_trace].
  destruct (polling (run_status r0)); [|step_trace].
  intros tr. unfold bind at 1. unfold service.
  destruct (runs_retrieve env tr (run_id r0)) as [e|r1] eqn:Hr.
  { exists [EvRunRetrieve (run_id r0)]. split; [done|]. by repeat constructor. }
  destruct (String.eqb_spec (run_status r1) "requires_action") as [Heq|_];
    [by destruct (Hnever _ _ _ Hr)|].
  unfold_m.
  destruct (IH (Some r1) ((tr ++ [EvRunRetrieve (run_id r0)]) ++ [EvSleep 1]))
    as (evs & Htr & Hevs).
  exists (EvRunRetrieve (run_id r0) :: EvSleep 1 :: evs).
  rewrite Htr, <- !app_assoc. split; [done|]. by repeat constructor.
Qed.

(** X12: when no poll ever finds the run paused for action,
    [get_agent_response] calls no tool, sends nothing to the proxy and
    submits nothing, however it ends. *)
Theorem get_agent_response_no_pause env fuel assistant_id user_message tr :
  (∀ tr id r1, runs_retrieve env tr id = inr r1 → run_status r1 ≠ "requires_action") →
  ∃ evs,
    snd (get_agent_response env fuel assistant_id user_message tr) = tr ++ evs
    ∧ Forall no_tool_event evs.
Proof.
  intros Hnever.
  pose proof (poll_loop_no_pause env fuel) as Hloop.
  pose proof (walk_content_appends env no_tool_event) as Hwalk.
  assert (appends no_tool_event (get_agent_response env fuel assistant_id user_message))
    as Happ; [|apply Happ].
  unfold get_agent_response, get_agent_response_try, get_agent_response_except,
    run_to_completion, read_last_message, st_spinner, st_error.
  step_trace; try done. apply Hwalk. done.
Qed.

Lemma get_agent_response_no_pause_witness :
  ∃ evs,
    snd (get_agent_response (Scenario.scripted Scenario.drawing) 3 "asst_1" "Draw" [])
    = [] ++ evs
    ∧ Forall no_tool_event evs.
Proof.
  apply (get_agent_response_no_pause (Scenario.scripted Scenario.drawing) 3
           "asst_1" "Draw" []).
  intros tr id r1. simpl.
  destruct (List.length (List.filter Scenario.is_retrieve tr)) as [|[|n]];
    simpl; intros [= <-]; discriminate.
Defined.

(** ** The last message *)

(** X13: when the last message of the thread is not an assistant message,
    [get_agent_response] returns the text "Error: No assistant response"
    with no attachment; the content of that message is not read and no file
    is fetched. *)
Theorem get_agent_response_not_assistant
    env fuel assistant_id user_message tr r tr1 m rest :
  run_to_completion env fuel assistant_id user_message tr = (Normal r, tr1) →
  messages_list env tr1 1 = inr (m :: rest) →
  msg_role m ≠ "assistant" →
  get_agent_response env fuel assistant_id user_message tr
  = (Normal ("Error: No assistant response", [], []), tr1 ++ [EvMessagesList 1]).
Proof.
  intros Hrun Hlist Hrole. apply get_agent_response_passes.
  rewrite (get_agent_response_read _ _ _ _ _ _ _ Hrun).
  unfold read_last_message. unfold_m. rewrite Hlist. simpl.
  by destruct (String.eqb_spec (msg_role m) "assistant").
Qed.

Lemma get_agent_response_not_assistant_witness :
  get_agent_response
    (Scenario.scripted
       (Scenario.Script (inr (Response 200 "")) [] (inr Scenario.completed) []
          (inr Scenario.queued)
          (inr [Message "user" [TextBlock "What is the penalty?" []]]) []))
    0 "asst_1" "What is the penalty?" []
  = (Normal ("Error: No assistant response", [], []),
     [EvUi Spinner "Processing your request..."; EvMessageCreate "What is the penalty?";
      EvRunCreate "asst_1"] ++ [EvMessagesList 1]).
Proof.
  apply (get_agent_response_not_assistant
           (Scenario.scripted
              (Scenario.Script (inr (Response 200 "")) [] (inr Scenario.completed) []
                 (inr Scenario.queued)
                 (inr [Message "user" [TextBlock "What is the penalty?" []]]) []))
           0 "asst_1" "What is the penalty?" [] (Some Scenario.completed) _
           (Message "user" [TextBlock "What is the penalty?" []]) []).
  - vm_compute. reflexivity.
  - reflexivity.
  - discriminate.
Defined.

(** X14: when the thread has no message at all, the index into the empty
    list raises, and [get_agent_response] returns the error turn
    "Error: list index out of range" with no attachment. *)
Theorem get_agent_response_empty_thread env fuel assistant_id user_message tr r tr1 :
  run_to_completion env fuel assistant_id user_message tr = (Normal r, tr1) →
  messages_list env tr1 1 = inr [] →
  get_agent_response env fuel assistant_id user_message tr
  = (Normal ("Error: list index out of range", [], []),
     tr1 ++ [EvMessagesList 1;
             EvUi Error "Error in get_agent_response: list index out of range";
             EvUi Error (format_exc env (Exn IndexError "list index out of range"))]).
Proof.
  intros Hrun Hlist. unfold get_agent_response, get_agent_response_except, try_except.
  rewrite (get_agent_response_read _ _ _ _ _ _ _ Hrun).
  unfold read_last_message. unfold_m. rewrite Hlist. simpl. by rewrite <- !app_assoc.
Qed.

Lemma get_agent_response_empty_thread_witness :
  get_agent_response
    (Scenario.scripted
       (Scenario.Script (inr (Response 200 "")) [] (inr Scenario.completed) []
          (inr Scenario.queued) (inr []) []))
    0 "asst_1" "Hello" []
  = (Normal ("Error: list index out of range", [], []),
     [EvUi Spinner "Processing your request..."; EvMessageCreate "Hello";
      EvRunCreate "asst_1"]
     ++ [EvMessagesList 1;
         EvUi Error "Error in get_agent_response: list index out of range";
         EvUi Error "Traceback (most recent call last): list index out of range"]).
Proof.
  apply (get_agent_response_empty_thread
           (Scenario.scripted
              (Scenario.Script (inr (Response 200 "")) [] (inr Scenario.completed) []
                 (inr Scenario.queued) (inr []) []))
           0 "asst_1" "Hello" [] (Some Scenario.completed)).
  - vm_compute. reflexivity.
  - reflexivity.
Defined.

(** X15: for an assistant message whose files the service serves,
    [get_agent_response] returns the texts of the text blocks and the
    placeholders of the image blocks in the order of the blocks; one download
    per file-path annotation, named by the part of the annotation text after
    its last slash; one image per image block, named "<file_id>.png"; and it
    fetches the files once each, in the order of the message. *)
Theorem get_agent_response_rendering
    env fuel assistant_id user_message tr r tr1 blocks rest :
  run_to_completion env fuel assistant_id user_message tr = (Normal r, tr1) →
  messages_list env tr1 1 = inr (Message "assistant" blocks :: rest) →
  serves env (files_of blocks) →
  ∃ downloads images,
    get_agent_response env fuel assistant_id user_message tr
    = (Normal (text_of blocks, downloads, images),
       tr1 ++ EvMessagesList 1 :: (EvFileContent <$> files_of blocks))
    ∧ downloads.*1 = download_names blocks
    ∧ images.*1 = (λ f, f +:+ ".png") <$> image_ids blocks.
Proof.
  intros Hrun Hlist Hserved.
  destruct (walk_content_full env blocks "" [] [] (tr1 ++ [EvMessagesList 1]) Hserved)
    as (downloads & images & Hwalk & Hd & Hi).
  exists downloads, images. split; [|done].
  apply get_agent_response_passes.
  rewrite (get_agent_response_read _ _ _ _ _ _ _ Hrun).
  unfold read_last_message. unfold_m. rewrite Hlist. simpl.
  rewrite Hwalk. by rewrite <- !app_assoc.
Qed.

Lemma get_agent_response_rendering_witness :
  ∃ downloads images,
    get_agent_response
      (Scenario.scripted
         (Scenario.Script (inr (Response 200 "")) [] (inr Scenario.completed) []
            (inr Scenario.queued)
            (inr [Message "assistant"
                    [TextBlock "See the report."
                       [FilePathAnnotation "sandbox:/mnt/data/report.html" "file-1"];
                     ImageFileBlock "file-7"]])
            [("file-1", "<p>report</p>"); ("file-7", "PNG")]))
      0 "asst_1" "Report" []
    = (Normal (text_of [TextBlock "See the report."
                          [FilePathAnnotation "sandbox:/mnt/data/report.html" "file-1"];
                        ImageFileBlock "file-7"],
               downloads, images),
       [EvUi Spinner "Processing your request..."; EvMessageCreate "Report";
        EvRunCreate "asst_1"]
       ++ EvMessagesList 1 :: (EvFileContent <$> ["file-1"; "file-7"]))
    ∧ downloads.*1 = ["report.html"]
    ∧ images.*1 = ["file-7.png"].
Proof.
  apply (get_agent_response_rendering
           (Scenario.scripted
              (Scenario.Script (inr (Response 200 "")) [] (inr Scenario.completed) []
                 (inr Scenario.queued)
                 (inr [Message "assistant"
                         [TextBlock "See the report."
                            [FilePathAnnotation "sandbox:/mnt/data/report.html" "file-1"];
                          ImageFileBlock "file-7"]])
                 [("file-1", "<p>report</p>"); ("file-7", "PNG")]))
           0 "asst_1" "Report" [] (Some Scenario.completed)
           [EvUi Spinner "Processing your request..."; EvMessageCreate "Report";
            EvRunCreate "asst_1"]
           [TextBlock "See the report."
              [FilePathAnnotation "sandbox:/mnt/data/report.html" "file-1"];
            ImageFileBlock "file-7"]
           []).
  - vm_compute. reflexivity.
  - reflexivity.
  - intros tr' f Hf. simpl in Hf.
    apply elem_of_cons in Hf as [->|Hf]; [by eexists|].
    apply list_elem_of_singleton in Hf as ->. by eexists.
Defined.

(** ** A file that cannot be fetched *)

Lemma walk_annotations_fails env anns downloads tr f e :
  f ∈ annotation_files anns →
  (∀ tr', files_content env tr' f = inl e) →
  (∀ tr' f', f' ∈ annotation_files anns → f' ≠ f
             → ∃ data, files_content env tr' f' = inr data) →
  ∃ tr', walk_annotations env anns downloads tr = (Raised e, tr').
Proof.
  intros Hin Hfail. revert downloads tr Hin.
  induction anns as [|[atext f0|type] anns IH]; intros downloads tr Hin Hothers;
    simpl in *; [by apply elem_of_nil in Hin| |by apply IH].
  unfold_m. destruct (decide (f0 = f)) as [->|Hne].
  - rewrite Hfail. by eexists.
  - destruct (Hothers tr f0) as [data ->]; [apply list_elem_of_here | done |].
    apply elem_of_cons in Hin as [->|Hin]; [done|].
    apply IH; [done|]. intros tr' f' Hf'. apply Hothers. by apply list_elem_of_further.
Qed.

Lemma walk_content_fails env blocks t downloads images tr f e :
  f ∈ files_of blocks →
  (∀ tr', files_content env tr' f = inl e) →
  (∀ tr' f', f' ∈ files_of blocks → f' ≠ f → ∃ data, files_content env tr' f' = inr data) →
  ∃ tr', walk_content env blocks t downloads images tr = (Raised e, tr').
Proof.
  intros Hin Hfail. revert t downloads images tr Hin.
  induction blocks as [|[value anns|f0|type] blocks IH];
    intros t downloads images tr Hin Hothers; simpl in *;
    [by apply elem_of_nil in Hin| | |by apply IH].
  - destruct (decide (f ∈ annotation_files anns)) as [Hanns|Hanns].
    + destruct (walk_annotations_fails env anns downloads tr f e Hanns Hfail)
        as [tr' Hwalk].
      { intros tr' f' Hf'. apply Hothers. apply elem_of_app. by left. }
      unfold bind. rewrite Hwalk. by eexists.
    + destruct (walk_annotations_ok env anns downloads tr) as (d1 & tr1 & Hwalk).
      { intros tr' f' Hf'. apply Hothers; [apply elem_of_app; by left|].
        by intros ->. }
      rewrite (bind_normal _ _ _ _ _ Hwalk).
      apply elem_of_app in Hin as [Hin|Hin]; [done|].
      apply IH; [done|]. intros tr' f' Hf'. apply Hothers. apply elem_of_app. by right.
  - unfold_m. destruct (decide (f0 = f)) as [->|Hne].
    + rewrite Hfail. by eexists.
    + destruct (Hothers tr f0) as [data ->]; [apply list_elem_of_here | done |].
      apply elem_of_cons in Hin as [->|Hin]; [done|].
      apply IH; [done|]. intros tr' f' Hf'. apply Hothers. by apply list_elem_of_further.
Qed.

(** X16: when one of the files of the last message cannot be fetched,
    [get_agent_response] returns the error turn of that failure and no
    attachment at all: the text of the message and the files fetched before
    the failing one are dropped. *)
Theorem get_agent_response_fetch_failure
    env fuel assistant_id user_message tr r tr1 blocks rest f e :
  run_to_completion env fuel assistant_id user_message tr = (Normal r, tr1) →
  messages_list env tr1 1 = inr (Message "assistant" blocks :: rest) →
  f ∈ files_of blocks →
  (∀ tr', files_content env tr' f = inl e) →
  (∀ tr' f', f' ∈ files_of blocks → f' ≠ f → ∃ data, files_content env tr' f' = inr data) →
  ∃ tr2,
    get_agent_response env fuel assistant_id user_message tr
    = (Normal ("Error: " +:+ str_exn e, [], []), tr2).
Proof.
  intros Hrun Hlist Hin Hfail Hothers.
  destruct (walk_content_fails env blocks "" [] [] (tr1 ++ [EvMessagesList 1]) f e
              Hin Hfail Hothers) as [tr' Hwalk].
  unfold get_agent_response, get_agent_response_except, try_except.
  rewrite (get_agent_response_read _ _ _ _ _ _ _ Hrun).
  unfold read_last_message. unfold_m. rewrite Hlist. simpl. rewrite Hwalk.
  by eexists.
Qed.

Lemma get_agent_response_fetch_failure_witness :
  ∃ tr2,
    get_agent_response
      (Scenario.scripted
         (Scenario.Script (inr (Response 200 "")) [] (inr Scenario.completed) []
            (inr Scenario.queued)
            (inr [Message "assistant"
                    [TextBlock "See the chart." []; ImageFileBlock "file-7";
                     ImageFileBlock "file-9"]])
            [("file-7", "PNG")]))
      0 "asst_1" "Chart" []
    = (Normal ("Error: " +:+ str_exn (Exn OtherError "No such File object: file-9"),
               [], []),
       tr2).
Proof.
  apply (get_agent_response_fetch_failure
           (Scenario.scripted
              (Scenario.Script (inr (Response 200 "")) [] (inr Scenario.completed) []
                 (inr Scenario.queued)
                 (inr [Message "assistant"
                         [TextBlock "See the chart." []; ImageFileBlock "file-7";
                          ImageFileBlock "file-9"]])
                 [("file-7", "PNG")]))
           0 "asst_1" "Chart" [] (Some Scenario.completed)
           [EvUi Spinner "Processing your request..."; EvMessageCreate "Chart";
            EvRunCreate "asst_1"]
           [TextBlock "See the chart." []; ImageFileBlock "file-7"; ImageFileBlock "file-9"]
           [] "file-9" (Exn OtherError "No such File object: file-9")).
  - vm_compute. reflexivity.
  - reflexivity.
  - simpl. set_solver.
  - reflexivity.
  - intros tr' f' Hf' Hne. simpl in Hf'.
    apply elem_of_cons in Hf' as [->|Hf']; [by eexists|].
    apply list_elem_of_singleton in Hf' as ->. done.
Defined.

(** ** The name of a download *)

Lemma split_nonempty sep s : ∃ h t, split sep s = h :: t.
Proof.
  destruct s as [|c s]; simpl; [by eexists _, _|].
  destruct (Ascii.eqb c sep); [by eexists _, _|].
  destruct (split sep s); by eexists _, _.
Qed.

Lemma split_single sep s h : split sep s = [h] → s = h.
Proof.
  revert h. induction s as [|c s IH]; intros h; simpl; [by intros [= <-]|].
  destruct (Ascii.eqb c sep).
  - destruct (split_nonempty sep s) as (h' & t & ->). discriminate.
  - destruct (split_nonempty sep s) as (h' & t & Hsplit). rewrite Hsplit in *.
    intros [= <- ->]. by rewrite (IH h').
Qed.

Lemma split_no_sep sep s : sep ∉ chars s → split sep s = [s].
Proof.
  induction s as [|c s IH]; simpl; [done|]. intros Hnot.
  apply not_elem_of_cons in Hnot as [Hne Hnot].
  destruct (Ascii.eqb_spec c sep) as [->|_]; [done|]. by rewrite IH.
Qed.

(** X17: the name of a download, the part of the annotation text after its
    last slash, holds no slash; what stands before it in the text is empty
    or ends with a slash. *)
Theorem last_segment_spec s :
  ("/"%char ∉ chars (last_segment s))
  ∧ ∃ p, s = p +:+ last_segment s ∧ (p = "" ∨ ∃ q, p = q +:+ "/").
Proof.
  unfold last_segment. induction s as [|c s (Hno & p & Hs & Hp)].
  - split; [apply not_elem_of_nil|]. exists "". by split; [|left].
  - simpl split. destruct (Ascii.eqb_spec c "/"%char) as [->|Hc].
    + destruct (split_nonempty "/"%char s) as (h & t & Hsplit). rewrite Hsplit in *.
      change (List.last ("" :: h :: t) "") with (List.last (h :: t) "").
      split; [done|]. exists (String "/"%char p). split.
      * change (String "/"%char s = String "/"%char (p +:+ List.last (h :: t) "")).
        by f_equal.
      * right. destruct Hp as [->|[q ->]];
          [exists "" | exists (String "/"%char q)]; reflexivity.
    + destruct (split "/"%char s) as [|h [|x t]] eqn:Hsplit.
      * destruct (split_nonempty "/"%char s) as (h & t & Hsome). congruence.
      * simpl in *. apply split_single in Hsplit as ->. split.
        { by apply not_elem_of_cons. }
        exists "". by split; [|left].
      * change (List.last (String c h :: x :: t) "") with (List.last (x :: t) "").
        change (List.last (h :: x :: t) "") with (List.last (x :: t) "") in *.
        split; [done|]. exists (String c p). split.
        { change (String c s = String c (p +:+ List.last (x :: t) "")). by f_equal. }
        right. destruct Hp as [->|[q ->]]; [|exists (String c q); reflexivity].
        change (s = List.last (x :: t) "") in Hs. subst s.
        by rewrite (split_no_sep _ _ Hno) in Hsplit.
Qed.

(** ** The advertised tools and the registry *)

Lemma find_none_all {X} (f : X → bool) (l : list X) :
  (∀ x, x ∈ l → f x = false) → List.find f l = None.
Proof.
  induction l as [|x l IH]; [done|]. intros H. simpl.
  rewrite (H x); [|apply list_elem_of_here]. apply IH. intros y Hy. apply H.
  by apply list_elem_of_further.
Qed.

(** X18: every function tool that [tools] advertises is in the registry
    under its advertised name, and a request for it whose arguments read as
    an object with every required parameter and none but the declared ones
    is dispatched: the keyword arguments pass the call of [safe_tool_call]
    and bind to the parameter of the tool. *)
Theorem advertised_tool_dispatch env t name required properties call args :
  t ∈ tools →
  function_tool t = Some (name, required, properties) →
  call_name call = name →
  json_loads env (call_arguments call) = inr (PyDict args) →
  (∀ k, k ∈ required → k ∈ args.*1) →
  (∀ k, k ∈ args.*1 → k ∈ properties) →
  ∃ f url,
    available_functions env !! name = Some f
    ∧ request_of env call = Some (f, args)
    ∧ f = scrape_content_fn env
    ∧ bind_url args = inr url.
Proof.
  intros Hin Htool Hname Hargs Hreq Hprops.
  unfold tools in Hin.
  apply elem_of_cons in Hin as [->|Hin];
    [|apply elem_of_cons in Hin as [->|Hin];
      [discriminate|apply list_elem_of_singleton in Hin as ->; discriminate]].
  injection Htool as <- <- <-.
  assert (∀ p, p ∈ args → fst p = "url") as Hkeys.
  { intros p Hp. specialize (Hprops (fst p)).
    apply list_elem_of_singleton, Hprops, list_elem_of_fmap. eauto. }
  assert (∃ v rest, args = ("url", v) :: rest) as (v & rest & Hhead).
  { destruct args as [|[k v] rest].
    - specialize (Hreq "url" ltac:(apply list_elem_of_here)). by apply elem_of_nil in Hreq.
    - specialize (Hkeys (k, v) ltac:(apply list_elem_of_here)). simpl in Hkeys. subst k.
      eauto. }
  exists (scrape_content_fn env), v.
  assert (available_functions env !! "scrape_content" = Some (scrape_content_fn env))
    as Hf by apply lookup_singleton_eq.
  split; [done|]. split; [|split; [done|]].
  - unfold request_of. rewrite Hname, Hf, Hargs. unfold unpack_kwargs.
    rewrite find_none_all; [done|]. intros p Hp. rewrite (Hkeys p Hp).
    by apply bool_decide_eq_false_2; set_solver.
  - unfold bind_url. rewrite find_none_all.
    + by rewrite Hhead.
    + intros p Hp. by rewrite (Hkeys p Hp).
Qed.

Lemma advertised_tool_dispatch_witness :
  ∃ f url,
    available_functions (Scenario.scripted Scenario.base) !! "scrape_content" = Some f
    ∧ request_of (Scenario.scripted Scenario.base) Scenario.scrape_call
      = Some (f, [("url", Scenario.example_url)])
    ∧ f = scrape_content_fn (Scenario.scripted Scenario.base)
    ∧ bind_url [("url", Scenario.example_url)] = inr url.
Proof.
  apply (advertised_tool_dispatch (Scenario.scripted Scenario.base)
           (PyDict
              [("type", PyStr "function");
               ("function",
                PyDict
                  [("name", PyStr "scrape_content");
                   ("description",
                    PyStr "Use this function to scrape text content from a given URL.");
                   ("parameters",
                    PyDict
                      [("type", PyStr "object");
                       ("properties",
                        PyDict
                          [("url",
                            PyDict [("type", PyStr "string");
                                    ("description",
                                     PyStr "The URL to scrape content from.")])]);
                       ("required", PyList [PyStr "url"])])])])
           "scrape_content" ["url"] ["url"] Scenario.scrape_call
           [("url", Scenario.example_url)]).
  - apply list_elem_of_here.
  - reflexivity.
  - reflexivity.
  - reflexivity.
  - intros k Hk. exact Hk.
  - intros k Hk. exact Hk.
Defined.

(** X19: when the one request of a batch asks for [scrape_content] and the
    scrape fails (it returns None), the batch is still submitted: the run is
    told "No content returned from scrape_content" under the identifier of
    the call, right after the scrape. *)
Theorem handle_tool_outputs_scrape_failed env r call url tr tr1 :
  run_tool_calls r = Some [call] →
  call_name call = "scrape_content" →
  json_loads env (call_arguments call) = inr (PyDict [("url", url)]) →
  scrape_content env url
    (tr ++ [EvUi Spinner "Executing a detailed search...";
            EvCall "scrape_content" [("url", url)]])
  = (Normal PyNone, tr1) →
  ∃ rest,
    snd (handle_tool_outputs env r tr)
    = tr1 ++ EvSubmit (run_id r)
               [ToolOutput (call_id call)
                  (json_dumps env (PyStr "No content returned from scrape_content"))]
             :: rest.
Proof.
  intros Hcalls Hname Hargs Hscrape.
  unfold handle_tool_outputs, handle_tool_outputs_except. rewrite Hcalls.
  unfold try_except, bind at 1 2. unfold ret at 1.
  simpl dispatch_calls. rewrite Hname.
  assert (available_functions env !! "scrape_content" = Some (scrape_content_fn env))
    as -> by apply lookup_singleton_eq.
  rewrite Hargs. unfold safe_tool_call. simpl. unfold_m.
  rewrite <- app_assoc. simpl. rewrite Hscrape. simpl.
  destruct (submit_tool_outputs env tr1 (run_id r) _); simpl; eexists;
    rewrite <- ?app_assoc; reflexivity.
Qed.

Lemma handle_tool_outputs_scrape_failed_witness :
  ∃ rest,
    snd (handle_tool_outputs (Scenario.scripted Scenario.not_found)
           (Run "run_1" "requires_action" (Some [Scenario.scrape_call])) [])
    = [EvUi Spinner "Executing a detailed search...";
       EvCall "scrape_content" [("url", Scenario.example_url)];
       EvUi Spinner "Scraping content from http://example.org...";
       proxy_request (Scenario.scripted Scenario.not_found) Scenario.example_url;
       EvUi Error "Failed to fetch the page: http://example.org, status code: 404"]
      ++ EvSubmit "run_1"
           [ToolOutput "call_1"
              (json_dumps (Scenario.scripted Scenario.not_found)
                 (PyStr "No content returned from scrape_content"))]
         :: rest.
Proof.
  apply (handle_tool_outputs_scrape_failed (Scenario.scripted Scenario.not_found)
           (Run "run_1" "requires_action" (Some [Scenario.scrape_call]))
           Scenario.scrape_call Scenario.example_url []).
  - reflexivity.
  - reflexivity.
  - reflexivity.
  - vm_compute. reflexivity.
Defined.

(** * The page *)

Lemma abind_normal {X Y} (m : AppM X) (k : X → AppM Y) p x p' :
  m p = (Normal x, p') → abind m k p = k x p'.
Proof. intros H. unfold abind. by rewrite H. Qed.

Lemma abind_normal_inv {X Y} (m : AppM X) (k : X → AppM Y) p y p' :
  abind m k p = (Normal y, p') → ∃ x p1, m p = (Normal x, p1) ∧ k x p1 = (Normal y, p').
Proof.
  unfold abind. destruct (m p) as [[x|e|] p1]; intros H; try discriminate. eauto.
Qed.

Section stays.
Context (S : relation session) `{!PreOrder S} (P : app_event → Prop).

Lemma stays_here p :
  S (page_session p) (page_session p)
  ∧ ∃ evs, page_log p = page_log p ++ evs ∧ Forall P evs.
Proof. split; [done|]. exists []. by rewrite app_nil_r. Qed.

Lemma stays_ret {X} (x : X) : stays S P (aret x).
Proof. intros p. apply stays_here. Qed.

Lemma stays_alift {X} (r : exn + X) : stays S P (alift r).
Proof. intros p. unfold alift. destruct r; apply stays_here. Qed.

Lemma stays_get_session : stays S P get_session.
Proof. intros p. apply stays_here. Qed.

Lemma stays_display w : P (Display w) → stays S P (display w).
Proof. intros Hw p. split; [done|]. exists [Display w]. simpl. auto. Qed.

Lemma stays_service {X} ev (answer : list app_event → exn + X) :
  P ev → stays S P (app_service ev answer).
Proof.
  intros Hev p. unfold app_service. destruct (answer (page_log p)); simpl;
    (split; [done|]); exists [ev]; auto.
Qed.

Lemma stays_run_core {X} (m : M X) : (∀ ev, P (Core ev)) → stays S P (run_core m).
Proof.
  intros HP p. unfold run_core. destruct (m (core_trace (page_log p))) as [o tr'].
  simpl. split; [done|]. eexists. split; [done|].
  apply Forall_fmap, Forall_forall. intros ev _. apply HP.
Qed.

Lemma stays_set_session s' :
  (∀ s, S s s') → stays S P (set_session s').
Proof. intros Hs p. simpl. split; [done|]. exists []. by rewrite app_nil_r. Qed.

Lemma stays_bind {X Y} (m : AppM X) (k : X → AppM Y) :
  stays S P m → (∀ x, stays S P (k x)) → stays S P (abind m k).
Proof.
  intros Hm Hk p. destruct (Hm p) as (Hs & evs & Hlog & Hevs). unfold abind.
  destruct (m p) as [[x|e|] p1]; simpl in *; eauto.
  destruct (Hk x p1) as (Hs' & evs' & Hlog' & Hevs'). split; [by etrans|].
  exists (evs ++ evs'). rewrite Hlog', Hlog, app_assoc. split; [done|].
  by apply Forall_app.
Qed.

Lemma stays_set_assistant_id id :
  (∀ s, S s (Session (Some id) (ss_messages s))) → stays S P (set_assistant_id id).
Proof. intros Hs p. simpl. split; [apply Hs|]. exists []. by rewrite app_nil_r. Qed.

Hypothesis S_init : ∀ s, ss_messages s = None → S s (Session (ss_assistant_id s) (Some [])).
Hypothesis S_append :
  ∀ s l t, ss_messages s = Some l → S s (Session (ss_assistant_id s) (Some (l ++ [t]))).
Hypothesis P_display : ∀ w, P (Display w).
Hypothesis P_core : ∀ ev, P (Core ev).

Lemma stays_init_messages : stays S P init_messages.
Proof.
  intros p. unfold init_messages, abind, get_session.
  destruct (ss_messages (page_session p)) eqn:Hm; simpl.
  - apply stays_here.
  - split; [by apply S_init|]. exists []. by rewrite app_nil_r.
Qed.

Lemma stays_get_messages : stays S P get_messages.
Proof.
  intros p. unfold get_messages, abind, get_session.
  destruct (ss_messages (page_session p)); apply stays_here.
Qed.

Lemma stays_append_message t : stays S P (append_message t).
Proof.
  intros p. unfold append_message, get_messages, abind, get_session.
  destruct (ss_messages (page_session p)) eqn:Hm; simpl.
  - split; [by apply S_append|]. exists []. by rewrite app_nil_r.
  - apply stays_here.
Qed.

Lemma stays_show_downloads aenv downloads : stays S P (show_downloads aenv downloads).
Proof.
  induction downloads as [|[file_name file_content] rest IH]; simpl.
  - apply stays_ret.
  - apply stays_bind; [by apply stays_display|]. intros _.
    apply stays_bind; [|done].
    destruct (endswith file_name ".html"); [|apply stays_ret].
    apply stays_bind; [apply stays_alift|]. intros html. by apply stays_display.
Qed.

Lemma stays_show_images images : stays S P (show_images images).
Proof.
  induction images as [|[image_name image_data] rest IH]; simpl.
  - apply stays_ret.
  - apply stays_bind; [by apply stays_display|]. intros _.
    apply stays_bind; [by apply stays_display|]. done.
Qed.

Lemma stays_show_history aenv turns : stays S P (show_history aenv turns).
Proof.
  induction turns as [|t rest IH]; simpl.
  - apply stays_ret.
  - apply stays_bind; [by apply stays_display|]. intros _.
    apply stays_bind; [by apply stays_display|]. intros _.
    apply stays_bind.
    { destruct (turn_downloads t); [apply stays_show_downloads | apply stays_ret]. }
    intros _. apply stays_bind; [|done].
    destruct (turn_images t); [apply stays_show_images | apply stays_ret].
Qed.

Lemma stays_chat aenv fuel inp : stays S P (chat aenv fuel inp).
Proof.
  unfold chat. apply stays_bind; [by apply stays_display|]. intros _.
  destruct (in_prompt inp) as [prompt|]; [|apply stays_ret].
  destruct (truthy prompt); [|apply stays_ret].
  apply stays_bind; [apply stays_append_message|]. intros _.
  apply stays_bind; [by apply stays_display|]. intros _.
  apply stays_bind; [by apply stays_display|]. intros _.
  apply stays_bind; [apply stays_get_session|]. intros s.
  destruct (ss_assistant_id s) as [assistant_id|]; [|by apply stays_display].
  apply stays_bind; [by apply stays_display|]. intros _.
  apply stays_bind; [by apply stays_display|]. intros _.
  apply stays_bind; [by apply stays_run_core|]. intros [[response downloads] images].
  apply stays_bind; [by apply stays_display|]. intros _.
  apply stays_bind; [apply stays_show_downloads|]. intros _.
  apply stays_bind; [apply stays_show_images|]. intros _.
  apply stays_append_message.
Qed.

Lemma stays_after_sidebar aenv fuel inp : stays S P (after_sidebar aenv fuel inp).
Proof.
  unfold after_sidebar. apply stays_bind; [apply stays_init_messages|]. intros _.
  apply stays_bind; [apply stays_get_messages|]. intros turns.
  apply stays_bind; [apply stays_show_history|]. intros _. apply stays_chat.
Qed.

End stays.

Global Instance same_assistant_preorder : PreOrder same_assistant.
Proof.
  split; [by intros s; unfold same_assistant|].
  intros s1 s2 s3. unfold same_assistant. congruence.
Qed.

Global Instance more_turns_preorder : PreOrder more_turns.
Proof.
  split; [by intros s; unfold more_turns|].
  intros s1 s2 s3. unfold more_turns. intros H1 H2. by trans (default [] (ss_messages s2)).
Qed.

Lemma more_turns_append s l t :
  ss_messages s = Some l → more_turns s (Session (ss_assistant_id s) (Some (l ++ [t]))).
Proof. intros H. unfold more_turns. rewrite H. simpl. by apply prefix_app_r. Qed.

Lemma more_turns_init s :
  ss_messages s = None → more_turns s (Session (ss_assistant_id s) (Some [])).
Proof. intros H. unfold more_turns. by rewrite H. Qed.

Lemma stays_sidebar_turns aenv inp : stays more_turns any_app_event (sidebar aenv inp).
Proof.
  unfold sidebar. apply stays_bind; [apply _ | apply stays_display; [apply _ | exact I] |]. intros _.
  apply stays_bind; [apply _ | apply stays_display; [apply _ | exact I] |]. intros _.
  destruct (String.eqb (in_choice inp) "Create New Assistant").
  - apply stays_bind; [apply _ | apply stays_display; [apply _ | exact I] |]. intros _.
    apply stays_bind; [apply _ | |].
    { generalize (@nil string). induction (in_files inp) as [|f files IH]; intros ids;
        simpl; [apply stays_ret, _|].
      apply stays_bind; [apply _ | apply stays_service; [apply _ | exact I] |]. intros id. apply IH. }
    intros [|id ids]; [apply stays_display; [apply _ | exact I]|].
    apply stays_bind; [apply _ | apply stays_display; [apply _ | exact I] |]. intros _.
    destruct (in_create inp); [|apply stays_ret, _].
    apply stays_bind; [apply _ | apply stays_service; [apply _ | exact I] |]. intros aid.
    apply stays_bind; [apply _ | | intros _; apply stays_display; [apply _ | exact I]].
    apply stays_set_assistant_id; intros s; by unfold more_turns.
  - apply stays_bind; [apply _ | apply stays_display; [apply _ | exact I] |]. intros _.
    destruct (truthy (in_assistant_id inp)); [|apply stays_ret, _].
    apply stays_bind; [apply _ | | intros _; apply stays_display; [apply _ | exact I]].
    apply stays_set_assistant_id; intros s; by unfold more_turns.
Qed.

(** X20: a run of [main], however it ends, keeps the turns of the session
    as they were and in their order, with at most new turns after them, and
    keeps what the page has shown and called so far. *)
Theorem main_keeps_turns aenv fuel inp p :
  turns_of p `prefix_of` turns_of (snd (main aenv fuel inp p))
  ∧ page_log p `prefix_of` page_log (snd (main aenv fuel inp p)).
Proof.
  assert (stays more_turns any_app_event (main aenv fuel inp)) as Hmain.
  { change (main aenv fuel inp)
      with (display (Title "Legal assistant") ~;; sidebar aenv inp ~;;
            after_sidebar aenv fuel inp).
    apply stays_bind; [apply _ | apply stays_display; [apply _ | exact I] |]. intros _.
    apply stays_bind; [apply _ | apply stays_sidebar_turns |]. intros _.
    apply stays_after_sidebar; [apply _ | apply more_turns_init | apply more_turns_append
                               | intros; exact I | intros; exact I]. }
  destruct (Hmain p) as (Hturns & evs & Hlog & _). split; [exact Hturns|].
  rewrite Hlog. by apply prefix_app_r.
Qed.

(** ** The sidebar *)

Lemma main_typed aenv fuel inp p :
  in_choice inp ≠ "Create New Assistant" →
  in_assistant_id inp ≠ "" →
  main aenv fuel inp p
  = after_sidebar aenv fuel inp
      (Page (Session (Some (in_assistant_id inp)) (ss_messages (page_session p)))
         (page_log p ++ use_existing_events (in_assistant_id inp))).
Proof.
  intros Hchoice Htyped. unfold main, sidebar, after_sidebar, use_existing_events.
  apply String.eqb_neq in Hchoice. apply truthy_nonempty in Htyped.
  rewrite Hchoice, Htyped. unfold abind at 1 2 3 4 5 6 7. simpl.
  by rewrite <- !app_assoc.
Qed.

Lemma main_nothing_typed aenv fuel inp p :
  in_choice inp ≠ "Create New Assistant" →
  in_assistant_id inp = "" →
  main aenv fuel inp p
  = after_sidebar aenv fuel inp (Page (page_session p) (page_log p ++ nothing_typed_events)).
Proof.
  intros Hchoice Htyped. unfold main, sidebar, after_sidebar, nothing_typed_events.
  apply String.eqb_neq in Hchoice. rewrite Hchoice, Htyped.
  unfold abind at 1 2 3 4 5. simpl. by rewrite <- !app_assoc.
Qed.

Lemma no_creation_after_sidebar aenv fuel inp :
  stays same_assistant no_creation (after_sidebar aenv fuel inp).
Proof. apply stays_after_sidebar; try done. apply _. Qed.

(** X21: in the mode of an existing assistant, a typed identifier is bound
    to the session as it is: nothing is called to check it, no file is
    uploaded and no assistant is created, and the session holds that
    identifier at the end of the run, however the run ends. *)
Theorem main_use_existing aenv fuel inp p :
  in_choice inp ≠ "Create New Assistant" →
  in_assistant_id inp ≠ "" →
  ss_assistant_id (page_session (snd (main aenv fuel inp p))) = Some (in_assistant_id inp)
  ∧ ∃ evs,
      page_log (snd (main aenv fuel inp p))
      = page_log p ++ use_existing_events (in_assistant_id inp) ++ evs
      ∧ Forall no_creation evs.
Proof.
  intros Hchoice Htyped. rewrite (main_typed _ _ _ _ Hchoice Htyped).
  destruct (no_creation_after_sidebar aenv fuel inp
              (Page (Session (Some (in_assistant_id inp)) (ss_messages (page_session p)))
                 (page_log p ++ use_existing_events (in_assistant_id inp))))
    as (Hid & evs & Hlog & Hevs).
  split; [exact Hid|]. exists evs. simpl in Hlog. by rewrite Hlog, <- app_assoc.
Qed.

Lemma main_use_existing_witness :
  ss_assistant_id
    (page_session
       (snd (main (scripted_app Scenario.drawing [] (inr "asst_9")) 3
               (Inputs "Use Existing Assistant" [] false "asst_1" (Some "Draw"))
               (Page (Session None None) []))))
  = Some "asst_1"
  ∧ ∃ evs,
      page_log
        (snd (main (scripted_app Scenario.drawing [] (inr "asst_9")) 3
                (Inputs "Use Existing Assistant" [] false "asst_1" (Some "Draw"))
                (Page (Session None None) [])))
      = [] ++ use_existing_events "asst_1" ++ evs
      ∧ Forall no_creation evs.
Proof.
  apply (main_use_existing (scripted_app Scenario.drawing [] (inr "asst_9")) 3
           (Inputs "Use Existing Assistant" [] false "asst_1" (Some "Draw"))
           (Page (Session None None) [])); discriminate.
Defined.

Lemma upload_files_served aenv files id_of ids p :
  (∀ log f, f ∈ files → files_create aenv log f = inr (id_of f)) →
  upload_files aenv files ids p
  = (Normal (ids ++ (id_of <$> files)),
     Page (page_session p)
       (page_log p ++ ((λ f, EvFileCreate f "assistants") <$> files))).
Proof.
  revert ids p. induction files as [|f files IH]; intros ids p Hserved; simpl.
  - unfold aret. rewrite !app_nil_r. by destruct p.
  - unfold abind, app_service. rewrite (Hserved _ f); [|apply list_elem_of_here].
    rewrite IH; [|intros log f' Hf'; apply Hserved; by apply list_elem_of_further].
    simpl. by rewrite <- !app_assoc.
Qed.

Lemma upload_files_refused aenv pre f post id_of e ids p :
  (∀ log f', f' ∈ pre → files_create aenv log f' = inr (id_of f')) →
  (∀ log, files_create aenv log f = inl e) →
  upload_files aenv (pre ++ f :: post) ids p
  = (Raised e,
     Page (page_session p)
       (page_log p ++ ((λ f, EvFileCreate f "assistants") <$> pre ++ [f]))).
Proof.
  revert ids p. induction pre as [|f0 pre IH]; intros ids p Hserved Hfail; simpl.
  - unfold abind, app_service. by rewrite Hfail.
  - unfold abind, app_service. rewrite (Hserved _ f0); [|apply list_elem_of_here].
    rewrite IH; [|intros log f' Hf'; apply Hserved; by apply list_elem_of_further|done].
    simpl. by rewrite <- !app_assoc.
Qed.

(** X22: in the mode of a new assistant, when the button is pressed and the
    service stores the files and creates the assistant, a run uploads every
    selected file, in order, and then creates one assistant with the fixed
    name, instructions, model and tools over exactly the identifiers of
    those uploads; the session holds the new assistant at the end of the
    run, however the run ends. *)
Theorem main_create aenv fuel inp p id_of assistant :
  in_choice inp = "Create New Assistant" →
  in_files inp ≠ [] →
  in_create inp = true →
  (∀ log f, f ∈ in_files inp → files_create aenv log f = inr (id_of f)) →
  (∀ log, assistants_create aenv log (id_of <$> in_files inp) = inr assistant) →
  ss_assistant_id (page_session (snd (main aenv fuel inp p))) = Some assistant
  ∧ ∃ evs,
      page_log (snd (main aenv fuel inp p))
      = page_log p ++ upload_events (in_files inp)
        ++ [Display (SidebarButton "Create New Assistant");
            EvAssistantCreate "LegalAI assistant" instructions "gpt-4o-mini" tools
              (tool_resources (id_of <$> in_files inp));
            Display (SidebarSuccess ("New assistant created with ID: " +:+ assistant))]
        ++ evs
      ∧ Forall no_creation evs.
Proof.
  intros Hchoice Hfiles Hclick Hserved Hcreated.
  assert (main aenv fuel inp p
          = after_sidebar aenv fuel inp
              (Page (Session (Some assistant) (ss_messages (page_session p)))
                 (page_log p ++ upload_events (in_files inp)
                  ++ [Display (SidebarButton "Create New Assistant");
                      EvAssistantCreate "LegalAI assistant" instructions "gpt-4o-mini"
                        tools (tool_resources (id_of <$> in_files inp));
                      Display (SidebarSuccess
                                 ("New assistant created with ID: " +:+ assistant))])))
    as ->.
  { change (main aenv fuel inp)
      with (display (Title "Legal assistant") ~;; sidebar aenv inp ~;;
            after_sidebar aenv fuel inp).
    unfold sidebar, upload_events. rewrite Hchoice, Hclick.
    unfold abind, display. simpl.
    rewrite (upload_files_served aenv _ id_of [] _ Hserved). simpl.
    destruct (id_of <$> in_files inp) as [|id ids] eqn:Hids.
    { destruct (in_files inp); [done | discriminate]. }
    unfold create_assistant, app_service. simpl. rewrite Hcreated. simpl.
    by rewrite <- !app_assoc. }
  destruct (no_creation_after_sidebar aenv fuel inp
              (Page (Session (Some assistant) (ss_messages (page_session p)))
                 (page_log p ++ upload_events (in_files inp)
                  ++ [Display (SidebarButton "Create New Assistant");
                      EvAssistantCreate "LegalAI assistant" instructions "gpt-4o-mini"
                        tools (tool_resources (id_of <$> in_files inp));
                      Display (SidebarSuccess
                                 ("New assistant created with ID: " +:+ assistant))])))
    as (Hid & evs & Hlog & Hevs).
  split; [exact Hid|]. exists evs. rewrite Hlog. cbn [page_log].
  by rewrite <- !app_assoc.
Qed.

Lemma main_create_witness :
  ss_assistant_id
    (page_session
       (snd (main (scripted_app Scenario.base [("a.pdf", "file-1"); ("b.pdf", "file-2")]
                     (inr "asst_9")) 3
               (Inputs "Create New Assistant" ["a.pdf"; "b.pdf"] true "" None)
               (Page (Session None None) []))))
  = Some "asst_9"
  ∧ ∃ evs,
      page_log
        (snd (main (scripted_app Scenario.base [("a.pdf", "file-1"); ("b.pdf", "file-2")]
                      (inr "asst_9")) 3
                (Inputs "Create New Assistant" ["a.pdf"; "b.pdf"] true "" None)
                (Page (Session None None) [])))
      = [] ++ upload_events ["a.pdf"; "b.pdf"]
        ++ [Display (SidebarButton "Create New Assistant");
            EvAssistantCreate "LegalAI assistant" instructions "gpt-4o-mini" tools
              (tool_resources
                 ((λ f, if String.eqb f "a.pdf" then "file-1" else "file-2")
                    <$> ["a.pdf"; "b.pdf"]));
            Display (SidebarSuccess ("New assistant created with ID: " +:+ "asst_9"))]
        ++ evs
      ∧ Forall no_creation evs.
Proof.
  apply (main_create
           (scripted_app Scenario.base [("a.pdf", "file-1"); ("b.pdf", "file-2")]
              (inr "asst_9")) 3
           (Inputs "Create New Assistant" ["a.pdf"; "b.pdf"] true "" None)
           (Page (Session None None) [])
           (λ f, if String.eqb f "a.pdf" then "file-1" else "file-2") "asst_9").
  - reflexivity.
  - discriminate.
  - reflexivity.
  - intros log f Hf. simpl in Hf.
    apply elem_of_cons in Hf as [->|Hf]; [reflexivity|].
    apply list_elem_of_singleton in Hf as ->. reflexivity.
  - reflexivity.
Defined.

(** X23: in the mode of a new assistant, a run in which the button is not
    pressed still uploads every selected file, in order, but creates no
    assistant, and the session keeps the assistant it had, however the run
    ends. *)
Theorem main_create_not_clicked aenv fuel inp p id_of :
  in_choice inp = "Create New Assistant" →
  in_create inp = false →
  (∀ log f, f ∈ in_files inp → files_create aenv log f = inr (id_of f)) →
  ss_assistant_id (page_session (snd (main aenv fuel inp p)))
  = ss_assistant_id (page_session p)
  ∧ ∃ evs,
      page_log (snd (main aenv fuel inp p))
      = page_log p ++ upload_events (in_files inp) ++ evs
      ∧ Forall no_creation evs.
Proof.
  intros Hchoice Hclick Hserved.
  assert (∃ w, main aenv fuel inp p
               = after_sidebar aenv fuel inp
                   (Page (page_session p)
                      (page_log p ++ upload_events (in_files inp) ++ [Display w])))
    as [w ->].
  { change (main aenv fuel inp)
      with (display (Title "Legal assistant") ~;; sidebar aenv inp ~;;
            after_sidebar aenv fuel inp).
    unfold sidebar, upload_events. rewrite Hchoice, Hclick.
    unfold abind, display. simpl.
    rewrite (upload_files_served aenv _ id_of [] _ Hserved). simpl.
    destruct (id_of <$> in_files inp); simpl; eexists; by rewrite <- !app_assoc. }
  destruct (no_creation_after_sidebar aenv fuel inp
              (Page (page_session p)
                 (page_log p ++ upload_events (in_files inp) ++ [Display w])))
    as (Hid & evs & Hlog & Hevs).
  split; [exact Hid|]. exists (Display w :: evs). rewrite Hlog. cbn [page_log].
  rewrite <- !app_assoc. split; [done|]. by constructor.
Qed.

Lemma main_create_not_clicked_witness :
  ss_assistant_id
    (page_session
       (snd (main (scripted_app Scenario.base [("a.pdf", "file-1")] (inr "asst_9")) 3
               (Inputs "Create New Assistant" ["a.pdf"] false "" None)
               (Page (Session (Some "asst_1") None) []))))
  = ss_assistant_id (page_session (Page (Session (Some "asst_1") None) []))
  ∧ ∃ evs,
      page_log
        (snd (main (scripted_app Scenario.base [("a.pdf", "file-1")] (inr "asst_9")) 3
                (Inputs "Create New Assistant" ["a.pdf"] false "" None)
                (Page (Session (Some "asst_1") None) [])))
      = [] ++ upload_events ["a.pdf"] ++ evs
      ∧ Forall no_creation evs.
Proof.
  apply (main_create_not_clicked
           (scripted_app Scenario.base [("a.pdf", "file-1")] (inr "asst_9")) 3
           (Inputs "Create New Assistant" ["a.pdf"] false "" None)
           (Page (Session (Some "asst_1") None) []) (λ _, "file-1")).
  - reflexivity.
  - reflexivity.
  - intros log f Hf. simpl in Hf. apply list_elem_of_singleton in Hf as ->. reflexivity.
Defined.

(** X24: an upload that the service refuses ends the run of [main] with the
    exception of the service: [main] does not catch it.  The files after the
    refused one are not uploaded, no assistant is created, the session is
    as it was, and neither the history nor the chat input is shown. *)
Theorem main_upload_refused aenv fuel inp p pre f post id_of e :
  in_choice inp = "Create New Assistant" →
  in_files inp = pre ++ f :: post →
  (∀ log f', f' ∈ pre → files_create aenv log f' = inr (id_of f')) →
  (∀ log, files_create aenv log f = inl e) →
  main aenv fuel inp p
  = (Raised e, Page (page_session p) (page_log p ++ upload_events (pre ++ [f]))).
Proof.
  intros Hchoice Hfiles Hserved Hrefused.
  unfold main, sidebar, upload_events. rewrite Hchoice, Hfiles.
  unfold abind, display. simpl.
  rewrite (upload_files_refused aenv pre f post id_of e [] _ Hserved Hrefused). simpl.
  by rewrite <- !app_assoc.
Qed.

Lemma main_upload_refused_witness :
  main (scripted_app Scenario.base [("a.pdf", "file-1")] (inr "asst_9")) 3
    (Inputs "Create New Assistant" ["a.pdf"; "b.exe"; "c.pdf"] true "" (Some "Hello"))
    (Page (Session None None) [])
  = (Raised (Exn OtherError "upload refused: b.exe"),
     Page (page_session (Page (Session None None) []))
       ([] ++ upload_events (["a.pdf"] ++ ["b.exe"]))).
Proof.
  apply (main_upload_refused
           (scripted_app Scenario.base [("a.pdf", "file-1")] (inr "asst_9")) 3
           (Inputs "Create New Assistant" ["a.pdf"; "b.exe"; "c.pdf"] true "" (Some "Hello"))
           (Page (Session None None) []) ["a.pdf"] "b.exe" ["c.pdf"] (λ _, "file-1")
           (Exn OtherError "upload refused: b.exe")).
  - reflexivity.
  - reflexivity.
  - intros log f Hf. apply list_elem_of_singleton in Hf as ->. reflexivity.
  - reflexivity.
Defined.

(** ** The chat *)

Lemma core_trace_app l1 l2 : core_trace (l1 ++ l2) = core_trace l1 ++ core_trace l2.
Proof. apply omap_app. Qed.

Lemma core_trace_displays evs : Forall only_display evs → core_trace evs = [].
Proof.
  induction 1 as [|ev evs Hev _ IH]; [done|].
  destruct ev; try discriminate. exact IH.
Qed.

Lemma core_trace_core evs : core_trace (Core <$> evs) = evs.
Proof.
  induction evs as [|ev evs IH]; [done|].
  change (ev :: core_trace (Core <$> evs) = ev :: evs). by f_equal.
Qed.

(** what a part of the page that only shows things leaves as it was *)
Lemma displays_inv {X} (m : AppM X) p o p' :
  stays eq only_display m →
  m p = (o, p') →
  page_session p' = page_session p
  ∧ core_trace (page_log p') = core_trace (page_log p)
  ∧ ∃ evs, page_log p' = page_log p ++ evs ∧ Forall only_display evs.
Proof.
  intros Hm Hrun. destruct (Hm p) as (Hs & evs & Hlog & Hevs). rewrite Hrun in *.
  simpl in *. split; [done|]. split; [|eauto].
  by rewrite Hlog, core_trace_app, (core_trace_displays _ Hevs), app_nil_r.
Qed.

Lemma show_history_displays aenv turns : stays eq only_display (show_history aenv turns).
Proof. by apply stays_show_history; [apply _|]. Qed.

Lemma show_downloads_displays aenv downloads :
  stays eq only_display (show_downloads aenv downloads).
Proof. by apply stays_show_downloads; [apply _|]. Qed.

Lemma show_images_displays images : stays eq only_display (show_images images).
Proof. by apply stays_show_images; [apply _|]. Qed.

Lemma get_agent_response_appends env fuel assistant_id user_message :
  appends any_event (get_agent_response env fuel assistant_id user_message).
Proof.
  pose proof (poll_loop_appends env fuel) as Hloop.
  pose proof (walk_content_appends env any_event) as Hwalk.
  unfold get_agent_response, get_agent_response_try, get_agent_response_except,
    run_to_completion, read_last_message, st_spinner, st_error.
  step_trace; try done. apply Hwalk. done.
Qed.

Lemma run_core_response aenv fuel assistant_id prompt p result tr' :
  get_agent_response (core_env aenv) fuel assistant_id prompt (core_trace (page_log p))
  = (Normal result, tr') →
  ∃ p1, run_core (get_agent_response (core_env aenv) fuel assistant_id prompt) p
        = (Normal result, p1)
        ∧ page_session p1 = page_session p
        ∧ core_trace (page_log p1) = tr'.
Proof.
  intros Hrun. unfold run_core. rewrite Hrun. eexists. split; [done|]. split; [done|].
  cbn [page_log]. rewrite core_trace_app, core_trace_core.
  destruct (get_agent_response_appends (core_env aenv) fuel assistant_id prompt
              (core_trace (page_log p))) as (evs & Htr & _).
  rewrite Hrun in Htr. simpl in Htr. subst tr'. by rewrite drop_app_length.
Qed.

(** X25: a prompt sent while the session has no assistant is recorded as a
    user turn and answered by a warning; nothing is called, neither the
    assistant service nor the proxy nor an upload: the run only shows. *)
Theorem main_prompt_without_assistant aenv fuel inp p prompt :
  in_choice inp ≠ "Create New Assistant" →
  in_assistant_id inp = "" →
  ss_assistant_id (page_session p) = None →
  in_prompt inp = Some prompt →
  prompt ≠ "" →
  ∃ o p' evs,
    main aenv fuel inp p = (o, p')
    ∧ page_log p' = page_log p ++ evs
    ∧ Forall only_display evs
    ∧ (o = Normal tt →
       turns_of p' = turns_of p ++ [Turn "user" prompt None None]
       ∧ ss_assistant_id (page_session p') = None
       ∧ ∃ evs0,
           evs = evs0
                 ++ [Display
                       (Warning
                          "Please create a new assistant or enter an existing assistant ID before chatting.")]).
Proof.
  intros Hchoice Htyped Hnone Hprompt Hne.
  rewrite (main_nothing_typed _ _ _ _ Hchoice Htyped).
  destruct p as [[sid msgs] log]. simpl in Hnone. subst sid.
  unfold after_sidebar, turns_of. simpl.
  set (turns := default [] msgs).
  assert (∃ p2, init_messages (Page (Session None msgs) (log ++ nothing_typed_events))
                = (Normal tt, p2)
                ∧ p2 = Page (Session None (Some turns)) (log ++ nothing_typed_events))
    as (p2 & Hinit & ->).
  { unfold init_messages, abind, get_session. subst turns.
    destruct msgs; simpl; eauto. }
  rewrite (abind_normal _ _ _ _ _ Hinit).
  rewrite (abind_normal get_messages _
             (Page (Session None (Some turns)) (log ++ nothing_typed_events)) turns
             (Page (Session None (Some turns)) (log ++ nothing_typed_events)) eq_refl).
  destruct (show_history aenv turns
              (Page (Session None (Some turns)) (log ++ nothing_typed_events)))
    as [oh [s3 log3]] eqn:Hhist.
  destruct (displays_inv _ _ _ _ (show_history_displays aenv turns) Hhist)
    as (Hs3 & _ & evsh & Hlog3 & Hevsh).
  simpl in Hs3, Hlog3. subst s3 log3.
  assert (Forall only_display nothing_typed_events) as Hfour by (by repeat constructor).
  unfold abind at 1. rewrite Hhist. destruct oh as [[]|e|].
  - unfold chat. rewrite Hprompt. apply truthy_nonempty in Hne. rewrite Hne.
    unfold abind, display, append_message, get_messages, get_session, set_session.
    simpl. eexists _, _, _. split; [done|]. simpl. rewrite <- !app_assoc.
    split; [done|]. split.
    { apply Forall_app. split; [done|]. apply Forall_app. split; [done|].
      by repeat constructor. }
    intros _. split; [done|]. split; [done|].
    eexists (nothing_typed_events ++ evsh ++ [_; _; _]). by rewrite <- !app_assoc.
  - eexists _, _, (nothing_typed_events ++ evsh). cbn [page_log]. rewrite <- !app_assoc.
    split; [done|]. split; [done|]. split; [|done]. by apply Forall_app.
  - eexists _, _, (nothing_typed_events ++ evsh). cbn [page_log]. rewrite <- !app_assoc.
    split; [done|]. split; [done|]. split; [|done]. by apply Forall_app.
Qed.

Lemma main_prompt_without_assistant_witness :
  ∃ o p' evs,
    main (scripted_app Scenario.base [] (inr "asst_9")) 3
      (Inputs "Use Existing Assistant" [] false "" (Some "Draw"))
      (Page (Session None (Some [Turn "user" "hi" None None])) [])
    = (o, p')
    ∧ page_log p' = [] ++ evs
    ∧ Forall only_display evs
    ∧ (o = Normal tt →
       turns_of p'
       = turns_of (Page (Session None (Some [Turn "user" "hi" None None])) [])
         ++ [Turn "user" "Draw" None None]
       ∧ ss_assistant_id (page_session p') = None
       ∧ ∃ evs0,
           evs = evs0
                 ++ [Display
                       (Warning
                          "Please create a new assistant or enter an existing assistant ID before chatting.")]).
Proof.
  apply (main_prompt_without_assistant (scripted_app Scenario.base [] (inr "asst_9")) 3
           (Inputs "Use Existing Assistant" [] false "" (Some "Draw"))
           (Page (Session None (Some [Turn "user" "hi" None None])) []) "Draw");
    first [reflexivity | discriminate].
Defined.

Lemma main_bound aenv fuel inp p assistant :
  in_choice inp ≠ "Create New Assistant" →
  bound_assistant inp (page_session p) = Some assistant →
  ∃ evs,
    main aenv fuel inp p
    = after_sidebar aenv fuel inp
        (Page (Session (Some assistant) (ss_messages (page_session p)))
           (page_log p ++ evs))
    ∧ Forall only_display evs.
Proof.
  intros Hchoice Hbound. unfold bound_assistant in Hbound.
  destruct (in_assistant_id inp) as [|c typed] eqn:Htyped; simpl in Hbound.
  - exists nothing_typed_events. rewrite (main_nothing_typed _ _ _ _ Hchoice Htyped).
    destruct p as [[sid msgs] log]. simpl in *. subst sid.
    split; [done | by repeat constructor].
  - injection Hbound as <-. exists (use_existing_events (String c typed)).
    rewrite (main_typed _ _ _ _ Hchoice); [|by rewrite Htyped].
    rewrite Htyped. split; [done | by repeat constructor].
Qed.

(** X26: a prompt sent while the session is bound to an assistant, in a run
    that ends normally, adds exactly two turns to the session: the prompt as
    a user turn, then an assistant turn that holds the text, the downloads
    and the images that [get_agent_response] returned for that assistant and
    that prompt; the conversation has gone through that one call and nothing
    else, and the session stays bound to the assistant. *)
Theorem main_prompt_with_assistant
    aenv fuel inp p prompt assistant response downloads images tr' p' :
  in_choice inp ≠ "Create New Assistant" →
  bound_assistant inp (page_session p) = Some assistant →
  in_prompt inp = Some prompt →
  prompt ≠ "" →
  get_agent_response (core_env aenv) fuel assistant prompt (core_trace (page_log p))
  = (Normal (response, downloads, images), tr') →
  main aenv fuel inp p = (Normal tt, p') →
  turns_of p'
  = turns_of p ++ [Turn "user" prompt None None;
                   Turn "assistant" response (Some downloads) (Some images)]
  ∧ core_trace (page_log p') = tr'
  ∧ ss_assistant_id (page_session p') = Some assistant.
Proof.
  intros Hchoice Hbound Hprompt Hne Hgar Hmain.
  destruct (main_bound aenv fuel inp p assistant Hchoice Hbound) as (evs1 & Heq & Hevs1).
  rewrite Heq in Hmain. clear Heq.
  destruct p as [[sid msgs] log]. unfold turns_of. simpl in *.
  set (turns := default [] msgs).
  assert (core_trace (log ++ evs1) = core_trace log) as Hcore1
    by (by rewrite core_trace_app, (core_trace_displays _ Hevs1), app_nil_r).
  revert Hmain Hcore1. generalize (log ++ evs1). intros log1 Hmain Hcore1.
  unfold after_sidebar in Hmain.
  assert (init_messages (Page (Session (Some assistant) msgs) log1)
          = (Normal tt, Page (Session (Some assistant) (Some turns)) log1)) as Hinit.
  { unfold init_messages, abind, get_session. subst turns. by destruct msgs. }
  rewrite (abind_normal _ _ _ _ _ Hinit) in Hmain.
  rewrite (abind_normal get_messages _
             (Page (Session (Some assistant) (Some turns)) log1) turns
             (Page (Session (Some assistant) (Some turns)) log1) eq_refl) in Hmain.
  apply abind_normal_inv in Hmain as ([] & [s3 log3] & Hhist & Hchat).
  destruct (displays_inv _ _ _ _ (show_history_displays aenv turns) Hhist)
    as (Hs3 & Hcore3 & _).
  simpl in Hs3, Hcore3. subst s3. rewrite Hcore1 in Hcore3. clear Hhist.
  unfold chat in Hchat. rewrite Hprompt in Hchat.
  apply truthy_nonempty in Hne. rewrite Hne in Hchat.
  apply abind_normal_inv in Hchat as ([] & q & Hstep & Hchat).
  unfold display in Hstep. simplify_eq. cbn [page_session page_log] in Hchat.
  apply abind_normal_inv in Hchat as ([] & q & Hstep & Hchat).
  unfold append_message, get_messages, get_session, set_session, abind, aret in Hstep.
  cbn [page_session page_log ss_messages ss_assistant_id] in Hstep. simplify_eq.
  apply abind_normal_inv in Hchat as ([] & q & Hstep & Hchat).
  unfold display in Hstep. simplify_eq. cbn [page_session page_log] in Hchat.
  apply abind_normal_inv in Hchat as ([] & q & Hstep & Hchat).
  unfold display in Hstep. simplify_eq. cbn [page_session page_log] in Hchat.
  apply abind_normal_inv in Hchat as (s & q & Hstep & Hchat).
  unfold get_session in Hstep. simplify_eq.
  cbn [page_session page_log ss_assistant_id] in Hchat.
  apply abind_normal_inv in Hchat as ([] & q & Hstep & Hchat).
  unfold display in Hstep. simplify_eq. cbn [page_session page_log] in Hchat.
  apply abind_normal_inv in Hchat as ([] & q & Hstep & Hchat).
  unfold display in Hstep. simplify_eq. cbn [page_session page_log] in Hchat.
  apply abind_normal_inv in Hchat as (result & q & Hrun & Hchat).
  match type of Hrun with run_core _ ?p0 = _ =>
    destruct (run_core_response aenv fuel assistant prompt p0
                (response, downloads, images) tr') as (q' & Hrun' & Hs1 & Hcoreq)
  end.
  { cbn [page_log]. rewrite !core_trace_app. simpl. rewrite !app_nil_r.
    by rewrite Hcore3. }
  rewrite Hrun' in Hrun. simplify_eq.
  destruct q as [sq lq]. cbn [page_session page_log] in Hs1. subst sq.
  apply abind_normal_inv in Hchat as ([] & q & Hstep & Hchat).
  unfold display in Hstep. simplify_eq. cbn [page_session page_log] in Hchat.
  apply abind_normal_inv in Hchat as ([] & [s4 l4] & Hdl & Hchat).
  destruct (displays_inv _ _ _ _ (show_downloads_displays aenv downloads) Hdl)
    as (Hs4 & Hcore4 & _).
  cbn [page_session page_log] in Hs4, Hcore4. subst s4.
  apply abind_normal_inv in Hchat as ([] & [s5 l5] & Him & Hchat).
  destruct (displays_inv _ _ _ _ (show_images_displays images) Him) as (Hs5 & Hcore5 & _).
  cbn [page_session page_log] in Hs5, Hcore5. subst s5.
  unfold append_message, get_messages, get_session, set_session, abind, aret in Hchat.
  cbn [page_session page_log ss_messages ss_assistant_id] in Hchat. simplify_eq.
  cbn [page_session page_log ss_messages ss_assistant_id default from_option id].
  split; [by rewrite <- app_assoc|]. split; [|done].
  rewrite Hcore5, Hcore4, core_trace_app. simpl. by rewrite app_nil_r.
Qed.

Lemma main_prompt_with_assistant_witness :
  turns_of
    (Page
       (Session (Some "asst_1")
          (Some [Turn "user" "Draw" None None;
                 Turn "assistant" ("[Image generated: file-7.png]" +:+ newline)
                   (Some []) (Some [("file-7.png", "PNG")])]))
       (use_existing_events "asst_1"
        ++ [Display (ChatInput "You:"); Display (ChatMessage "user");
            Display (Markdown "Draw"); Display (ChatMessage "assistant");
            Display Placeholder;
            Core (EvUi Spinner "Processing your request...");
            Core (EvMessageCreate "Draw"); Core (EvRunCreate "asst_1");
            Core (EvRunRetrieve "run_1"); Core (EvSleep 1);
            Core (EvMessagesList 1); Core (EvFileContent "file-7");
            Display (PlaceholderMarkdown ("[Image generated: file-7.png]" +:+ newline));
            Display (Image "PNG");
            Display (DownloadButton "Download file-7.png" "PNG" "file-7.png" "image/png")]))
  = turns_of (Page (Session None None) [])
    ++ [Turn "user" "Draw" None None;
        Turn "assistant" ("[Image generated: file-7.png]" +:+ newline)
          (Some []) (Some [("file-7.png", "PNG")])]
  ∧ core_trace
      (page_log
         (Page
            (Session (Some "asst_1")
               (Some [Turn "user" "Draw" None None;
                      Turn "assistant" ("[Image generated: file-7.png]" +:+ newline)
                        (Some []) (Some [("file-7.png", "PNG")])]))
            (use_existing_events "asst_1"
             ++ [Display (ChatInput "You:"); Display (ChatMessage "user");
                 Display (Markdown "Draw"); Display (ChatMessage "assistant");
                 Display Placeholder;
                 Core (EvUi Spinner "Processing your request...");
                 Core (EvMessageCreate "Draw"); Core (EvRunCreate "asst_1");
                 Core (EvRunRetrieve "run_1"); Core (EvSleep 1);
                 Core (EvMessagesList 1); Core (EvFileContent "file-7");
                 Display (PlaceholderMarkdown ("[Image generated: file-7.png]" +:+ newline));
                 Display (Image "PNG");
                 Display
                   (DownloadButton "Download file-7.png" "PNG" "file-7.png" "image/png")])))
    = [EvUi Spinner "Processing your request..."; EvMessageCreate "Draw";
       EvRunCreate "asst_1"; EvRunRetrieve "run_1"; EvSleep 1; EvMessagesList 1;
       EvFileContent "file-7"]
  ∧ ss_assistant_id
      (page_session
         (Page
            (Session (Some "asst_1")
               (Some [Turn "user" "Draw" None None;
                      Turn "assistant" ("[Image generated: file-7.png]" +:+ newline)
                        (Some []) (Some [("file-7.png", "PNG")])]))
            (use_existing_events "asst_1"
             ++ [Display (ChatInput "You:"); Display (ChatMessage "user");
                 Display (Markdown "Draw"); Display (ChatMessage "assistant");
                 Display Placeholder;
                 Core (EvUi Spinner "Processing your request...");
                 Core (EvMessageCreate "Draw"); Core (EvRunCreate "asst_1");
                 Core (EvRunRetrieve "run_1"); Core (EvSleep 1);
                 Core (EvMessagesList 1); Core (EvFileContent "file-7");
                 Display (PlaceholderMarkdown ("[Image generated: file-7.png]" +:+ newline));
                 Display (Image "PNG");
                 Display
                   (DownloadButton "Download file-7.png" "PNG" "file-7.png" "image/png")])))
    = Some "asst_1".
Proof.
  apply (main_prompt_with_assistant (scripted_app Scenario.drawing [] (inr "asst_9")) 3
           (Inputs "Use Existing Assistant" [] false "asst_1" (Some "Draw"))
           (Page (Session None None) []) "Draw" "asst_1").
  - discriminate.
  - reflexivity.
  - reflexivity.
  - discriminate.
  - vm_compute. reflexivity.
  - vm_compute. reflexivity.
Defined.
